(** * FrameBuilder: the frame deferral engine of libs/hwui

    A shallow embedding of [libs/hwui/FrameBuilder.cpp].  The traversal is
    written in a small state-and-fault monad over the fields of the
    [FrameBuilder] object; the classes the file only calls into (Matrix4,
    Snapshot, SkPaint, BakedOpState factories, ...) are an interface whose
    operations are left open, so every theorem holds for any implementation
    of them. *)

From Stdlib Require Import ZArith List Bool Lia.
From Stdlib Require Import Sorting.Permutation.
From Stdlib Require String.
Import String.StringSyntax.
Delimit Scope string_scope with string.
From Stdlib Require Import Floats.SpecFloat.
Import ListNotations.

(** ** IEEE-754 binary32, the C++ [float] *)

Definition float : Type := spec_float.

Module F32.
Definition prec : Z := 24.
Definition emax : Z := 128.

Definition zero : float := S754_zero false.
(** conversion of an integer, rounding to nearest even *)
Definition of_int (z : Z) : float := binary_normalize prec emax z 0 false.
Definition one : float := of_int 1.
(** the literal [0.1f], bit pattern 0x3DCCCCCD *)
Definition tenth : float := S754_finite false 13421773 (-27).

Definition add : float -> float -> float := SFadd prec emax.
Definition sub : float -> float -> float := SFsub prec emax.
Definition mul : float -> float -> float := SFmul prec emax.
Definition opp : float -> float := SFopp.
Definition eqb : float -> float -> bool := SFeqb.
Definition ltb : float -> float -> bool := SFltb.
Definition leb : float -> float -> bool := SFleb.
End F32.


(** ** Enumerations *)

(** [OpBatchType], the closed enumeration of batch ids. *)
Inductive OpBatchType : Type :=
| Bitmap | MergedPatch | Patch | AlphaMaskTexture | Text | ColorText
| Vertices | AlphaVertices | Shadow | Functor | TextureLayer
| CopyToLayer | CopyFromLayer.

Inductive ClipMode : Type := Rectangle | RectangleList | Region.

Inductive LayerType : Type := LayerType_None | LayerType_Software | LayerType_RenderLayer.

Inductive SkColorType : Type :=
| kUnknown_SkColorType | kAlpha_8_SkColorType | kRGB_565_SkColorType
| kARGB_4444_SkColorType | kRGBA_8888_SkColorType | kBGRA_8888_SkColorType
| kIndex_8_SkColorType | kGray_8_SkColorType.

Inductive SkXfermode_Mode : Type :=
| kClear_Mode | kSrc_Mode | kDst_Mode | kSrcOver_Mode | kDstOver_Mode
| kOther_Mode (code : Z).

Inductive SkRegion_Op : Type :=
| kDifference_Op | kIntersect_Op | kUnion_Op | kXOR_Op
| kReverseDifference_Op | kReplace_Op.

Inductive ChildrenSelectMode : Type := Negative | Positive.

Inductive StrokeBehavior : Type := StyleDefined | Forced.

Definition SkColorType_eqb (a b : SkColorType) : bool :=
  match a, b with
  | kUnknown_SkColorType, kUnknown_SkColorType
  | kAlpha_8_SkColorType, kAlpha_8_SkColorType
  | kRGB_565_SkColorType, kRGB_565_SkColorType
  | kARGB_4444_SkColorType, kARGB_4444_SkColorType
  | kRGBA_8888_SkColorType, kRGBA_8888_SkColorType
  | kBGRA_8888_SkColorType, kBGRA_8888_SkColorType
  | kIndex_8_SkColorType, kIndex_8_SkColorType
  | kGray_8_SkColorType, kGray_8_SkColorType => true
  | _, _ => false
  end.

Definition isSrcOver (m : SkXfermode_Mode) : bool :=
  match m with kSrcOver_Mode => true | _ => false end.

Definition isRectangle (m : ClipMode) : bool :=
  match m with Rectangle => true | _ => false end.

(** ** Plain structs *)

Record Rect : Type := mkRect
  { Rect_left : float; Rect_top : float; Rect_right : float; Rect_bottom : float }.

(** [Rect()] *)
Definition Rect_default : Rect := mkRect F32.zero F32.zero F32.zero F32.zero.
(** [Rect(width, height)] *)
Definition Rect_wh (w h : float) : Rect := mkRect F32.zero F32.zero w h.

Record SkRect : Type := mkSkRect
  { fLeft : float; fTop : float; fRight : float; fBottom : float }.

(** [Rect(const SkRect&)] *)
Definition Rect_ofSkRect (r : SkRect) : Rect :=
  mkRect (fLeft r) (fTop r) (fRight r) (fBottom r).

Record ClipBase : Type := mkClipBase { ClipBase_mode : ClipMode; ClipBase_rect : Rect }.

(** [ClipRect(rect)] *)
Definition ClipRect (r : Rect) : ClipBase := mkClipBase Rectangle r.

Record SkBitmap : Type := mkSkBitmap
  { colorType : SkColorType; getGenerationID : Z }.

Record Chunk : Type := mkChunk
  { beginOpIndex : nat; endOpIndex : nat;
    beginChildIndex : nat; endChildIndex : nat;
    reorderChildren : bool }.

(** ** What can go wrong

    Undefined behaviour of the C++ (a null dereference, an index past the end
    of a vector, a call through a null receiver, a bad downcast) and
    [LOG_ALWAYS_FATAL] are kept apart from normal completion. *)

Inductive Fault : Type :=
| NullDereference
| IndexOutOfRange
| NullReceiver
| BadCast
| LogAlwaysFatal (msg : String.string).

Inductive outcome (St A : Type) : Type :=
| Ok (a : A) (s : St)
| Crash (f : Fault)
| OutOfFuel.

Arguments Ok {St A} a s.
Arguments Crash {St A} f.
Arguments OutOfFuel {St A}.

(** ** Opaque collaborator types *)

Class Types : Type :=
  { Matrix4 : Type;
    Vector3 : Type;
    SkPath : Type;
    SkPaint : Type;
    OffscreenBuffer : Type;
    Snapshot : Type }.

Section Model.

Context {T : Types}.

(** ** Recorded data: paints, outlines, properties, ops, nodes *)

Record Outline : Type := mkOutline
  { Outline_getShouldClip : bool;
    Outline_isEmpty : bool;
    Outline_getAlpha : float;
    Outline_getPath : option SkPath;
    Outline_willClip : bool }.

Record RevealClip : Type := mkRevealClip
  { RevealClip_willClip : bool;
    RevealClip_getBounds : Rect;
    RevealClip_getRadius : float;
    RevealClip_getPath : option SkPath }.

(** A [RenderProperties] object, as the values its getters return. *)
Record RenderProperties : Type := mkRenderProperties
  { getAlpha : float;
    getOutline : Outline;
    getScaleX : float;
    getScaleY : float;
    getLeft : Z;
    getTop : Z;
    getStaticMatrix : option Matrix4;
    getAnimationMatrix : option Matrix4;
    hasTransformMatrix : bool;
    isTransformTranslateOnly : bool;
    getTranslationX : float;
    getTranslationY : float;
    getTransformMatrix : option Matrix4;
    getWidth : Z;
    getHeight : Z;
    effectiveLayerType : LayerType;
    getClippingFlags : Z;
    getHasOverlappingRendering : bool;
    getRevealClip : RevealClip;
    getZ : float;
    getProjectBackwards : bool }.

(** The fields every [RecordedOp] has. *)
Record OpBase : Type := mkOpBase
  { unmappedBounds : Rect;
    localMatrix : Matrix4;
    localClip : option ClipBase;
    paint : option SkPaint }.

(** Ops, render nodes and display lists refer to each other.  A
    [RenderNodeOp] is an object that is reached both through
    [DisplayList::getOps] and through [DisplayList::getChildren] (and
    [mProjectedNodes]), and whose [skipInOrderDraw] flag is written through
    one and read through the other: [opAddr] is its identity. *)
Inductive RecordedOp : Type :=
| ArcOp (b : OpBase)
| BitmapOp (b : OpBase) (bitmap : SkBitmap)
| BitmapMeshOp (b : OpBase)
| BitmapRectOp (b : OpBase)
| CirclePropsOp (m : Matrix4) (c : option ClipBase) (p : option SkPaint)
                (x y radius : float)
| FunctorOp (b : OpBase)
| LinesOp (b : OpBase)
| OvalOp (b : OpBase)
| PatchOp (b : OpBase) (bitmap : SkBitmap)
| PathOp (b : OpBase)
| PointsOp (b : OpBase)
| RectOp (b : OpBase)
| RoundRectOp (b : OpBase) (rx ry : float)
| RoundRectPropsOp (m : Matrix4) (c : option ClipBase) (p : option SkPaint)
                   (l t r b rx ry : float)
| SimpleRectsOp (b : OpBase)
| TextOp (b : OpBase)
| TextOnPathOp (b : OpBase)
| TextureLayerOp (b : OpBase)
| BeginLayerOp (b : OpBase)
| EndLayerOp
| BeginUnclippedLayerOp (b : OpBase)
| EndUnclippedLayerOp
| OfRenderNodeOp (r : RenderNodeOp)
  (* ops created by the FrameBuilder itself: no receiver in the dispatch table *)
| ShadowOp (caster : RenderNodeOp) (casterAlpha : float) (casterPath : SkPath)
           (localClipBounds : Rect) (lightCenter : Vector3)
| LayerOp_ofNode (node : RenderNode)
| LayerOp (b : OpBase) (finishedLayer : nat)
| CopyToLayerOp (b : OpBase) (layerHandle : nat)
| CopyFromLayerOp (b : OpBase) (layerHandle : nat)
with RenderNodeOp : Type :=
| mkRenderNodeOp (opAddr : nat) (b : OpBase) (renderNode : RenderNode)
                 (transformFromCompositingAncestor : Matrix4)
                 (skipInOrderDraw : bool)
with RenderNode : Type :=
| mkRenderNode (properties : RenderProperties)
               (getDisplayList : option DisplayList)
               (getLayer : option OffscreenBuffer)
               (mProjectedNodes : list RenderNodeOp)
with DisplayList : Type :=
| mkDisplayList (getOps : list RecordedOp)
                (getChildren : list RenderNodeOp)
                (getChunks : list Chunk)
                (projectionReceiveIndex : Z).

Definition opAddr (r : RenderNodeOp) : nat :=
  match r with mkRenderNodeOp a _ _ _ _ => a end.
Definition RenderNodeOp_base (r : RenderNodeOp) : OpBase :=
  match r with mkRenderNodeOp _ b _ _ _ => b end.
Definition renderNode (r : RenderNodeOp) : RenderNode :=
  match r with mkRenderNodeOp _ _ n _ _ => n end.
Definition transformFromCompositingAncestor (r : RenderNodeOp) : Matrix4 :=
  match r with mkRenderNodeOp _ _ _ m _ => m end.
Definition skipInOrderDraw (r : RenderNodeOp) : bool :=
  match r with mkRenderNodeOp _ _ _ _ f => f end.

Definition properties (n : RenderNode) : RenderProperties :=
  match n with mkRenderNode p _ _ _ => p end.
Definition getDisplayList (n : RenderNode) : option DisplayList :=
  match n with mkRenderNode _ d _ _ => d end.
Definition getLayer (n : RenderNode) : option OffscreenBuffer :=
  match n with mkRenderNode _ _ l _ => l end.
Definition mProjectedNodes (n : RenderNode) : list RenderNodeOp :=
  match n with mkRenderNode _ _ _ p => p end.

Definition getOps (d : DisplayList) : list RecordedOp :=
  match d with mkDisplayList o _ _ _ => o end.
Definition getChildren (d : DisplayList) : list RenderNodeOp :=
  match d with mkDisplayList _ c _ _ => c end.
Definition getChunks (d : DisplayList) : list Chunk :=
  match d with mkDisplayList _ _ c _ => c end.
Definition projectionReceiveIndex (d : DisplayList) : Z :=
  match d with mkDisplayList _ _ _ i => i end.

(** [LayerUpdateQueue::Entry] *)
Record Entry : Type := mkEntry { Entry_renderNode : RenderNode; Entry_damage : Rect }.

(** ** Baked state and layer builders *)

Record ResolvedRenderState : Type := mkResolvedRenderState
  { transform : Matrix4;
    clipState : option ClipBase;
    clippedBounds : Rect }.

Record BakedOpState : Type := mkBakedOpState
  { computedState : ResolvedRenderState;
    BakedOpState_alpha : float;
    BakedOpState_op : RecordedOp }.

(** The calls a [LayerBuilder] receives. *)
Inductive LayerCall : Type :=
| DeferUnmergeableOp (st : BakedOpState) (batchId : OpBatchType)
| DeferMergeableOp (st : BakedOpState) (batchId : OpBatchType) (mergeId : Z)
| DeferLayerClear (r : Rect)
| Clear.

(** Modelled from the spec: [LayerBuilder] (LayerBuilder.cpp is not among the
    sources).  The spec's fields [width], [height], [repaintRect],
    [beginLayerOp?], [renderNode?], [viewportClip] and
    [activeUnclippedSaveLayers] are kept; its batches and merge index, whose
    policy FrameBuilder.cpp never looks into, are represented by [received],
    the sequence of defer calls made on the builder, oldest first. *)
Record LayerBuilder : Type := mkLayerBuilder
  { LayerBuilder_width : Z;
    LayerBuilder_height : Z;
    repaintRect : Rect;
    beginLayerOp : option OpBase;
    LayerBuilder_renderNode : option RenderNode;
    viewportClip : ClipBase;
    received : list LayerCall;
    activeUnclippedSaveLayers : list BakedOpState }.

(** [LayerBuilder(width, height, repaintRect, beginLayerOp, renderNode)] *)
Definition LayerBuilder_new (w h : Z) (repaint : Rect)
    (begin : option OpBase) (node : option RenderNode) : LayerBuilder :=
  mkLayerBuilder w h repaint begin node
    (ClipRect (Rect_wh (F32.of_int w) (F32.of_int h))) [] [].

(** ** The FrameBuilder object

    [mLayerBuilders] is in vector order ([push_back] appends).  [mLayerStack]
    and the snapshot stack of [mCanvasState] are kept with their top (the
    vector's [back()], the current snapshot) at the head.  [skipFlags] holds
    the [skipInOrderDraw] flags written so far, by op address, newest first;
    [nextHandle] counts the layer-handle cells taken from the allocator. *)
Record FrameBuilder : Type := mkFrameBuilder
  { mLayerBuilders : list LayerBuilder;
    mLayerStack : list nat;
    mCanvasState : list Snapshot;
    skipFlags : list (nat * bool);
    nextHandle : nat }.

(** ** The collaborators' operations

    Everything FrameBuilder.cpp calls but does not define.  Mutators of an
    object are functions from the old value to the new one. *)

Class Collaborators : Type :=
  { (* Matrix4 *)
    Matrix4_identity : Matrix4;
    Matrix4_multiply : Matrix4 -> Matrix4 -> Matrix4;
    Matrix4_translate : Matrix4 -> float -> float -> Matrix4;
    Matrix4_loadInverse : Matrix4 -> Matrix4;
    Matrix4_mapPoint3d : Matrix4 -> Vector3 -> Vector3;
    Matrix4_mapRect : Matrix4 -> Rect -> Rect;
    Matrix4_isSimple : Matrix4 -> bool;
    Matrix4_positiveScale : Matrix4 -> bool;
    Matrix4_isPureTranslate : Matrix4 -> bool;
    (* Rect *)
    Rect_isEmpty : Rect -> bool;
    Rect_doIntersect : Rect -> Rect -> Rect;
    Rect_roundOut : Rect -> Rect;
    Rect_getWidth : Rect -> float;
    Rect_getHeight : Rect -> float;
    (* casts between float and unsigned *)
    float_to_uint32 : float -> Z;
    (* MathUtils *)
    MathUtils_isZero : float -> bool;
    (* Skia *)
    SkPath_isEmpty : SkPath -> bool;
    SkPath_addRect : float -> float -> float -> float -> SkPath;
    Op_kIntersect : SkPath -> SkPath -> SkPath;
    SkPaint_new : SkPaint;
    SkPaint_setAlpha : SkPaint -> Z -> SkPaint;
    SkPaint_getPathEffect : SkPaint -> bool;
    SkPaint_isAntiAlias : SkPaint -> bool;
    SkPaint_getColor : SkPaint -> Z;
    SK_ColorBLACK : Z;
    PaintUtils_getXfermodeDirect : option SkPaint -> SkXfermode_Mode;
    kClip_SaveFlag : Z;
    kMatrix_SaveFlag : Z;
    (* RenderProperties, RenderNode, OffscreenBuffer *)
    CLIP_TO_BOUNDS : Z;
    CLIP_TO_CLIP_BOUNDS : Z;
    getClippingRectForFlags : RenderProperties -> Z -> Rect -> Rect;
    nothingToDraw : RenderNode -> bool;
    computeOrdering : RenderNode -> RenderNode;
    inverseTransformInWindow : OffscreenBuffer -> Matrix4;
    (* Snapshot *)
    Snapshot_root : Z -> Z -> float -> float -> float -> float -> Vector3 -> Snapshot;
    Snapshot_saved : Snapshot -> Z -> Snapshot;
    Snapshot_restored : Snapshot -> Snapshot -> Snapshot;
    Snapshot_transform : Snapshot -> Matrix4;
    Snapshot_getRenderTargetClip : Snapshot -> Rect;
    Snapshot_getRelativeLightCenter : Snapshot -> Vector3;
    Snapshot_getLocalClipBounds : Snapshot -> Rect;
    Snapshot_quickRejectConservative : Snapshot -> float -> float -> float -> float -> bool;
    Snapshot_translate : Snapshot -> float -> float -> Snapshot;
    Snapshot_concatMatrix : Snapshot -> Matrix4 -> Snapshot;
    Snapshot_scaleAlpha : Snapshot -> float -> Snapshot;
    Snapshot_clipRect : Snapshot -> float -> float -> float -> float -> SkRegion_Op -> Snapshot;
    Snapshot_setClippingRoundRect : Snapshot -> Rect -> float -> Snapshot;
    Snapshot_setClippingOutline : Snapshot -> Outline -> Snapshot;
    Snapshot_setProjectionPathMask : Snapshot -> option SkPath -> Snapshot;
    Snapshot_applyClip : Snapshot -> option ClipBase -> Matrix4 -> Snapshot;
    Snapshot_initializeViewport : Snapshot -> Z -> Z -> Snapshot;
    Snapshot_resetRoundRectClipState : Snapshot -> Snapshot;
    Snapshot_setRelativeLightCenter : Snapshot -> Vector3 -> Snapshot;
    Snapshot_loadTranslate : Snapshot -> float -> float -> float -> Snapshot;
    Snapshot_setClip : Snapshot -> float -> float -> float -> float -> Snapshot;
    (* BakedOpState factories *)
    BakedOpState_tryConstruct : Snapshot -> RecordedOp -> option BakedOpState;
    BakedOpState_tryStrokeableOpConstruct :
      Snapshot -> RecordedOp -> StrokeBehavior -> option BakedOpState;
    BakedOpState_tryShadowOpConstruct : Snapshot -> RecordedOp -> option BakedOpState;
    BakedOpState_directConstruct : ClipBase -> Rect -> RecordedOp -> BakedOpState }.

Context {C : Collaborators}.

(** ** The monad of FrameBuilder methods *)

Definition M (A : Type) : Type := FrameBuilder -> outcome FrameBuilder A.

Definition ret {A : Type} (a : A) : M A := fun s => Ok a s.

Definition bind {A B : Type} (m : M A) (k : A -> M B) : M B :=
  fun s => match m s with
           | Ok a s' => k a s'
           | Crash f => Crash f
           | OutOfFuel => OutOfFuel
           end.

Definition crash {A : Type} (f : Fault) : M A := fun _ => Crash f.
Definition outOfFuel {A : Type} : M A := fun _ => OutOfFuel.
Definition get : M FrameBuilder := fun s => Ok s s.
Definition put (s : FrameBuilder) : M unit := fun _ => Ok tt s.

Notation "x <- m ;; k" := (bind m (fun x => k))
  (at level 61, m at next level, right associativity).
Notation "m ;; k" := (bind m (fun _ => k))
  (at level 61, right associativity).

(** [*p] *)
Definition deref {A : Type} (p : option A) : M A :=
  match p with Some a => ret a | None => crash NullDereference end.

(** [v[i]] *)
Definition at_ {A : Type} (v : list A) (i : nat) : M A :=
  match nth_error v i with Some a => ret a | None => crash IndexOutOfRange end.

Definition when (b : bool) (m : M unit) : M unit := if b then m else ret tt.

(** a range-based [for], and [for (i = lo; i < hi; i++)] *)
Fixpoint forEach {A : Type} (l : list A) (body : A -> M unit) : M unit :=
  match l with
  | [] => ret tt
  | x :: l' => body x ;; forEach l' body
  end.

Definition forRange (lo hi : nat) (body : nat -> M unit) : M unit :=
  forEach (seq lo (hi - lo)) body.

(** replace element [i] of a vector (nothing happens past the end) *)
Fixpoint setNth {A : Type} (i : nat) (a : A) (l : list A) {struct l} : list A :=
  match l with
  | [] => []
  | x :: l' =>
      match i with
      | O => a :: l'
      | S i' => x :: setNth i' a l'
      end
  end.

(** ** CanvasState

    Modelled from the spec: [CanvasState] (CanvasState.cpp is not among the
    sources).  "Snapshots form a stack"; [save(flags)] returns the depth it
    was called at and pushes a snapshot of the current one;
    [restoreToCount(n)] pops until the depth is [n]; a restore below the
    initial depth is a fatal programming error.  What a snapshot holds, and
    what a pop hands back to the snapshot below (the sub-state [flags] did
    not select is shared with it), is left to [Snapshot_saved] and
    [Snapshot_restored]. *)

Definition initializeSaveStack (w h : Z) (l t r b : float) (lightCenter : Vector3)
  : M unit :=
  s <- get ;;
  put (mkFrameBuilder (mLayerBuilders s) (mLayerStack s)
         [Snapshot_root w h l t r b lightCenter] (skipFlags s) (nextHandle s)).

Definition currentSnapshot : M Snapshot :=
  s <- get ;;
  match mCanvasState s with
  | snap :: _ => ret snap
  | [] => crash NullDereference
  end.

(** every write through [writableSnapshot()] *)
Definition writeSnapshot (f : Snapshot -> Snapshot) : M unit :=
  s <- get ;;
  match mCanvasState s with
  | snap :: below =>
      put (mkFrameBuilder (mLayerBuilders s) (mLayerStack s)
             (f snap :: below) (skipFlags s) (nextHandle s))
  | [] => crash NullDereference
  end.

Definition getSaveCount : M nat :=
  s <- get ;; ret (length (mCanvasState s)).

Definition save (flags : Z) : M nat :=
  s <- get ;;
  match mCanvasState s with
  | snap :: below =>
      put (mkFrameBuilder (mLayerBuilders s) (mLayerStack s)
             (Snapshot_saved snap flags :: snap :: below)
             (skipFlags s) (nextHandle s)) ;;
      ret (length (snap :: below))
  | [] => crash NullDereference
  end.

Definition restore : M unit :=
  s <- get ;;
  match mCanvasState s with
  | removed :: restored :: below =>
      put (mkFrameBuilder (mLayerBuilders s) (mLayerStack s)
             (Snapshot_restored removed restored :: below)
             (skipFlags s) (nextHandle s))
  | _ => crash (LogAlwaysFatal "restore below initial depth"%string)
  end.

Fixpoint restoreToCount_loop (pops : nat) (saveCount : nat) : M unit :=
  match pops with
  | O => ret tt
  | S pops' =>
      d <- getSaveCount ;;
      if saveCount <? d
      then restore ;; restoreToCount_loop pops' saveCount
      else ret tt
  end.

Definition restoreToCount (saveCount : nat) : M unit :=
  d <- getSaveCount ;; restoreToCount_loop d saveCount.

Definition translate (dx dy : float) : M unit :=
  writeSnapshot (fun snap => Snapshot_translate snap dx dy).
Definition concatMatrix (m : Matrix4) : M unit :=
  writeSnapshot (fun snap => Snapshot_concatMatrix snap m).
Definition scaleAlpha (a : float) : M unit :=
  writeSnapshot (fun snap => Snapshot_scaleAlpha snap a).
Definition clipRect (l t r b : float) (op : SkRegion_Op) : M unit :=
  writeSnapshot (fun snap => Snapshot_clipRect snap l t r b op).
Definition setClippingRoundRect (bounds : Rect) (radius : float) : M unit :=
  writeSnapshot (fun snap => Snapshot_setClippingRoundRect snap bounds radius).
Definition setClippingOutline (o : Outline) : M unit :=
  writeSnapshot (fun snap => Snapshot_setClippingOutline snap o).
Definition setProjectionPathMask (p : option SkPath) : M unit :=
  writeSnapshot (fun snap => Snapshot_setProjectionPathMask snap p).
Definition quickRejectConservative (l t r b : float) : M bool :=
  snap <- currentSnapshot ;; ret (Snapshot_quickRejectConservative snap l t r b).
Definition getLocalClipBounds : M Rect :=
  snap <- currentSnapshot ;; ret (Snapshot_getLocalClipBounds snap).

(** ** The current layer *)

(** [mLayerStack.back()] *)
Definition layerStackBack : M nat :=
  s <- get ;;
  match mLayerStack s with
  | i :: _ => ret i
  | [] => crash IndexOutOfRange
  end.

(** [currentLayer()], which is [*(mLayerBuilders[mLayerStack.back()])] *)
Definition currentLayer : M LayerBuilder :=
  i <- layerStackBack ;;
  s <- get ;;
  at_ (mLayerBuilders s) i.

Definition setLayerBuilder (i : nat) (lb : LayerBuilder) : M unit :=
  s <- get ;;
  put (mkFrameBuilder (setNth i lb (mLayerBuilders s)) (mLayerStack s)
         (mCanvasState s) (skipFlags s) (nextHandle s)).

(** a call on the builder [mLayerBuilders[i]] *)
Definition callLayer (i : nat) (call : LayerCall) : M unit :=
  s <- get ;;
  lb <- at_ (mLayerBuilders s) i ;;
  setLayerBuilder i
    (mkLayerBuilder (LayerBuilder_width lb) (LayerBuilder_height lb)
       (repaintRect lb) (beginLayerOp lb) (LayerBuilder_renderNode lb)
       (viewportClip lb) (received lb ++ [call])
       (activeUnclippedSaveLayers lb)).

Definition setActiveUnclippedSaveLayers (i : nat) (stack : list BakedOpState)
  : M unit :=
  s <- get ;;
  lb <- at_ (mLayerBuilders s) i ;;
  setLayerBuilder i
    (mkLayerBuilder (LayerBuilder_width lb) (LayerBuilder_height lb)
       (repaintRect lb) (beginLayerOp lb) (LayerBuilder_renderNode lb)
       (viewportClip lb) (received lb) stack).

(** the builder [lb] after it received [calls] *)
Definition withReceived (lb : LayerBuilder) (calls : list LayerCall) : LayerBuilder :=
  mkLayerBuilder (LayerBuilder_width lb) (LayerBuilder_height lb) (repaintRect lb)
    (beginLayerOp lb) (LayerBuilder_renderNode lb) (viewportClip lb)
    (received lb ++ calls) (activeUnclippedSaveLayers lb).

(** the builder [lb] with another stack of unclipped save-layers *)
Definition withActive (lb : LayerBuilder) (stack : list BakedOpState) : LayerBuilder :=
  mkLayerBuilder (LayerBuilder_width lb) (LayerBuilder_height lb) (repaintRect lb)
    (beginLayerOp lb) (LayerBuilder_renderNode lb) (viewportClip lb)
    (received lb) stack.

(** the object [s] with builder [i] replaced *)
Definition withLayerBuilder (s : FrameBuilder) (i : nat) (lb : LayerBuilder) : FrameBuilder :=
  mkFrameBuilder (setNth i lb (mLayerBuilders s)) (mLayerStack s) (mCanvasState s)
    (skipFlags s) (nextHandle s).

(** [currentLayer().deferUnmergeableOp(mAllocator, state, batchId)] *)
Definition deferUnmergeableOp (st : BakedOpState) (batchId : OpBatchType) : M unit :=
  i <- layerStackBack ;; callLayer i (DeferUnmergeableOp st batchId).

(** [currentLayer().deferMergeableOp(mAllocator, state, batchId, mergeId)] *)
Definition deferMergeableOp (st : BakedOpState) (batchId : OpBatchType)
    (mergeId : Z) : M unit :=
  i <- layerStackBack ;; callLayer i (DeferMergeableOp st batchId mergeId).

(** [currentLayer().deferLayerClear(rect)] *)
Definition deferLayerClear (r : Rect) : M unit :=
  i <- layerStackBack ;; callLayer i (DeferLayerClear r).

(** [tryBakeOpState(op)], which is
    [BakedOpState::tryConstruct(mAllocator, *mCanvasState.writableSnapshot(), op)] *)
Definition tryBakeOpState (op : RecordedOp) : M (option BakedOpState) :=
  snap <- currentSnapshot ;; ret (BakedOpState_tryConstruct snap op).

(** ** FrameBuilder.cpp: shadows and the per-op handlers *)

Definition isNull {A : Type} (p : option A) : bool :=
  match p with Some _ => false | None => true end.

Definition nonZero (z : Z) : bool := negb (z =? 0)%Z.

(** [FrameBuilder::deferShadow] *)
Definition deferShadow (casterNodeOp : RenderNodeOp) : M unit :=
  let node := renderNode casterNodeOp in
  let properties := properties node in
  if F32.leb (getAlpha properties) F32.zero
     || F32.leb (Outline_getAlpha (getOutline properties)) F32.zero
     || isNull (Outline_getPath (getOutline properties))
     || F32.eqb (getScaleX properties) F32.zero
     || F32.eqb (getScaleY properties) F32.zero
  then ret tt (* no shadow to draw *)
  else
    casterOutlinePath <- deref (Outline_getPath (getOutline properties)) ;;
    let revealClipPath := RevealClip_getPath (getRevealClip properties) in
    if match revealClipPath with
       | Some p => SkPath_isEmpty p
       | None => false
       end
    then ret tt
    else
      let casterAlpha :=
        F32.mul (getAlpha properties) (Outline_getAlpha (getOutline properties)) in
      (* intersect the shadow-casting path with the reveal, if present *)
      let casterPath :=
        match revealClipPath with
        | Some reveal => Op_kIntersect casterOutlinePath reveal
        | None => casterOutlinePath
        end in
      (* intersect the shadow-casting path with the clipBounds, if present *)
      let casterPath :=
        if nonZero (Z.land (getClippingFlags properties) CLIP_TO_CLIP_BOUNDS)
        then
          let clipBounds :=
            getClippingRectForFlags properties CLIP_TO_CLIP_BOUNDS Rect_default in
          Op_kIntersect casterPath
            (SkPath_addRect (Rect_left clipBounds) (Rect_top clipBounds)
               (Rect_right clipBounds) (Rect_bottom clipBounds))
        else casterPath in
      localClipBounds <- getLocalClipBounds ;;
      snap <- currentSnapshot ;;
      let shadowOp :=
        ShadowOp casterNodeOp casterAlpha casterPath localClipBounds
          (Snapshot_getRelativeLightCenter snap) in
      match BakedOpState_tryShadowOpConstruct snap shadowOp with
      | Some bakedOpState => deferUnmergeableOp bakedOpState Shadow
      | None => ret tt
      end.

(** [FrameBuilder::deferStrokeableOp] *)
Definition deferStrokeableOp (op : RecordedOp) (batchId : OpBatchType)
    (strokeBehavior : StrokeBehavior) : M unit :=
  snap <- currentSnapshot ;;
  match BakedOpState_tryStrokeableOpConstruct snap op strokeBehavior with
  | None => ret tt (* quick rejected *)
  | Some bakedState => deferUnmergeableOp bakedState batchId
  end.

(** [tessBatchId] *)
Definition tessBatchId (op : OpBase) : M OpBatchType :=
  paint <- deref (paint op) ;;
  ret (if SkPaint_getPathEffect paint
       then AlphaMaskTexture
       else if SkPaint_isAntiAlias paint then AlphaVertices else Vertices).

Definition deferArcOp (op : OpBase) : M unit :=
  batchId <- tessBatchId op ;;
  deferStrokeableOp (ArcOp op) batchId StyleDefined.

(** [hasMergeableClip]: the right operand of [||] is reached, and the
    pointer dereferenced, exactly when [clipState] is null. *)
Definition hasMergeableClip (state : BakedOpState) : M bool :=
  if negb (isNull (clipState (computedState state)))
  then ret true
  else
    clip <- deref (clipState (computedState state)) ;;
    ret (isRectangle (ClipBase_mode clip)).

(** the tail of a [&&] chain that ends in [hasMergeableClip] *)
Definition andHasMergeableClip (conds : bool) (state : BakedOpState) : M bool :=
  if conds then hasMergeableClip state else ret false.

(** [FrameBuilder::deferBitmapOp] *)
Definition deferBitmapOp (op : OpBase) (bitmap : SkBitmap) : M unit :=
  baked <- tryBakeOpState (BitmapOp op bitmap) ;;
  match baked with
  | None => ret tt (* quick rejected *)
  | Some bakedState =>
      mergeable <-
        andHasMergeableClip
          (Matrix4_isSimple (transform (computedState bakedState))
           && Matrix4_positiveScale (transform (computedState bakedState))
           && isSrcOver (PaintUtils_getXfermodeDirect (paint op))
           && negb (SkColorType_eqb (colorType bitmap) kAlpha_8_SkColorType))
          bakedState ;;
      if mergeable
      then deferMergeableOp bakedState Bitmap (getGenerationID bitmap)
      else deferUnmergeableOp bakedState Bitmap
  end.

(** the shape shared by the handlers that bake and defer unmergeable *)
Definition bakeAndDeferUnmergeable (op : RecordedOp) (batchId : OpBatchType) : M unit :=
  baked <- tryBakeOpState op ;;
  match baked with
  | None => ret tt (* quick rejected *)
  | Some bakedState => deferUnmergeableOp bakedState batchId
  end.

Definition deferBitmapMeshOp (op : OpBase) : M unit :=
  bakeAndDeferUnmergeable (BitmapMeshOp op) Bitmap.

Definition deferBitmapRectOp (op : OpBase) : M unit :=
  bakeAndDeferUnmergeable (BitmapRectOp op) Bitmap.

Definition deferFunctorOp (op : OpBase) : M unit :=
  bakeAndDeferUnmergeable (FunctorOp op) Functor.

Definition deferLinesOp (op : OpBase) : M unit :=
  paint <- deref (paint op) ;;
  let batch := if SkPaint_isAntiAlias paint then AlphaVertices else Vertices in
  deferStrokeableOp (LinesOp op) batch Forced.

Definition deferOvalOp (op : OpBase) : M unit :=
  batchId <- tessBatchId op ;;
  deferStrokeableOp (OvalOp op) batchId StyleDefined.

(** [FrameBuilder::deferCirclePropsOp] *)
Definition deferCirclePropsOp (m : Matrix4) (c : option ClipBase)
    (p : option SkPaint) (x y radius : float) : M unit :=
  let unmappedBounds :=
    mkRect (F32.sub x radius) (F32.sub y radius) (F32.add x radius) (F32.add y radius) in
  deferOvalOp (mkOpBase unmappedBounds m c p).

(** [FrameBuilder::deferPatchOp] *)
Definition deferPatchOp (op : OpBase) (bitmap : SkBitmap) : M unit :=
  baked <- tryBakeOpState (PatchOp op bitmap) ;;
  match baked with
  | None => ret tt (* quick rejected *)
  | Some bakedState =>
      mergeable <-
        andHasMergeableClip
          (Matrix4_isPureTranslate (transform (computedState bakedState))
           && isSrcOver (PaintUtils_getXfermodeDirect (paint op)))
          bakedState ;;
      if mergeable
      then deferMergeableOp bakedState MergedPatch (getGenerationID bitmap)
      else deferUnmergeableOp bakedState Bitmap
  end.

(** [FrameBuilder::deferPathOp] *)
Definition deferPathOp (op : OpBase) : M unit :=
  deferStrokeableOp (PathOp op) Bitmap StyleDefined.

Definition deferPointsOp (op : OpBase) : M unit :=
  paint <- deref (paint op) ;;
  let batch := if SkPaint_isAntiAlias paint then AlphaVertices else Vertices in
  deferStrokeableOp (PointsOp op) batch Forced.

Definition deferRectOp (op : OpBase) : M unit :=
  batchId <- tessBatchId op ;;
  deferStrokeableOp (RectOp op) batchId StyleDefined.

Definition deferRoundRectOp (op : OpBase) (rx ry : float) : M unit :=
  batchId <- tessBatchId op ;;
  deferStrokeableOp (RoundRectOp op rx ry) batchId StyleDefined.

Definition deferRoundRectPropsOp (m : Matrix4) (c : option ClipBase)
    (p : option SkPaint) (l t r b rx ry : float) : M unit :=
  deferRoundRectOp (mkOpBase (mkRect l t r b) m c p) rx ry.

Definition deferSimpleRectsOp (op : OpBase) : M unit :=
  bakeAndDeferUnmergeable (SimpleRectsOp op) Vertices.

(** [textBatchId] *)
Definition textBatchId (paint : SkPaint) : OpBatchType :=
  if (SkPaint_getColor paint =? SK_ColorBLACK)%Z then Text else ColorText.

(** [FrameBuilder::deferTextOp] *)
Definition deferTextOp (op : OpBase) : M unit :=
  baked <- tryBakeOpState (TextOp op) ;;
  match baked with
  | None => ret tt (* quick rejected *)
  | Some bakedState =>
      p <- deref (paint op) ;;
      let batchId := textBatchId p in
      mergeable <-
        andHasMergeableClip
          (Matrix4_isPureTranslate (transform (computedState bakedState))
           && isSrcOver (PaintUtils_getXfermodeDirect (paint op)))
          bakedState ;;
      if mergeable
      then deferMergeableOp bakedState batchId (SkPaint_getColor p)
      else deferUnmergeableOp bakedState batchId
  end.

Definition deferTextOnPathOp (op : OpBase) : M unit :=
  baked <- tryBakeOpState (TextOnPathOp op) ;;
  match baked with
  | None => ret tt (* quick rejected *)
  | Some bakedState =>
      paint <- deref (paint op) ;;
      deferUnmergeableOp bakedState (textBatchId paint)
  end.

Definition deferTextureLayerOp (op : OpBase) : M unit :=
  bakeAndDeferUnmergeable (TextureLayerOp op) TextureLayer.

(** ** FrameBuilder.cpp: layers *)

Definition saveFlags_clip_matrix : Z := Z.lor kClip_SaveFlag kMatrix_SaveFlag.

(** [FrameBuilder::saveForLayer] *)
Definition saveForLayer (layerWidth layerHeight : Z)
    (contentTranslateX contentTranslateY : float) (repaint : Rect)
    (lightCenter : Vector3) (begin : option OpBase) (node : option RenderNode)
  : M unit :=
  save saveFlags_clip_matrix ;;
  writeSnapshot (fun snap => Snapshot_initializeViewport snap layerWidth layerHeight) ;;
  writeSnapshot Snapshot_resetRoundRectClipState ;;
  writeSnapshot (fun snap => Snapshot_setRelativeLightCenter snap lightCenter) ;;
  writeSnapshot (fun snap =>
    Snapshot_loadTranslate snap contentTranslateX contentTranslateY F32.zero) ;;
  writeSnapshot (fun snap =>
    Snapshot_setClip snap (Rect_left repaint) (Rect_top repaint)
      (Rect_right repaint) (Rect_bottom repaint)) ;;
  (* create a new layer repaint, and push its index on the stack *)
  s <- get ;;
  let newFbo := LayerBuilder_new layerWidth layerHeight repaint begin node in
  put (mkFrameBuilder (mLayerBuilders s ++ [newFbo])
         (length (mLayerBuilders s) :: mLayerStack s)
         (mCanvasState s) (skipFlags s) (nextHandle s)).

(** [FrameBuilder::restoreForLayer] *)
Definition restoreForLayer : M unit :=
  (* restore canvas, and pop finished layer off of the stack *)
  restore ;;
  s <- get ;;
  match mLayerStack s with
  | _ :: below =>
      put (mkFrameBuilder (mLayerBuilders s) below (mCanvasState s)
             (skipFlags s) (nextHandle s))
  | [] => crash IndexOutOfRange
  end.

(** [FrameBuilder::deferBeginLayerOp] *)
Definition deferBeginLayerOp (op : OpBase) : M unit :=
  let layerWidth := float_to_uint32 (Rect_getWidth (unmappedBounds op)) in
  let layerHeight := float_to_uint32 (Rect_getHeight (unmappedBounds op)) in
  previous <- currentSnapshot ;;
  let lightCenter := Snapshot_getRelativeLightCenter previous in
  (* parent content transform * canvas transform * bounds offset *)
  let contentTransform :=
    Matrix4_translate
      (Matrix4_multiply (Snapshot_transform previous) (localMatrix op))
      (Rect_left (unmappedBounds op)) (Rect_top (unmappedBounds op)) in
  let inverseContentTransform := Matrix4_loadInverse contentTransform in
  (* map the light center into layer-relative space *)
  let lightCenter := Matrix4_mapPoint3d inverseContentTransform lightCenter in
  (* clip bounds of temporary layer to parent's clip rect *)
  let saveLayerBounds := Rect_wh (F32.of_int layerWidth) (F32.of_int layerHeight) in
  let saveLayerBounds := Matrix4_mapRect contentTransform saveLayerBounds in
  let saveLayerBounds :=
    Rect_doIntersect saveLayerBounds (Snapshot_getRenderTargetClip previous) in
  let saveLayerBounds := Matrix4_mapRect inverseContentTransform saveLayerBounds in
  let saveLayerBounds :=
    Rect_doIntersect saveLayerBounds
      (Rect_wh (F32.of_int layerWidth) (F32.of_int layerHeight)) in
  let saveLayerBounds := Rect_roundOut saveLayerBounds in
  (* if bounds are reduced, will clip the layer's area by reducing required bounds *)
  let layerWidth := float_to_uint32 (Rect_getWidth saveLayerBounds) in
  let layerHeight := float_to_uint32 (Rect_getHeight saveLayerBounds) in
  (* and shifting drawing content to account for left/top side clipping *)
  let contentTranslateX := F32.opp (Rect_left saveLayerBounds) in
  let contentTranslateY := F32.opp (Rect_top saveLayerBounds) in
  saveForLayer layerWidth layerHeight contentTranslateX contentTranslateY
    (Rect_wh (F32.of_int layerWidth) (F32.of_int layerHeight))
    lightCenter (Some op) None.

(** [FrameBuilder::deferEndLayerOp] *)
Definition deferEndLayerOp : M unit :=
  finished <- currentLayer ;;
  (* a reference is bound to the begin op; nothing of it is read yet *)
  let beginLayerOp := beginLayerOp finished in
  finishedLayerIndex <- layerStackBack ;;
  restoreForLayer ;;
  (* record the draw operation into the previous layer's list of draw commands;
     the fields of the begin op are read here *)
  begin <- deref beginLayerOp ;;
  let drawLayerOp := LayerOp begin finishedLayerIndex in
  baked <- tryBakeOpState drawLayerOp ;;
  match baked with
  | Some bakedOpState =>
      (* drawn into the parent layer, which is now current *)
      deferUnmergeableOp bakedOpState Bitmap
  | None =>
      (* layer won't be drawn: delete its drawing batches *)
      callLayer finishedLayerIndex Clear
  end.

(** the allocator's [create<OffscreenBuffer*>(nullptr)] *)
Definition createLayerHandle : M nat :=
  s <- get ;;
  put (mkFrameBuilder (mLayerBuilders s) (mLayerStack s) (mCanvasState s)
         (skipFlags s) (S (nextHandle s))) ;;
  ret (nextHandle s).

(** the destination rectangle of an unclipped save-layer *)
Definition unclippedDstRect (snap : Snapshot) (op : OpBase) : Rect :=
  let boundsTransform := Matrix4_multiply (Snapshot_transform snap) (localMatrix op) in
  Rect_doIntersect (Matrix4_mapRect boundsTransform (unmappedBounds op))
    (Snapshot_getRenderTargetClip snap).

(** [FrameBuilder::deferBeginUnclippedLayerOp] *)
Definition deferBeginUnclippedLayerOp (op : OpBase) : M unit :=
  snap <- currentSnapshot ;;
  let dstRect := unclippedDstRect snap op in
  (* a holding position for the layer object *)
  layerHandle <- createLayerHandle ;;
  (* first, defer an operation to copy out the content from the rendertarget *)
  let copyToOp := CopyToLayerOp op layerHandle in
  layer <- currentLayer ;;
  let bakedState := BakedOpState_directConstruct (viewportClip layer) dstRect copyToOp in
  deferUnmergeableOp bakedState CopyToLayer ;;
  (* defer a clear rect *)
  deferLayerClear dstRect ;;
  (* and stash an operation to copy that layer back *)
  let copyFromOp := CopyFromLayerOp op layerHandle in
  layer <- currentLayer ;;
  let bakedState := BakedOpState_directConstruct (viewportClip layer) dstRect copyFromOp in
  i <- layerStackBack ;;
  setActiveUnclippedSaveLayers i (activeUnclippedSaveLayers layer ++ [bakedState]).

(** [FrameBuilder::deferEndUnclippedLayerOp] *)
Definition deferEndUnclippedLayerOp : M unit :=
  layer <- currentLayer ;;
  match rev (activeUnclippedSaveLayers layer) with
  | [] => crash (LogAlwaysFatal "no layer to end!"%string)
  | copyFromLayerOp :: _ =>
      deferUnmergeableOp copyFromLayerOp CopyFromLayer ;;
      layer <- currentLayer ;;
      i <- layerStackBack ;;
      setActiveUnclippedSaveLayers i (removelast (activeUnclippedSaveLayers layer))
  end.

(** ** FrameBuilder.cpp: z-ordered children *)

(** [ZRenderNodeOpPair], a [key_value_pair_t<float, const RenderNodeOp*>] *)
Definition ZRenderNodeOpPair : Type := (float * RenderNodeOp)%type.

(** [childOp->skipInOrderDraw = flag] *)
Definition setSkipInOrderDraw (childOp : RenderNodeOp) (flag : bool) : M unit :=
  s <- get ;;
  put (mkFrameBuilder (mLayerBuilders s) (mLayerStack s) (mCanvasState s)
         ((opAddr childOp, flag) :: skipFlags s) (nextHandle s)).

Fixpoint lookupFlag (a : nat) (flags : list (nat * bool)) : option bool :=
  match flags with
  | [] => None
  | (a', f) :: rest => if a =? a' then Some f else lookupFlag a rest
  end.

(** [op.skipInOrderDraw] *)
Definition getSkipInOrderDraw (op : RenderNodeOp) : M bool :=
  s <- get ;;
  ret (match lookupFlag (opAddr op) (skipFlags s) with
       | Some f => f
       | None => skipInOrderDraw op
       end).

(** [std::stable_sort] on pairs, which [operator<] compares by key *)
Fixpoint insertByKey (x : ZRenderNodeOpPair) (l : list ZRenderNodeOpPair)
  : list ZRenderNodeOpPair :=
  match l with
  | [] => [x]
  | y :: l' => if F32.ltb (fst x) (fst y) then x :: y :: l' else y :: insertByKey x l'
  end.

Definition stable_sort (l : list ZRenderNodeOpPair) : list ZRenderNodeOpPair :=
  fold_left (fun sorted x => insertByKey x sorted) l [].

Fixpoint buildZSortedChildList_loop (displayList : DisplayList) (chunk : Chunk)
    (indices : list nat) (zTranslatedNodes : list ZRenderNodeOpPair)
  : M (list ZRenderNodeOpPair) :=
  match indices with
  | [] => ret zTranslatedNodes
  | i :: indices' =>
      childOp <- at_ (getChildren displayList) i ;;
      let child := renderNode childOp in
      let childZ := getZ (properties child) in
      if negb (MathUtils_isZero childZ) && reorderChildren chunk
      then
        setSkipInOrderDraw childOp true ;;
        buildZSortedChildList_loop displayList chunk indices'
          (zTranslatedNodes ++ [(childZ, childOp)])
      else if negb (getProjectBackwards (properties child))
      then
        (* regular, in order drawing DisplayList *)
        setSkipInOrderDraw childOp false ;;
        buildZSortedChildList_loop displayList chunk indices' zTranslatedNodes
      else
        buildZSortedChildList_loop displayList chunk indices' zTranslatedNodes
  end.

(** [buildZSortedChildList], called on an empty vector *)
Definition buildZSortedChildList (displayList : DisplayList) (chunk : Chunk)
  : M (list ZRenderNodeOpPair) :=
  if beginChildIndex chunk =? endChildIndex chunk
  then ret []
  else
    zTranslatedNodes <-
      buildZSortedChildList_loop displayList chunk
        (seq (beginChildIndex chunk) (endChildIndex chunk - beginChildIndex chunk)) [] ;;
    (* Z sort any 3d children *)
    ret (stable_sort zTranslatedNodes).

(** [findNonNegativeIndex] *)
Fixpoint findNonNegativeIndex (zTranslatedNodes : list ZRenderNodeOpPair) : nat :=
  match zTranslatedNodes with
  | [] => 0
  | p :: rest =>
      if F32.leb F32.zero (fst p) then 0 else S (findNonNegativeIndex rest)
  end.

(** ** FrameBuilder.cpp: the traversal

    [deferNodePropsAndOps] is reached again from the handler of a
    [RenderNodeOp]; the functions below take that recursive entry as
    [recurse], and the knot is tied by [deferNodePropsAndOps] on the depth of
    the node tree. *)

Section Traversal.

Variable recurse : RenderNode -> M unit.

(** [FrameBuilder::deferRenderNodeOpImpl] *)
Definition deferRenderNodeOpImpl (op : RenderNodeOp) : M unit :=
  if nothingToDraw (renderNode op) then ret tt
  else
    count <- save saveFlags_clip_matrix ;;
    (* apply state from RecordedOp (clip first, since op's clip is transformed
       by current matrix) *)
    writeSnapshot (fun snap =>
      Snapshot_applyClip snap (localClip (RenderNodeOp_base op))
        (Snapshot_transform snap)) ;;
    concatMatrix (localMatrix (RenderNodeOp_base op)) ;;
    (* then apply state from node properties, and defer ops *)
    recurse (renderNode op) ;;
    restoreToCount count.

(** [FrameBuilder::deferRenderNodeOp] *)
Definition deferRenderNodeOp (op : RenderNodeOp) : M unit :=
  skip <- getSkipInOrderDraw op ;;
  if negb skip then deferRenderNodeOpImpl op else ret tt.

(** the [while] loop of [defer3dChildren]; every iteration advances one of
    the two indices, so [steps] bounds the iterations left *)
Fixpoint defer3dChildren_loop (steps : nat)
    (zTranslatedNodes : list ZRenderNodeOpPair)
    (endIndex shadowIndex drawIndex : nat) (lastCasterZ : float)
    {struct steps} : M unit :=
  if (shadowIndex <? endIndex) || (drawIndex <? endIndex)
  then
    match steps with
    | O => outOfFuel
    | S steps' =>
        let draw :=
          childOp <- at_ zTranslatedNodes drawIndex ;;
          deferRenderNodeOpImpl (snd childOp) ;;
          defer3dChildren_loop steps' zTranslatedNodes endIndex
            shadowIndex (S drawIndex) lastCasterZ in
        if shadowIndex <? endIndex
        then
          caster <- at_ zTranslatedNodes shadowIndex ;;
          let casterNodeOp := snd caster in
          let casterZ := fst caster in
          (* attempt to render the shadow if the caster about to be drawn is
             its caster, OR if its caster's Z value is similar to the previous
             potential caster *)
          if (shadowIndex =? drawIndex)
             || F32.ltb (F32.sub casterZ lastCasterZ) F32.tenth
          then
            deferShadow casterNodeOp ;;
            (* lastCasterZ = casterZ; shadowIndex++; continue *)
            defer3dChildren_loop steps' zTranslatedNodes endIndex
              (S shadowIndex) drawIndex casterZ
          else draw
        else draw
    end
  else ret tt.

Definition isNegative (mode : ChildrenSelectMode) : bool :=
  match mode with Negative => true | Positive => false end.

(** [FrameBuilder::defer3dChildren] *)
Definition defer3dChildren (mode : ChildrenSelectMode)
    (zTranslatedNodes : list ZRenderNodeOpPair) : M unit :=
  let size := length zTranslatedNodes in
  match zTranslatedNodes with
  | [] => ret tt
  | first :: _ =>
      if (isNegative mode && F32.ltb F32.zero (fst first))
         || (negb (isNegative mode)
             && F32.ltb (fst (last zTranslatedNodes first)) F32.zero)
      then ret tt (* no 3d children to draw *)
      else
        let nonNegativeIndex := findNonNegativeIndex zTranslatedNodes in
        let drawIndex := if isNegative mode then 0 else nonNegativeIndex in
        let endIndex := if isNegative mode then nonNegativeIndex else size in
        (* Negative: draw no shadows; Positive: potentially a shadow for each *)
        let shadowIndex := if isNegative mode then endIndex else drawIndex in
        defer3dChildren_loop (2 * size) zTranslatedNodes
          endIndex shadowIndex drawIndex F32.zero
  end.

(** [FrameBuilder::deferProjectedChildren] *)
Definition deferProjectedChildren (node : RenderNode) : M unit :=
  let projectionReceiverOutline := Outline_getPath (getOutline (properties node)) in
  count <- save saveFlags_clip_matrix ;;
  displayList <- deref (getDisplayList node) ;;
  op <- (if (projectionReceiveIndex displayList <? 0)%Z
         then crash IndexOutOfRange
         else at_ (getOps displayList)
                (Z.to_nat (projectionReceiveIndex displayList))) ;;
  backgroundOp <- match op with
                  | OfRenderNodeOp r => ret r
                  | _ => crash BadCast
                  end ;;
  let backgroundProps := properties (renderNode backgroundOp) in
  (* transform renderer to match background we're projecting onto *)
  translate (getTranslationX backgroundProps) (getTranslationY backgroundProps) ;;
  (* if the projection receiver has an outline, we mask projected content to it *)
  setProjectionPathMask projectionReceiverOutline ;;
  (* draw projected nodes *)
  forEach (mProjectedNodes node) (fun childOp =>
    restoreTo <- save kMatrix_SaveFlag ;;
    concatMatrix (transformFromCompositingAncestor childOp) ;;
    deferRenderNodeOpImpl childOp ;;
    restoreToCount restoreTo) ;;
  restoreToCount count.

(** the call through [receivers[op->opId]]: the table built by
    [BUILD_DEFERRABLE_OP_LUT] has a receiver for every op a display list
    records and none for the ops that only the FrameBuilder creates. *)
Definition dispatch (op : RecordedOp) : M unit :=
  match op with
  | ArcOp b => deferArcOp b
  | BitmapOp b bitmap => deferBitmapOp b bitmap
  | BitmapMeshOp b => deferBitmapMeshOp b
  | BitmapRectOp b => deferBitmapRectOp b
  | CirclePropsOp m c p x y radius => deferCirclePropsOp m c p x y radius
  | FunctorOp b => deferFunctorOp b
  | LinesOp b => deferLinesOp b
  | OvalOp b => deferOvalOp b
  | PatchOp b bitmap => deferPatchOp b bitmap
  | PathOp b => deferPathOp b
  | PointsOp b => deferPointsOp b
  | RectOp b => deferRectOp b
  | RoundRectOp b rx ry => deferRoundRectOp b rx ry
  | RoundRectPropsOp m c p l t r b rx ry => deferRoundRectPropsOp m c p l t r b rx ry
  | SimpleRectsOp b => deferSimpleRectsOp b
  | TextOp b => deferTextOp b
  | TextOnPathOp b => deferTextOnPathOp b
  | TextureLayerOp b => deferTextureLayerOp b
  | BeginLayerOp b => deferBeginLayerOp b
  | EndLayerOp => deferEndLayerOp
  | BeginUnclippedLayerOp b => deferBeginUnclippedLayerOp b
  | EndUnclippedLayerOp => deferEndUnclippedLayerOp
  | OfRenderNodeOp r => deferRenderNodeOp r
  | ShadowOp _ _ _ _ _ | LayerOp_ofNode _ | LayerOp _ _
  | CopyToLayerOp _ _ | CopyFromLayerOp _ _ => crash NullReceiver
  end.

(** [FrameBuilder::deferNodeOps] *)
Definition deferNodeOps (node : RenderNode) : M unit :=
  displayList <- deref (getDisplayList node) ;;
  forEach (getChunks displayList) (fun chunk =>
    zTranslatedNodes <- buildZSortedChildList displayList chunk ;;
    defer3dChildren Negative zTranslatedNodes ;;
    forRange (beginOpIndex chunk) (endOpIndex chunk) (fun opIndex =>
      op <- at_ (getOps displayList) opIndex ;;
      dispatch op ;;
      when (negb (isNull (head (mProjectedNodes node)))
            && (0 <=? projectionReceiveIndex displayList)%Z
            && (Z.of_nat opIndex =? projectionReceiveIndex displayList)%Z)
        (deferProjectedChildren node)) ;;
    defer3dChildren Positive zTranslatedNodes).

(** whether [deferNodePropsAndOps] rejects the node at its first test *)
Definition rejected (properties : RenderProperties) : bool :=
  F32.leb (getAlpha properties) F32.zero
  || (Outline_getShouldClip (getOutline properties)
      && Outline_isEmpty (getOutline properties))
  || F32.eqb (getScaleX properties) F32.zero
  || F32.eqb (getScaleY properties) F32.zero.

(** lines 95-153 of [deferNodePropsAndOps]: the node's properties are applied
    to the canvas state; the result is [saveLayerBounds] *)
Definition applyNodeProperties (props : RenderProperties) : M Rect :=
  when (nonZero (getLeft props) || nonZero (getTop props))
    (translate (F32.of_int (getLeft props)) (F32.of_int (getTop props))) ;;
  match getStaticMatrix props with
  | Some m => concatMatrix m
  | None =>
      match getAnimationMatrix props with
      | Some m => concatMatrix m
      | None => ret tt
      end
  end ;;
  when (hasTransformMatrix props)
    (if isTransformTranslateOnly props
     then translate (getTranslationX props) (getTranslationY props)
     else m <- deref (getTransformMatrix props) ;; concatMatrix m) ;;
  let width := getWidth props in
  let height := getHeight props in
  let isLayer :=
    match effectiveLayerType props with LayerType_None => false | _ => true end in
  let clipFlags := getClippingFlags props in
  boundsAndFlags <-
    (if F32.ltb (getAlpha props) F32.one
     then
       let clipFlags :=
         if isLayer
         then Z.land clipFlags (Z.lnot CLIP_TO_BOUNDS) (* bounds clipping done by layer *)
         else clipFlags in
       if isLayer || negb (getHasOverlappingRendering props)
       then
         (* simply scale rendering content's alpha *)
         scaleAlpha (getAlpha props) ;;
         ret (Rect_default, clipFlags)
       else
         (* schedule saveLayer by initializing saveLayerBounds *)
         let saveLayerBounds := Rect_wh (F32.of_int width) (F32.of_int height) in
         if nonZero clipFlags
         then ret (getClippingRectForFlags props clipFlags saveLayerBounds, 0%Z)
         else ret (saveLayerBounds, clipFlags)
     else ret (Rect_default, clipFlags)) ;;
  let saveLayerBounds := fst boundsAndFlags in
  let clipFlags := snd boundsAndFlags in
  when (nonZero clipFlags)
    (let clipRect' := getClippingRectForFlags props clipFlags Rect_default in
     clipRect (Rect_left clipRect') (Rect_top clipRect')
       (Rect_right clipRect') (Rect_bottom clipRect') kIntersect_Op) ;;
  (if RevealClip_willClip (getRevealClip props)
   then setClippingRoundRect (RevealClip_getBounds (getRevealClip props))
          (RevealClip_getRadius (getRevealClip props))
   else if Outline_willClip (getOutline props)
   then setClippingOutline (getOutline props)
   else ret tt) ;;
  ret saveLayerBounds.

(** [FrameBuilder::deferNodePropsAndOps], one level *)
Definition deferNodePropsAndOps_body (node : RenderNode) : M unit :=
  let props := properties node in
  if rejected props then ret tt (* rejected *)
  else
    saveLayerBounds <- applyNodeProperties props ;;
    isRejected <-
      quickRejectConservative F32.zero F32.zero
        (F32.of_int (getWidth props)) (F32.of_int (getHeight props)) ;;
    if negb isRejected
    then
      (* not rejected, so defer render as either Layer, or direct (possibly
         wrapped in saveLayer) *)
      match getLayer node with
      | Some _ =>
          (* HW layer *)
          let drawLayerOp := LayerOp_ofNode node in
          baked <- tryBakeOpState drawLayerOp ;;
          match baked with
          | Some bakedOpState =>
              (* node's layer already deferred, schedule it to render into
                 parent layer *)
              deferUnmergeableOp bakedOpState Bitmap
          | None => ret tt
          end
      | None =>
          if negb (Rect_isEmpty saveLayerBounds)
          then
            (* draw DisplayList contents within temporary *)
            let saveLayerPaint :=
              SkPaint_setAlpha SkPaint_new (float_to_uint32 (getAlpha props)) in
            deferBeginLayerOp
              (mkOpBase saveLayerBounds Matrix4_identity None (Some saveLayerPaint)) ;;
            deferNodeOps node ;;
            deferEndLayerOp
          else deferNodeOps node
      end
    else ret tt.

End Traversal.

(** [FrameBuilder::deferNodePropsAndOps]; [fuel] bounds the depth of the node
    tree below the node. *)
Fixpoint deferNodePropsAndOps (fuel : nat) (node : RenderNode) : M unit :=
  match fuel with
  | O => outOfFuel
  | S fuel' => deferNodePropsAndOps_body (deferNodePropsAndOps fuel') node
  end.

(** ** FrameBuilder.cpp: the constructor *)

(** the conversion of an [int] to [uint32_t]: the value modulo 2^32 *)
Definition int_to_uint32 (z : Z) : Z := (z mod 2 ^ 32)%Z.

Definition FrameBuilder_empty : FrameBuilder := mkFrameBuilder [] [] [] [] 0.

(** the body of the constructor's loop over the layer-update queue *)
Definition FrameBuilder_ctor_layer (fuel : nat) (entry : Entry) : M unit :=
  let layerNode := computeOrdering (Entry_renderNode entry) in
  let layerDamage := Entry_damage entry in
  (* map current light center into RenderNode's coordinate space *)
  snap <- currentSnapshot ;;
  layer <- deref (getLayer layerNode) ;;
  let lightCenter :=
    Matrix4_mapPoint3d (inverseTransformInWindow layer)
      (Snapshot_getRelativeLightCenter snap) in
  (* the int width and height are converted to the uint32_t parameters *)
  saveForLayer (int_to_uint32 (getWidth (properties layerNode)))
    (int_to_uint32 (getHeight (properties layerNode)))
    F32.zero F32.zero layerDamage lightCenter None (Some layerNode) ;;
  when (negb (isNull (getDisplayList layerNode)))
    (deferNodeOps (deferNodePropsAndOps fuel) layerNode) ;;
  restoreForLayer.

(** the body of the constructor's loop over the root nodes *)
Definition FrameBuilder_ctor_node (fuel : nat) (node : RenderNode) : M unit :=
  if nothingToDraw node then ret tt
  else
    let node := computeOrdering node in
    count <- save saveFlags_clip_matrix ;;
    deferNodePropsAndOps (S fuel) node ;;
    restoreToCount count.

(** [FrameBuilder::FrameBuilder], on the freshly allocated object *)
Definition FrameBuilder_ctor (fuel : nat) (layers : list Entry) (clip : SkRect)
    (viewportWidth viewportHeight : Z) (nodes : list RenderNode)
    (lightCenter : Vector3) : M unit :=
  (* prepare to defer Fbo0 *)
  let fbo0 :=
    LayerBuilder_new viewportWidth viewportHeight (Rect_ofSkRect clip) None None in
  s <- get ;;
  put (mkFrameBuilder (mLayerBuilders s ++ [fbo0]) (0 :: mLayerStack s)
         (mCanvasState s) (skipFlags s) (nextHandle s)) ;;
  initializeSaveStack viewportWidth viewportHeight
    (fLeft clip) (fTop clip) (fRight clip) (fBottom clip) lightCenter ;;
  (* render all layers to be updated, in order; defer in reverse order:
     for (int i = layers.entries().size() - 1; i >= 0; i--) *)
  forEach (rev (seq 0 (length layers))) (fun i =>
    entry <- at_ layers i ;;
    FrameBuilder_ctor_layer fuel entry) ;;
  (* defer Fbo0 *)
  forEach nodes (FrameBuilder_ctor_node fuel).

(** the object a [new FrameBuilder(...)] leaves behind *)
Definition FrameBuilder_new (fuel : nat) (layers : list Entry) (clip : SkRect)
    (viewportWidth viewportHeight : Z) (nodes : list RenderNode)
    (lightCenter : Vector3) : outcome FrameBuilder unit :=
  FrameBuilder_ctor fuel layers clip viewportWidth viewportHeight nodes lightCenter
    FrameBuilder_empty.

(** ** Balance: what a traversal must leave as it found it *)

(** the object [s] with another stack of snapshots *)
Definition withCanvas (s : FrameBuilder) (snapshots : list Snapshot) : FrameBuilder :=
  mkFrameBuilder (mLayerBuilders s) (mLayerStack s) snapshots
    (skipFlags s) (nextHandle s).

(** a builder without the calls it received *)
Definition skeleton (lb : LayerBuilder) : LayerBuilder :=
  mkLayerBuilder (LayerBuilder_width lb) (LayerBuilder_height lb) (repaintRect lb)
    (beginLayerOp lb) (LayerBuilder_renderNode lb) (viewportClip lb)
    [] (activeUnclippedSaveLayers lb).

(** there is a current snapshot and a current layer *)
Definition valid (s : FrameBuilder) : Prop :=
  mCanvasState s <> []
  /\ exists i below, mLayerStack s = i :: below /\ i < length (mLayerBuilders s).

(** from [s] to [s']: the layer stack and the depth of the save stack are as
    they were, no builder lost its identity or changed its stack of unclipped
    save-layers, and the builders that came on top are save-layer builders
    (they stand for no render node) *)
Record preserves (s s' : FrameBuilder) : Prop := mkPreserves
  { pres_stack : mLayerStack s' = mLayerStack s;
    pres_depth : length (mCanvasState s') = length (mCanvasState s);
    pres_builders :
      exists added,
        map skeleton (mLayerBuilders s') = map skeleton (mLayerBuilders s) ++ added
        /\ Forall (fun lb => LayerBuilder_renderNode lb = None) added }.

(** a computation that completes on every valid object, leaves its layer
    stack, save depth and builders' skeletons alone, and returns a value in [R] *)
Definition quiet {A : Type} (R : A -> Prop) (m : M A) : Prop :=
  forall s, valid s ->
    exists a s', m s = Ok a s'
                 /\ mLayerStack s' = mLayerStack s
                 /\ length (mCanvasState s') = length (mCanvasState s)
                 /\ map skeleton (mLayerBuilders s') = map skeleton (mLayerBuilders s)
                 /\ R a.

(** a computation that completes on every valid object and is balanced *)
Definition keeps (m : M unit) : Prop :=
  forall s, valid s -> exists s', m s = Ok tt s' /\ preserves s s'.

(** the save-layers a display list has open *)
Inductive Bracket : Type := Clipped | Unclipped.

(** [s] was reached from [s0] with the save-layers [open] begun and not
    ended, and balanced work in between *)
Fixpoint within (open : list Bracket) (s0 s : FrameBuilder) : Prop :=
  match open with
  | [] => preserves s0 s
  | Clipped :: outer =>
      exists s1 s1' b,
        within outer s0 s1 /\ valid s1
        /\ deferBeginLayerOp b s1 = Ok tt s1' /\ preserves s1' s
  | Unclipped :: outer =>
      exists s1 s1' b,
        within outer s0 s1 /\ valid s1
        /\ deferBeginUnclippedLayerOp b s1 = Ok tt s1' /\ preserves s1' s
  end.

(** a computation that takes the save-layers [open] to [open'] *)
Definition moves (open open' : list Bracket) (m : M unit) : Prop :=
  forall s0 s, valid s0 -> within open s0 s ->
    exists s', m s = Ok tt s' /\ within open' s0 s'.

(** ** Well-formed input: no dangling pointer, balanced save-layers *)

Definition hasPaint (p : option SkPaint) : bool := negb (isNull p).

(** the op can be dispatched with the save-layers [open]; the result is the
    save-layers open after it *)
Definition checkOp (childOK : RenderNode -> bool) (open : list Bracket)
    (op : RecordedOp) : option (list Bracket) :=
  match op with
  | ArcOp b | LinesOp b | OvalOp b | PointsOp b | RectOp b | RoundRectOp b _ _
  | TextOp b | TextOnPathOp b =>
      if hasPaint (paint b) then Some open else None
  | CirclePropsOp _ _ p _ _ _ | RoundRectPropsOp _ _ p _ _ _ _ _ _ =>
      if hasPaint p then Some open else None
  | BitmapOp _ _ | BitmapMeshOp _ | BitmapRectOp _ | FunctorOp _ | PatchOp _ _
  | PathOp _ | SimpleRectsOp _ | TextureLayerOp _ => Some open
  | BeginLayerOp _ => Some (Clipped :: open)
  | EndLayerOp =>
      match open with Clipped :: outer => Some outer | _ => None end
  | BeginUnclippedLayerOp _ => Some (Unclipped :: open)
  | EndUnclippedLayerOp =>
      match open with Unclipped :: outer => Some outer | _ => None end
  | OfRenderNodeOp r => if childOK (renderNode r) then Some open else None
  | ShadowOp _ _ _ _ _ | LayerOp_ofNode _ | LayerOp _ _
  | CopyToLayerOp _ _ | CopyFromLayerOp _ _ => None
  end.

(** the ops a display list records that draw something themselves *)
Definition isPlainDraw (op : RecordedOp) : bool :=
  match op with
  | ArcOp _ | BitmapOp _ _ | BitmapMeshOp _ | BitmapRectOp _
  | CirclePropsOp _ _ _ _ _ _ | FunctorOp _ | LinesOp _ | OvalOp _ | PatchOp _ _
  | PathOp _ | PointsOp _ | RectOp _ | RoundRectOp _ _ _
  | RoundRectPropsOp _ _ _ _ _ _ _ _ _ | SimpleRectsOp _ | TextOp _
  | TextOnPathOp _ | TextureLayerOp _ => true
  | _ => false
  end.

(** the test [deferNodeOps] makes after each op *)
Definition projectsAt (node : RenderNode) (displayList : DisplayList)
    (opIndex : nat) : bool :=
  negb (isNull (head (mProjectedNodes node)))
  && (0 <=? projectionReceiveIndex displayList)%Z
  && (Z.of_nat opIndex =? projectionReceiveIndex displayList)%Z.

Definition isRenderNodeOp (op : RecordedOp) : bool :=
  match op with OfRenderNodeOp _ => true | _ => false end.

Fixpoint checkOps (childOK : RenderNode -> bool) (node : RenderNode)
    (displayList : DisplayList) (indices : list nat) (open : list Bracket)
  : option (list Bracket) :=
  match indices with
  | [] => Some open
  | opIndex :: indices' =>
      match nth_error (getOps displayList) opIndex with
      | None => None
      | Some op =>
          match checkOp childOK open op with
          | None => None
          | Some open' =>
              if projectsAt node displayList opIndex && negb (isRenderNodeOp op)
              then None
              else checkOps childOK node displayList indices' open'
          end
      end
  end.

Definition checkChunk (childOK : RenderNode -> bool) (node : RenderNode)
    (displayList : DisplayList) (chunk : Chunk) (open : list Bracket)
  : option (list Bracket) :=
  if (endChildIndex chunk <=? length (getChildren displayList))
     || (endChildIndex chunk <=? beginChildIndex chunk)
  then checkOps childOK node displayList
         (seq (beginOpIndex chunk) (endOpIndex chunk - beginOpIndex chunk)) open
  else None.

Fixpoint checkChunks (childOK : RenderNode -> bool) (node : RenderNode)
    (displayList : DisplayList) (chunks : list Chunk) (open : list Bracket)
  : option (list Bracket) :=
  match chunks with
  | [] => Some open
  | chunk :: chunks' =>
      match checkChunk childOK node displayList chunk open with
      | None => None
      | Some open' => checkChunks childOK node displayList chunks' open'
      end
  end.

Definition noneOpen (open : option (list Bracket)) : bool :=
  match open with Some [] => true | _ => false end.

Definition checkDisplayList (childOK : RenderNode -> bool) (node : RenderNode)
    (displayList : DisplayList) : bool :=
  forallb (fun r => childOK (renderNode r)) (getChildren displayList)
  && forallb (fun r => childOK (renderNode r)) (mProjectedNodes node)
  && noneOpen (checkChunks childOK node displayList (getChunks displayList) []).

Definition transformOK (props : RenderProperties) : bool :=
  negb (hasTransformMatrix props) || isTransformTranslateOnly props
  || negb (isNull (getTransformMatrix props)).

Definition checkNode (childOK : RenderNode -> bool) (node : RenderNode) : bool :=
  transformOK (properties node)
  && match getDisplayList node with
     | Some displayList => checkDisplayList childOK node displayList
     | None => negb (isNull (getLayer node))
     end.

(** A node is well formed to depth [depth]: every pointer the traversal
    follows is there, every index is in range, the save-layer ops of every
    display list are properly nested, and so it is for the children that
    have something to draw, which are at most [depth] levels deep. *)
Fixpoint wellFormed (depth : nat) (node : RenderNode) : bool :=
  checkNode
    (fun child =>
       nothingToDraw child
       || match depth with
          | O => false
          | S depth' => wellFormed depth' child
          end)
    node.

(** the children that [deferNodePropsAndOps depth] can be called on *)
Definition childOKat (depth : nat) (child : RenderNode) : bool :=
  nothingToDraw child
  || match depth with
     | O => false
     | S depth' => wellFormed depth' child
     end.

(** the builder the constructor creates for an entry of the queue *)
Definition entryBuilder (entry : Entry) : LayerBuilder :=
  let layerNode := computeOrdering (Entry_renderNode entry) in
  LayerBuilder_new (int_to_uint32 (getWidth (properties layerNode)))
    (int_to_uint32 (getHeight (properties layerNode)))
    (Entry_damage entry) None (Some layerNode).

(** the render nodes the builders stand for, in index order *)
Definition layerNodes (builders : list LayerBuilder) : list RenderNode :=
  flat_map (fun lb => match LayerBuilder_renderNode lb with
                      | Some node => [node]
                      | None => []
                      end)
           builders.

(** [builders] holds the builders of [entries], in order, each followed by
    the save-layer builders that were created while its node was deferred *)
Fixpoint queueLayout (entries : list Entry) (builders : list LayerBuilder) : Prop :=
  match entries with
  | [] => Forall (fun lb => LayerBuilder_renderNode lb = None) builders
  | entry :: entries' =>
      exists added rest,
        builders = entryBuilder entry :: added ++ rest
        /\ Forall (fun lb => LayerBuilder_renderNode lb = None) added
        /\ queueLayout entries' rest
  end.

(** an entry of the queue is well formed *)
Definition wellFormedEntry (depth : nat) (entry : Entry) : bool :=
  let layerNode := computeOrdering (Entry_renderNode entry) in
  negb (isNull (getLayer layerNode))
  && match getDisplayList layerNode with
     | Some displayList => checkDisplayList (childOKat depth) layerNode displayList
     | None => true
     end.

(** the layer-update queue and the root nodes are well formed *)
Definition wellFormedInput (depth : nat) (layers : list Entry)
    (nodes : list RenderNode) : bool :=
  forallb (wellFormedEntry depth) layers
  && forallb (fun node =>
                nothingToDraw node || wellFormed depth (computeOrdering node))
             nodes.

(** baking gives every op it accepts a clip state *)
Definition bakesClipState : Prop :=
  forall snap op st,
    BakedOpState_tryConstruct snap op = Some st ->
    clipState (computedState st) <> None.

(** ** Vocabulary of the properties *)

(** the shapes the spec calls strokeable tessellated *)
Inductive Tessellated : Type :=
| TRect | TRoundRect (rx ry : float) | TOval | TArc | TPath.

Definition tessellatedOp (k : Tessellated) (b : OpBase) : RecordedOp :=
  match k with
  | TRect => RectOp b
  | TRoundRect rx ry => RoundRectOp b rx ry
  | TOval => OvalOp b
  | TArc => ArcOp b
  | TPath => PathOp b
  end.

(** the batch id the spec gives a tessellated shape with paint [p] *)
Definition paintBatch (p : SkPaint) : OpBatchType :=
  if SkPaint_getPathEffect p then AlphaMaskTexture
  else if SkPaint_isAntiAlias p then AlphaVertices else Vertices.

(** the batch id the code gives a tessellated shape *)
Definition strokeableBatch (k : Tessellated) (p : SkPaint) : OpBatchType :=
  match k with
  | TPath => Bitmap
  | _ => paintBatch p
  end.

(** [body] does nothing but hand [calls] to the current layer builder, when
    run with the snapshots [canvas] *)
Definition drawsInto (body : M unit) (canvas : list Snapshot)
    (calls : list LayerCall) : Prop :=
  forall s i below lb,
    mCanvasState s = canvas ->
    mLayerStack s = i :: below ->
    nth_error (mLayerBuilders s) i = Some lb ->
    body s = Ok tt (withLayerBuilder s i (withReceived lb calls)).

(** a computation that writes nothing but snapshots *)
Definition canvasOnly {A : Type} (m : M A) : Prop :=
  forall s a s',
    m s = Ok a s' ->
    mLayerBuilders s' = mLayerBuilders s /\ mLayerStack s' = mLayerStack s
    /\ skipFlags s' = skipFlags s /\ nextHandle s' = nextHandle s.

(** what [defer3dChildren] emits: the shadow of a caster, or a child *)
Inductive Emit : Type :=
| EmitShadow (caster : RenderNodeOp)
| EmitDraw (child : RenderNodeOp).

Definition perform (recurse : RenderNode -> M unit) (e : Emit) : M unit :=
  match e with
  | EmitShadow caster => deferShadow caster
  | EmitDraw child => deferRenderNodeOpImpl recurse child
  end.

(** [casterZ - lastCasterZ < 0.1f] *)
Definition nearPrevious (casterZ lastCasterZ : float) : bool :=
  F32.ltb (F32.sub casterZ lastCasterZ) F32.tenth.

(** The shadow interleaving rule in the spec's words: with [shadowIndex] and
    [drawIndex] walking forward over [zChildren], a shadow for
    [zChildren[shadowIndex]] is emitted first if [shadowIndex == drawIndex] or
    its z is within 0.1 of the last caster's, and [shadowIndex] advances;
    else the draw for [zChildren[drawIndex]] is emitted and [drawIndex]
    advances. *)
Inductive ShadowRule (zChildren : list ZRenderNodeOpPair) (endIndex : nat)
  : nat -> nat -> float -> list Emit -> Prop :=
| rule_done : forall shadowIndex drawIndex lastCasterZ,
    endIndex <= shadowIndex -> endIndex <= drawIndex ->
    ShadowRule zChildren endIndex shadowIndex drawIndex lastCasterZ []
| rule_shadow : forall shadowIndex drawIndex lastCasterZ caster rest,
    shadowIndex < endIndex ->
    nth_error zChildren shadowIndex = Some caster ->
    shadowIndex = drawIndex \/ nearPrevious (fst caster) lastCasterZ = true ->
    ShadowRule zChildren endIndex (S shadowIndex) drawIndex (fst caster) rest ->
    ShadowRule zChildren endIndex shadowIndex drawIndex lastCasterZ
      (EmitShadow (snd caster) :: rest)
| rule_draw : forall shadowIndex drawIndex lastCasterZ child rest,
    drawIndex < endIndex ->
    nth_error zChildren drawIndex = Some child ->
    (forall caster, shadowIndex < endIndex ->
       nth_error zChildren shadowIndex = Some caster ->
       shadowIndex <> drawIndex /\ nearPrevious (fst caster) lastCasterZ = false) ->
    ShadowRule zChildren endIndex shadowIndex (S drawIndex) lastCasterZ rest ->
    ShadowRule zChildren endIndex shadowIndex drawIndex lastCasterZ
      (EmitDraw (snd child) :: rest).

(** the early return of the positive phase: no child, or a last key below 0 *)
Definition noPositiveChildren (zChildren : list ZRenderNodeOpPair) : bool :=
  match zChildren with
  | [] => true
  | first :: _ => F32.ltb (fst (last zChildren first)) F32.zero
  end.

(** the keys of scenario S5: [2.0f], and [2.05f] (bit pattern 0x40033333) *)
Definition z_2_0 : float := F32.of_int 2.
Definition z_2_05 : float := S754_finite false 8598323 (-22).

(** ** Vocabulary of the further properties *)

(** the casters whose shadow a sequence of emits asks for, in order *)
Fixpoint shadowsOf (emitted : list Emit) : list RenderNodeOp :=
  match emitted with
  | [] => []
  | EmitShadow caster :: rest => caster :: shadowsOf rest
  | EmitDraw _ :: rest => shadowsOf rest
  end.

(** the children a sequence of emits draws, in order *)
Fixpoint drawsOf (emitted : list Emit) : list RenderNodeOp :=
  match emitted with
  | [] => []
  | EmitShadow _ :: rest => drawsOf rest
  | EmitDraw child :: rest => child :: drawsOf rest
  end.

(** the children a chunk covers: [getChildren()[beginChildIndex .. endChildIndex)] *)
Definition chunkChildren (displayList : DisplayList) (chunk : Chunk) : list RenderNodeOp :=
  firstn (endChildIndex chunk - beginChildIndex chunk)
    (skipn (beginChildIndex chunk) (getChildren displayList)).

(** the test that moves a child from the drawing order to the z list *)
Definition isZChild (chunk : Chunk) (childOp : RenderNodeOp) : bool :=
  negb (MathUtils_isZero (getZ (properties (renderNode childOp))))
  && reorderChildren chunk.

(** the pairs [buildZSortedChildList] pushes for [children], in push order *)
Definition zPairs (chunk : Chunk) (children : list RenderNodeOp) : list ZRenderNodeOpPair :=
  map (fun childOp => (getZ (properties (renderNode childOp)), childOp))
    (filter (isZChild chunk) children).

(** the writes to [skipInOrderDraw] it makes for [children], in program order *)
Definition flagWrites (chunk : Chunk) (children : list RenderNodeOp) : list (nat * bool) :=
  flat_map (fun childOp =>
              if isZChild chunk childOp then [(opAddr childOp, true)]
              else if negb (getProjectBackwards (properties (renderNode childOp)))
                   then [(opAddr childOp, false)]
                   else [])
    children.

(** the object [s] with other values of the [skipInOrderDraw] fields *)
Definition withSkipFlags (s : FrameBuilder) (flags : list (nat * bool)) : FrameBuilder :=
  mkFrameBuilder (mLayerBuilders s) (mLayerStack s) (mCanvasState s) flags (nextHandle s).

(** the snapshot [saveForLayer] leaves on top of [snap] *)
Definition layerSnapshot (snap : Snapshot) (layerWidth layerHeight : Z)
    (contentTranslateX contentTranslateY : float) (repaint : Rect)
    (lightCenter : Vector3) : Snapshot :=
  Snapshot_setClip
    (Snapshot_loadTranslate
       (Snapshot_setRelativeLightCenter
          (Snapshot_resetRoundRectClipState
             (Snapshot_initializeViewport (Snapshot_saved snap saveFlags_clip_matrix)
                layerWidth layerHeight))
          lightCenter)
       contentTranslateX contentTranslateY F32.zero)
    (Rect_left repaint) (Rect_top repaint) (Rect_right repaint) (Rect_bottom repaint).

(** the op a handler bakes: the two props ops are resolved to an oval and a
    round rect first *)
Definition resolvedOp (op : RecordedOp) : RecordedOp :=
  match op with
  | CirclePropsOp m c p x y radius =>
      OvalOp (mkOpBase (mkRect (F32.sub x radius) (F32.sub y radius)
                          (F32.add x radius) (F32.add y radius)) m c p)
  | RoundRectPropsOp m c p l t r b rx ry =>
      RoundRectOp (mkOpBase (mkRect l t r b) m c p) rx ry
  | _ => op
  end.

(** the baking a handler asks for: with the paint's stroke for the
    tessellated shapes, with a forced stroke for lines and points, plain for
    the rest *)
Definition bakeOf (snap : Snapshot) (op : RecordedOp) : option BakedOpState :=
  match resolvedOp op with
  | ArcOp _ | OvalOp _ | PathOp _ | RectOp _ | RoundRectOp _ _ _ =>
      BakedOpState_tryStrokeableOpConstruct snap (resolvedOp op) StyleDefined
  | LinesOp _ | PointsOp _ =>
      BakedOpState_tryStrokeableOpConstruct snap (resolvedOp op) Forced
  | _ => BakedOpState_tryConstruct snap (resolvedOp op)
  end.

(** [op.paint] *)
Definition paintOf (op : RecordedOp) : option SkPaint :=
  match op with
  | ArcOp b | BitmapOp b _ | BitmapMeshOp b | BitmapRectOp b | FunctorOp b | LinesOp b
  | OvalOp b | PatchOp b _ | PathOp b | PointsOp b | RectOp b | RoundRectOp b _ _
  | SimpleRectsOp b | TextOp b | TextOnPathOp b | TextureLayerOp b
  | BeginLayerOp b | BeginUnclippedLayerOp b | LayerOp b _
  | CopyToLayerOp b _ | CopyFromLayerOp b _ => paint b
  | CirclePropsOp _ _ p _ _ _ | RoundRectPropsOp _ _ p _ _ _ _ _ _ => p
  | _ => None
  end.

(** the handlers that read through [op.paint] before they bake the op *)
Definition readsPaintFirst (op : RecordedOp) : bool :=
  match op with
  | ArcOp _ | CirclePropsOp _ _ _ _ _ _ | LinesOp _ | OvalOp _ | PointsOp _
  | RectOp _ | RoundRectOp _ _ _ | RoundRectPropsOp _ _ _ _ _ _ _ _ _ => true
  | _ => false
  end.

(** the handlers that read through [op.paint] once the op is baked *)
Definition readsPaintLater (op : RecordedOp) : bool :=
  match op with
  | TextOp _ | TextOnPathOp _ => true
  | _ => false
  end.

(** the ops whose handler has a mergeable branch *)
Definition mayMerge (op : RecordedOp) : bool :=
  match op with
  | BitmapOp _ _ | PatchOp _ _ | TextOp _ => true
  | _ => false
  end.

Definition callState (call : LayerCall) : option BakedOpState :=
  match call with
  | DeferUnmergeableOp st _ | DeferMergeableOp st _ _ => Some st
  | _ => None
  end.

Definition isMergeableCall (call : LayerCall) : bool :=
  match call with
  | DeferMergeableOp _ _ _ => true
  | _ => false
  end.

(** a computation that, when it completes, has rewritten at most the current
    snapshot of the save stack, and returns a value in [R] *)
Definition topOnly {A : Type} (R : A -> Prop) (m : M A) : Prop :=
  forall s a s' snap under,
    mCanvasState s = snap :: under ->
    m s = Ok a s' ->
    R a /\ exists snap', mCanvasState s' = snap' :: under.

(** the batch of the drawing ops whose handler has one branch and takes the
    batch from the kind of op alone, or, for lines and points, from the
    paint's anti-alias flag *)
Definition fixedBatch (op : RecordedOp) : option OpBatchType :=
  match op with
  | BitmapMeshOp _ | BitmapRectOp _ => Some Bitmap
  | FunctorOp _ => Some Functor
  | LinesOp b | PointsOp b =>
      match paint b with
      | Some p => Some (if SkPaint_isAntiAlias p then AlphaVertices else Vertices)
      | None => None
      end
  | SimpleRectsOp _ => Some Vertices
  | TextureLayerOp _ => Some TextureLayer
  | _ => None
  end.

(** ** Confinement: which builders a traversal may write to *)

(** the clipped save-layers among the open ones: each has a builder of its
    own on the layer stack *)
Fixpoint clippedDepth (open : list Bracket) : nat :=
  match open with
  | [] => 0
  | Clipped :: outer => S (clippedDepth outer)
  | Unclipped :: outer => clippedDepth outer
  end.

(** builder [j] is not the current layer builder of [s] *)
Definition notCurrent (s : FrameBuilder) (j : nat) : Prop :=
  forall below, mLayerStack s <> j :: below.

(** [s] was reached from [s0] with [depth] more builders on the layer stack,
    all created since, and without a change to any builder of [s0] but its
    current one *)
Definition confined (depth : nat) (s0 s : FrameBuilder) : Prop :=
  length (mLayerBuilders s0) <= length (mLayerBuilders s)
  /\ (exists extra,
        length extra = depth
        /\ mLayerStack s = extra ++ mLayerStack s0
        /\ Forall (fun k => length (mLayerBuilders s0) <= k) extra)
  /\ (forall j, j < length (mLayerBuilders s0) -> notCurrent s0 j ->
                nth_error (mLayerBuilders s) j = nth_error (mLayerBuilders s0) j).

(** a computation that, when it completes, has left the layer stack and
    every builder but the current one as they were *)
Definition stays {A : Type} (m : M A) : Prop :=
  forall s a s',
    m s = Ok a s' ->
    mLayerStack s' = mLayerStack s
    /\ length (mLayerBuilders s') = length (mLayerBuilders s)
    /\ (forall j, notCurrent s j ->
                  nth_error (mLayerBuilders s') j = nth_error (mLayerBuilders s) j).

(** the same for a computation that writes to builder [i] *)
Definition touches {A : Type} (i : nat) (m : M A) : Prop :=
  forall s a s',
    m s = Ok a s' ->
    mLayerStack s' = mLayerStack s
    /\ length (mLayerBuilders s') = length (mLayerBuilders s)
    /\ (forall j, j <> i ->
                  nth_error (mLayerBuilders s') j = nth_error (mLayerBuilders s) j).

(** a computation that, when it completes, has taken the save-layers [open]
    to [open'] and kept the work confined *)
Definition tidy (open open' : list Bracket) (m : M unit) : Prop :=
  forall s0 s s',
    confined (clippedDepth open) s0 s -> m s = Ok tt s' ->
    confined (clippedDepth open') s0 s'.

(** a balanced computation that keeps its work confined *)
Definition tame (m : M unit) : Prop :=
  forall s s', m s = Ok tt s' -> confined 0 s s'.

End Model.

(** * A small implementation of the collaborators

    Used to run the traversal on concrete frames.  Transforms are restricted
    to translations and clips to rectangles; within that range the operations
    are the real ones (rectangle intersection, translation of rectangles).
    Baking rejects an op whose clipped bounds are empty; the conservative
    quick reject tests the bounds grown by a pixel. *)

Module Demo.

Definition fmax (a b : float) : float := if F32.ltb a b then b else a.
Definition fmin (a b : float) : float := if F32.ltb b a then b else a.

(** a translation, as its offsets *)
Definition Translation : Type := (float * float)%type.

Inductive Path : Type :=
| EmptyPath
| RectPath (l t r b : float)
| Intersect (p q : Path).

Record Paint : Type := mkPaint
  { pathEffect : bool; antiAlias : bool; color : Z; alpha : Z }.

Record Snap : Type := mkSnap
  { snapTransform : Translation;
    snapClip : Rect;
    snapAlpha : float;
    snapLight : float * float * float }.

#[export] Instance types : Types :=
  {| Matrix4 := Translation;
     Vector3 := (float * float * float)%type;
     SkPath := Path;
     SkPaint := Paint;
     OffscreenBuffer := Translation;
     Snapshot := Snap |}.

Definition multiply (m n : Translation) : Translation :=
  (F32.add (fst m) (fst n), F32.add (snd m) (snd n)).

Definition inverse (m : Translation) : Translation :=
  (F32.opp (fst m), F32.opp (snd m)).

Definition mapRect (m : Translation) (r : Rect) : Rect :=
  mkRect (F32.add (Rect_left r) (fst m)) (F32.add (Rect_top r) (snd m))
         (F32.add (Rect_right r) (fst m)) (F32.add (Rect_bottom r) (snd m)).

Definition isEmpty (r : Rect) : bool :=
  F32.leb (Rect_right r) (Rect_left r) || F32.leb (Rect_bottom r) (Rect_top r).

Definition doIntersect (a b : Rect) : Rect :=
  mkRect (fmax (Rect_left a) (Rect_left b)) (fmax (Rect_top a) (Rect_top b))
         (fmin (Rect_right a) (Rect_right b)) (fmin (Rect_bottom a) (Rect_bottom b)).

(** a rectangle grown by a pixel on every side: the conservative side of
    rounding its bounds out *)
Definition grow (r : Rect) : Rect :=
  mkRect (F32.sub (Rect_left r) F32.one) (F32.sub (Rect_top r) F32.one)
         (F32.add (Rect_right r) F32.one) (F32.add (Rect_bottom r) F32.one).

(** truncation of a non-negative finite float *)
Definition to_uint32 (f : float) : Z :=
  match f with
  | S754_finite false m e =>
      if (0 <=? e)%Z then Z.shiftl (Zpos m) e else Z.shiftr (Zpos m) (- e)
  | _ => 0%Z
  end.

(** [NON_ZERO_EPSILON], the literal [0.001f] *)
Definition epsilon : float := S754_finite false 8589935 (-33).

Definition isZero (f : float) : bool :=
  F32.leb (F32.opp epsilon) f && F32.leb f epsilon.

Definition clippingRectForFlags (w h : Z) (flags : Z) : Rect :=
  Rect_wh (F32.of_int w) (F32.of_int h).

Definition mapSnapTransform (f : Translation -> Translation) (s : Snap) : Snap :=
  mkSnap (f (snapTransform s)) (snapClip s) (snapAlpha s) (snapLight s).

Definition mapSnapClip (f : Rect -> Rect) (s : Snap) : Snap :=
  mkSnap (snapTransform s) (f (snapClip s)) (snapAlpha s) (snapLight s).

Definition clipTo (s : Snap) (local : Rect) : Snap :=
  mapSnapClip (fun c => doIntersect c (mapRect (snapTransform s) local)) s.

Definition identity : Translation := (F32.zero, F32.zero).

(** the recorded fields of an op; the ops without any get an empty base *)
Definition baseOf (op : RecordedOp) : OpBase :=
  match op with
  | ArcOp b | BitmapOp b _ | BitmapMeshOp b | BitmapRectOp b | FunctorOp b
  | LinesOp b | OvalOp b | PatchOp b _ | PathOp b | PointsOp b | RectOp b
  | RoundRectOp b _ _ | SimpleRectsOp b | TextOp b | TextOnPathOp b
  | TextureLayerOp b | BeginLayerOp b | BeginUnclippedLayerOp b
  | LayerOp b _ | CopyToLayerOp b _ | CopyFromLayerOp b _ => b
  | OfRenderNodeOp r => RenderNodeOp_base r
  | LayerOp_ofNode node =>
      mkOpBase (Rect_wh (F32.of_int (getWidth (properties node)))
                        (F32.of_int (getHeight (properties node))))
               identity None None
  | CirclePropsOp m c p _ _ _ | RoundRectPropsOp m c p _ _ _ _ _ _ =>
      mkOpBase Rect_default m c p
  | ShadowOp _ _ _ bounds _ => mkOpBase bounds identity None None
  | EndLayerOp | EndUnclippedLayerOp => mkOpBase Rect_default identity None None
  end.

(** baking: the bounds in render-target space, clipped; the recorded clip,
    when the op has one, decides the mode of the baked clip *)
Definition bake (snap : Snap) (op : RecordedOp) : option BakedOpState :=
  let b := baseOf op in
  let t := multiply (snapTransform snap) (localMatrix b) in
  let clip :=
    match localClip b with
    | Some c =>
        mkClipBase (ClipBase_mode c)
          (doIntersect (snapClip snap) (mapRect (snapTransform snap) (ClipBase_rect c)))
    | None => ClipRect (snapClip snap)
    end in
  let bounds := doIntersect (mapRect t (unmappedBounds b)) (ClipBase_rect clip) in
  if isEmpty bounds then None
  else Some (mkBakedOpState (mkResolvedRenderState t (Some clip) bounds)
               (snapAlpha snap) op).

Definition nullOrRejected (node : RenderNode) : bool :=
  isNull (getDisplayList node) || rejected (properties node).

#[export] Instance collaborators : Collaborators :=
  {| Matrix4_identity := identity;
     Matrix4_multiply := multiply;
     Matrix4_translate := fun m x y => multiply m (x, y);
     Matrix4_loadInverse := inverse;
     Matrix4_mapPoint3d := fun m v =>
       (F32.add (fst (fst v)) (fst m), F32.add (snd (fst v)) (snd m), snd v);
     Matrix4_mapRect := mapRect;
     Matrix4_isSimple := fun _ => true;
     Matrix4_positiveScale := fun _ => true;
     Matrix4_isPureTranslate := fun _ => true;
     Rect_isEmpty := isEmpty;
     Rect_doIntersect := doIntersect;
     Rect_roundOut := fun r => r;
     Rect_getWidth := fun r => F32.sub (Rect_right r) (Rect_left r);
     Rect_getHeight := fun r => F32.sub (Rect_bottom r) (Rect_top r);
     float_to_uint32 := to_uint32;
     MathUtils_isZero := isZero;
     SkPath_isEmpty := fun p => match p with EmptyPath => true | _ => false end;
     SkPath_addRect := RectPath;
     Op_kIntersect := Intersect;
     SkPaint_new := mkPaint false false 4278190080 255;
     SkPaint_setAlpha := fun p a => mkPaint (pathEffect p) (antiAlias p) (color p) a;
     SkPaint_getPathEffect := pathEffect;
     SkPaint_isAntiAlias := antiAlias;
     SkPaint_getColor := color;
     SK_ColorBLACK := 4278190080;
     PaintUtils_getXfermodeDirect := fun _ => kSrcOver_Mode;
     kClip_SaveFlag := 2;
     kMatrix_SaveFlag := 1;
     CLIP_TO_BOUNDS := 1;
     CLIP_TO_CLIP_BOUNDS := 2;
     getClippingRectForFlags := fun props flags _ =>
       clippingRectForFlags (getWidth props) (getHeight props) flags;
     nothingToDraw := nullOrRejected;
     computeOrdering := fun node => node;
     inverseTransformInWindow := fun buffer => buffer;
     Snapshot_root := fun _ _ l t r b light => mkSnap identity (mkRect l t r b) F32.one light;
     Snapshot_saved := fun snap _ => snap;
     Snapshot_restored := fun _ restored => restored;
     Snapshot_transform := snapTransform;
     Snapshot_getRenderTargetClip := snapClip;
     Snapshot_getRelativeLightCenter := snapLight;
     Snapshot_getLocalClipBounds := fun snap =>
       mapRect (inverse (snapTransform snap)) (snapClip snap);
     Snapshot_quickRejectConservative := fun snap l t r b =>
       isEmpty (doIntersect (grow (mapRect (snapTransform snap) (mkRect l t r b)))
                  (snapClip snap));
     Snapshot_translate := fun snap dx dy =>
       mapSnapTransform (fun m => multiply m (dx, dy)) snap;
     Snapshot_concatMatrix := fun snap m => mapSnapTransform (fun t => multiply t m) snap;
     Snapshot_scaleAlpha := fun snap a =>
       mkSnap (snapTransform snap) (snapClip snap) (F32.mul (snapAlpha snap) a)
         (snapLight snap);
     Snapshot_clipRect := fun snap l t r b _ => clipTo snap (mkRect l t r b);
     Snapshot_setClippingRoundRect := fun snap _ _ => snap;
     Snapshot_setClippingOutline := fun snap _ => snap;
     Snapshot_setProjectionPathMask := fun snap _ => snap;
     Snapshot_applyClip := fun snap c _ =>
       match c with Some c => clipTo snap (ClipBase_rect c) | None => snap end;
     Snapshot_initializeViewport := fun snap _ _ => snap;
     Snapshot_resetRoundRectClipState := fun snap => snap;
     Snapshot_setRelativeLightCenter := fun snap light =>
       mkSnap (snapTransform snap) (snapClip snap) (snapAlpha snap) light;
     Snapshot_loadTranslate := fun snap x y _ => mapSnapTransform (fun _ => (x, y)) snap;
     Snapshot_setClip := fun snap l t r b => mapSnapClip (fun _ => mkRect l t r b) snap;
     BakedOpState_tryConstruct := bake;
     BakedOpState_tryStrokeableOpConstruct := fun snap op _ => bake snap op;
     BakedOpState_tryShadowOpConstruct := bake;
     BakedOpState_directConstruct := fun clip dstRect op =>
       mkBakedOpState (mkResolvedRenderState identity (Some clip) dstRect) F32.one op |}.

(** ** Concrete frames *)

Definition fz (z : Z) : float := F32.of_int z.

Definition rect (l t r b : Z) : Rect := mkRect (fz l) (fz t) (fz r) (fz b).

Definition noOutline : Outline := mkOutline false true F32.zero None false.

Definition noReveal : RevealClip := mkRevealClip false Rect_default F32.zero None.

(** an untransformed node of the given size, alpha and z, clipped to bounds *)
Definition plainProperties (w h : Z) (a z : float) : RenderProperties :=
  mkRenderProperties a noOutline F32.one F32.one 0 0 None None false false
    F32.zero F32.zero None w h LayerType_None 1 true noReveal z false.

Definition plainPaint : Paint := mkPaint false false 4278190080 255.

Definition plainBase (l t r b : Z) : OpBase :=
  mkOpBase (rect l t r b) identity None (Some plainPaint).

Definition light0 : float * float * float := (F32.zero, F32.zero, F32.zero).

Definition clip100 : SkRect := mkSkRect (fz 0) (fz 0) (fz 100) (fz 100).

(** the object after [FrameBuilder(empty queue, (0,0,100,100), 100, 100, no nodes)] *)
Definition frame100 : FrameBuilder :=
  mkFrameBuilder [LayerBuilder_new 100 100 (rect 0 0 100 100) None None] [0]
    [mkSnap identity (rect 0 0 100 100) F32.one light0] [] 0.

Definition leaf (w h : Z) (a z : float) (ops : list RecordedOp) : RenderNode :=
  mkRenderNode (plainProperties w h a z)
    (Some (mkDisplayList ops [] [mkChunk 0 (length ops) 0 0 false] (-1)%Z))
    None [].

Definition opOn (addr : nat) (node : RenderNode) : RenderNodeOp :=
  mkRenderNodeOp addr (plainBase 0 0 100 100) node identity false.

Definition snap100 : Snap := mkSnap identity (rect 0 0 100 100) F32.one light0.

(** *** a bitmap clipped by a region (C1) *)

Definition bitmap7 : SkBitmap := mkSkBitmap kRGBA_8888_SkColorType 7.

Definition regionClipped : OpBase :=
  mkOpBase (rect 0 0 40 40) identity
    (Some (mkClipBase Region (rect 0 0 50 50))) (Some plainPaint).

Definition unclippedState : BakedOpState :=
  mkBakedOpState (mkResolvedRenderState identity None (rect 0 0 40 40)) F32.one
    (BitmapOp (plainBase 0 0 40 40) bitmap7).

(** *** an unclipped save-layer recorded under a translation (C5) *)

Definition shiftedLayer : OpBase :=
  mkOpBase (rect 10 10 20 20) (fz 5, fz 0) None (Some plainPaint).

(** *** scenario S6 (C5) *)

Definition s6_layer : OpBase := plainBase 10 10 20 20.
Definition s6_rect : OpBase := plainBase 12 12 18 18.

(** *** nodes (C7, C9, C10) *)

Definition invisible : RenderNode :=
  leaf 10 10 F32.zero F32.zero [RectOp (plainBase 0 0 10 10)].

Definition revealedProperties : RenderProperties :=
  mkRenderProperties F32.one
    (mkOutline false false F32.one (Some (RectPath (fz 0) (fz 0) (fz 10) (fz 10))) false)
    F32.one F32.one 0 0 None None false false F32.zero F32.zero None 10 10
    LayerType_None 1 true
    (mkRevealClip true (rect 0 0 10 10) F32.zero (Some EmptyPath))
    (fz 2) false.

Definition revealedCaster : RenderNodeOp :=
  opOn 1 (mkRenderNode revealedProperties
            (Some (mkDisplayList [] [] [] (-1)%Z)) None []).

(** a node with a hardware layer that sits just right of the viewport *)
Definition offscreenProperties : RenderProperties :=
  mkRenderProperties F32.one noOutline F32.one F32.one 100 0 None None false false
    F32.zero F32.zero None 10 10 LayerType_RenderLayer 0 true noReveal F32.zero false.

Definition offscreenLayer : RenderNode :=
  mkRenderNode offscreenProperties
    (Some (mkDisplayList [RectOp (plainBase 0 0 10 10)] []
             [mkChunk 0 1 0 0 false] (-1)%Z))
    (Some identity) [].

(** *** a frame with layers, save-layers and children (C4, C6) *)

(** the literal [0.5f] *)
Definition half : float := S754_finite false 8388608 (-24).

Definition raised : RenderNode :=
  leaf 20 20 F32.one (fz 2) [RectOp (plainBase 0 0 20 20)].

Definition translucent : RenderNode :=
  leaf 30 30 half F32.zero [OvalOp (plainBase 0 0 30 30)].

Definition page : RenderNode :=
  mkRenderNode (plainProperties 100 100 F32.one F32.zero)
    (Some (mkDisplayList
             [ RectOp (plainBase 0 0 50 50);
               BeginLayerOp (plainBase 10 10 60 60);
               BitmapOp (plainBase 0 0 40 40) bitmap7;
               BeginUnclippedLayerOp (plainBase 10 10 20 20);
               OvalOp (plainBase 12 12 18 18);
               EndUnclippedLayerOp;
               EndLayerOp;
               OfRenderNodeOp (opOn 1 raised);
               OfRenderNodeOp (opOn 2 translucent);
               TextOp (plainBase 0 80 50 90) ]
             [opOn 1 raised; opOn 2 translucent]
             [mkChunk 0 10 0 2 true] (-1)%Z))
    None [].

Definition layered (ops : list RecordedOp) : RenderNode :=
  mkRenderNode (plainProperties 50 50 F32.one F32.zero)
    (Some (mkDisplayList ops [] [mkChunk 0 (length ops) 0 0 false] (-1)%Z))
    (Some identity) [].

Definition entry0 : Entry :=
  mkEntry (layered [RectOp (plainBase 0 0 10 10)]) (rect 0 0 50 50).

Definition entry1 : Entry :=
  mkEntry (layered [ BeginLayerOp (plainBase 0 0 20 20);
                     RectOp (plainBase 0 0 10 10);
                     EndLayerOp ])
          (rect 0 0 50 50).

(** *** baked states and frames named by the examples *)

Definition regionBaked : BakedOpState :=
  mkBakedOpState
    (mkResolvedRenderState identity (Some (mkClipBase Region (rect 0 0 50 50)))
       (rect 0 0 40 40))
    F32.one (BitmapOp regionClipped bitmap7).

Definition a8Bitmap : SkBitmap := mkSkBitmap kAlpha_8_SkColorType 8.

Definition a8Baked : BakedOpState :=
  mkBakedOpState
    (mkResolvedRenderState identity (Some (ClipRect (rect 0 0 100 100)))
       (rect 0 0 40 40))
    F32.one (BitmapOp (plainBase 0 0 40 40) a8Bitmap).

Definition pathBaked : BakedOpState :=
  mkBakedOpState
    (mkResolvedRenderState identity (Some (ClipRect (rect 0 0 100 100)))
       (rect 0 0 50 50))
    F32.one (PathOp (plainBase 0 0 50 50)).

Definition s6_baked : BakedOpState :=
  mkBakedOpState
    (mkResolvedRenderState identity (Some (ClipRect (rect 0 0 100 100)))
       (rect 12 12 18 18))
    F32.one (RectOp s6_rect).

Definition fbo0 : LayerBuilder := LayerBuilder_new 100 100 (rect 0 0 100 100) None None.

(** [frame100] between a begin and an end of an unclipped save-layer *)
Definition openFrame : FrameBuilder :=
  withLayerBuilder frame100 0 (withActive fbo0 [s6_baked]).

(** [frame100] after the properties of [offscreenLayer] were applied *)
Definition offscreenSnap : Snap :=
  mkSnap (fz 100, fz 0) (rect 0 0 100 100) F32.one light0.

Definition offscreenFrame : FrameBuilder := withCanvas frame100 [offscreenSnap].

Definition entry2 : Entry :=
  mkEntry (layered [OvalOp (plainBase 0 0 25 25)]) (rect 0 0 25 25).

(** *** data for the further properties *)

(** the state Demo's baking gives an op of bounds [bounds] under an identity
    transform and the clip [clip] *)
Definition bakedAt (clip bounds : Rect) (op : RecordedOp) : BakedOpState :=
  mkBakedOpState (mkResolvedRenderState identity (Some (ClipRect clip)) bounds)
    F32.one op.

(** the batch of each call a builder received; [None] for a clear *)
Definition batches (lb : LayerBuilder) : list (option OpBatchType) :=
  map (fun call =>
         match call with
         | DeferUnmergeableOp _ batchId | DeferMergeableOp _ batchId _ => Some batchId
         | DeferLayerClear _ | Clear => None
         end)
    (received lb).

Definition sunk : RenderNode :=
  leaf 20 20 F32.one (fz (-1)) [RectOp (plainBase 0 0 20 20)].

(** a display list whose one chunk covers three children: above, on and
    below the plane *)
Definition zList : DisplayList :=
  mkDisplayList [] [opOn 1 raised; opOn 2 translucent; opOn 3 sunk] [] (-1)%Z.

Definition zChunk : Chunk := mkChunk 0 0 0 3 true.

Definition innerLayer : OpBase := plainBase 30 30 40 40.

Definition saveLayer : OpBase := plainBase 10 10 60 60.

Definition smallRect : OpBase := plainBase 0 0 10 10.

Definition outside : OpBase := plainBase 200 200 210 210.

Definition textBase : OpBase := plainBase 0 80 50 90.

(** a caster with an outline path and no reveal clip *)
Definition casterProperties : RenderProperties :=
  mkRenderProperties F32.one
    (mkOutline false false F32.one (Some (RectPath (fz 0) (fz 0) (fz 10) (fz 10))) false)
    F32.one F32.one 0 0 None None false false F32.zero F32.zero None 10 10
    LayerType_None 1 true noReveal (fz 2) false.

Definition caster : RenderNodeOp :=
  opOn 4 (mkRenderNode casterProperties
            (Some (mkDisplayList [] [] [] (-1)%Z)) None []).

Definition casterShadow : RecordedOp :=
  ShadowOp caster F32.one (RectPath (fz 0) (fz 0) (fz 10) (fz 10))
    (rect 0 0 100 100) light0.

(** a node far to the right of the viewport *)
Definition farProperties : RenderProperties :=
  mkRenderProperties F32.one noOutline F32.one F32.one 300 0 None None false false
    F32.zero F32.zero None 10 10 LayerType_None 0 true noReveal F32.zero false.

Definition farNode : RenderNode :=
  mkRenderNode farProperties
    (Some (mkDisplayList [RectOp smallRect] [] [mkChunk 0 1 0 0 false] (-1)%Z))
    None [].

Definition farFrame : FrameBuilder :=
  withCanvas frame100 [mkSnap (fz 300, fz 0) (rect 0 0 100 100) F32.one light0].

(** a queue entry whose node has no layer *)
Definition bareEntry : Entry :=
  mkEntry (leaf 10 10 F32.one F32.zero []) (rect 0 0 10 10).

(** [frame100] while a layer of 100 x 100 is being deferred: the layer's
    builder is the current one *)
Definition onLayer : FrameBuilder :=
  mkFrameBuilder [fbo0; LayerBuilder_new 100 100 (rect 0 0 100 100) None None] [1; 0]
    [snap100; snap100] [] 0.

End Demo.

(** * Properties *)

Section Properties.

Context {T : Types} {C : Collaborators}.

Implicit Types (s : FrameBuilder) (lb : LayerBuilder).

Notation "x <- m ;; k" := (bind m (fun x => k))
  (at level 61, m at next level, right associativity).
Notation "m ;; k" := (bind m (fun _ => k))
  (at level 61, right associativity).

(** ** The monad *)

Lemma bind_Ok : forall (A B : Type) (m : M A) (k : A -> M B) s a s',
  m s = Ok a s' -> bind m k s = k a s'.
Proof. intros A B m k s a s' H. unfold bind. rewrite H. reflexivity. Qed.

Lemma bind_Crash : forall (A B : Type) (m : M A) (k : A -> M B) s f,
  m s = Crash f -> bind m k s = Crash f.
Proof. intros A B m k s f H. unfold bind. rewrite H. reflexivity. Qed.

Lemma bind_ret : forall (A B : Type) (a : A) (k : A -> M B) s,
  bind (ret a) k s = k a s.
Proof. reflexivity. Qed.

Lemma bind_assoc : forall (A B D : Type) (m : M A) (k : A -> M B) (h : B -> M D) s,
  bind (bind m k) h s = bind m (fun a => bind (k a) h) s.
Proof. intros. unfold bind. destruct (m s); reflexivity. Qed.

Lemma forEach_app : forall (A : Type) (l1 l2 : list A) (body : A -> M unit) s,
  forEach (l1 ++ l2) body s = (forEach l1 body ;; forEach l2 body) s.
Proof.
  intros A l1 l2 body. induction l1 as [|x l1 IH]; intro s; simpl.
  - reflexivity.
  - unfold bind in *. destruct (body x s); auto.
Qed.

(** ** The current layer and the current snapshot *)

Lemma currentSnapshot_top : forall s snap below,
  mCanvasState s = snap :: below -> currentSnapshot s = Ok snap s.
Proof.
  intros s snap below H. unfold currentSnapshot, bind, get. rewrite H. reflexivity.
Qed.

Lemma layerStackBack_top : forall s i below,
  mLayerStack s = i :: below -> layerStackBack s = Ok i s.
Proof.
  intros s i below H. unfold layerStackBack, bind, get. rewrite H. reflexivity.
Qed.

Lemma currentLayer_top : forall s i below lb,
  mLayerStack s = i :: below -> nth_error (mLayerBuilders s) i = Some lb ->
  currentLayer s = Ok lb s.
Proof.
  intros s i below lb Hs Hn. unfold currentLayer.
  rewrite (bind_Ok _ _ _ _ _ _ _ (layerStackBack_top _ _ _ Hs)).
  unfold bind, get, at_. rewrite Hn. reflexivity.
Qed.

Lemma callLayer_at : forall s i lb call,
  nth_error (mLayerBuilders s) i = Some lb ->
  callLayer i call s = Ok tt (withLayerBuilder s i (withReceived lb [call])).
Proof.
  intros s i lb call Hn. unfold callLayer, bind, get, at_. rewrite Hn. reflexivity.
Qed.

Lemma deferUnmergeableOp_top : forall s i below lb st batchId,
  mLayerStack s = i :: below -> nth_error (mLayerBuilders s) i = Some lb ->
  deferUnmergeableOp st batchId s
  = Ok tt (withLayerBuilder s i (withReceived lb [DeferUnmergeableOp st batchId])).
Proof.
  intros s i below lb st batchId Hs Hn. unfold deferUnmergeableOp.
  rewrite (bind_Ok _ _ _ _ _ _ _ (layerStackBack_top _ _ _ Hs)). apply callLayer_at, Hn.
Qed.

Lemma deferMergeableOp_top : forall s i below lb st batchId mergeId,
  mLayerStack s = i :: below -> nth_error (mLayerBuilders s) i = Some lb ->
  deferMergeableOp st batchId mergeId s
  = Ok tt (withLayerBuilder s i (withReceived lb [DeferMergeableOp st batchId mergeId])).
Proof.
  intros s i below lb st batchId mergeId Hs Hn. unfold deferMergeableOp.
  rewrite (bind_Ok _ _ _ _ _ _ _ (layerStackBack_top _ _ _ Hs)). apply callLayer_at, Hn.
Qed.

Lemma nth_error_setNth_same : forall (A : Type) (l : list A) i a,
  i < length l -> nth_error (setNth i a l) i = Some a.
Proof.
  intros A l. induction l as [|x l IH]; intros i a Hi; simpl in *.
  - lia.
  - destruct i; simpl; [reflexivity | apply IH; lia].
Qed.

Lemma nth_error_setNth_other : forall (A : Type) (l : list A) i j a,
  i <> j -> nth_error (setNth i a l) j = nth_error l j.
Proof.
  intros A l. induction l as [|x l IH]; intros i j a Hij; simpl.
  - reflexivity.
  - destruct i, j; simpl; try reflexivity; [congruence | apply IH; congruence].
Qed.

Lemma length_setNth : forall (A : Type) (l : list A) i a,
  length (setNth i a l) = length l.
Proof.
  intros A l. induction l as [|x l IH]; intros i a; simpl.
  - reflexivity.
  - destruct i; simpl; [reflexivity | rewrite IH; reflexivity].
Qed.

(** ** Balance: composition *)

Lemma preserves_refl : forall s, preserves s s.
Proof.
  intro s. split; try reflexivity. exists []. rewrite app_nil_r. auto.
Qed.

Lemma preserves_trans : forall s1 s2 s3,
  preserves s1 s2 -> preserves s2 s3 -> preserves s1 s3.
Proof.
  intros s1 s2 s3 [St1 D1 (a1 & B1 & F1)] [St2 D2 (a2 & B2 & F2)]. split.
  - congruence.
  - congruence.
  - exists (a1 ++ a2). split.
    + rewrite B2, B1, app_assoc. reflexivity.
    + apply Forall_app. auto.
Qed.

Lemma preserves_length : forall s s',
  preserves s s' -> length (mLayerBuilders s) <= length (mLayerBuilders s').
Proof.
  intros s s' [_ _ (a & B & _)].
  apply (f_equal (@length _)) in B. rewrite length_app, !length_map in B. lia.
Qed.

Lemma preserves_valid : forall s s', valid s -> preserves s s' -> valid s'.
Proof.
  intros s s' [Hc (i & below & Hs & Hi)] P. split.
  - intro E. apply Hc. apply length_zero_iff_nil.
    rewrite <- (pres_depth _ _ P), E. reflexivity.
  - exists i, below. split.
    + rewrite (pres_stack _ _ P). exact Hs.
    + pose proof (preserves_length _ _ P). lia.
Qed.

Lemma quiet_ret : forall (A : Type) (R : A -> Prop) (a : A), R a -> quiet R (ret a).
Proof. intros A R a Ha s _. exists a, s. auto. Qed.

Lemma quiet_weaken : forall (A : Type) (R R' : A -> Prop) (m : M A),
  quiet R m -> (forall a, R a -> R' a) -> quiet R' m.
Proof.
  intros A R R' m Hm Himp s Hv. destruct (Hm s Hv) as (a & s' & E & H1 & H2 & H3 & Ha).
  exists a, s'. auto 6.
Qed.

Lemma quiet_valid : forall s s',
  valid s ->
  mLayerStack s' = mLayerStack s ->
  length (mCanvasState s') = length (mCanvasState s) ->
  map skeleton (mLayerBuilders s') = map skeleton (mLayerBuilders s) ->
  valid s'.
Proof.
  intros s s' Hv H1 H2 H3. apply (preserves_valid s); [exact Hv|].
  split; auto. exists []. rewrite app_nil_r. auto.
Qed.

Lemma quiet_bind : forall (A B : Type) (R : A -> Prop) (R' : B -> Prop)
    (m : M A) (k : A -> M B),
  quiet R m -> (forall a, R a -> quiet R' (k a)) -> quiet R' (bind m k).
Proof.
  intros A B R R' m k Hm Hk s Hv.
  destruct (Hm s Hv) as (a & s1 & E & H1 & H2 & H3 & Ha).
  assert (Hv1 : valid s1) by (eapply quiet_valid; eassumption).
  destruct (Hk a Ha s1 Hv1) as (b & s2 & E2 & G1 & G2 & G3 & Hb).
  exists b, s2. unfold bind. rewrite E. repeat split; congruence.
Qed.

Lemma quiet_keeps : forall (R : unit -> Prop) (m : M unit), quiet R m -> keeps m.
Proof.
  intros R m Hm s Hv. destruct (Hm s Hv) as ([] & s' & E & H1 & H2 & H3 & _).
  exists s'. split; [exact E|]. split; auto. exists []. rewrite app_nil_r. auto.
Qed.

Lemma keeps_ret : keeps (ret tt).
Proof. intros s _. exists s. split; [reflexivity | apply preserves_refl]. Qed.

Lemma keeps_bind : forall (A : Type) (R : A -> Prop) (m : M A) (k : A -> M unit),
  quiet R m -> (forall a, R a -> keeps (k a)) -> keeps (bind m k).
Proof.
  intros A R m k Hm Hk s Hv.
  destruct (Hm s Hv) as (a & s1 & E & H1 & H2 & H3 & Ha).
  assert (Hv1 : valid s1) by (eapply quiet_valid; eassumption).
  destruct (Hk a Ha s1 Hv1) as (s2 & E2 & P).
  exists s2. unfold bind. rewrite E. split; [exact E2|].
  apply (preserves_trans s s1 s2); [|exact P].
  split; auto. exists []. rewrite app_nil_r. auto.
Qed.

Lemma keeps_seq : forall (m1 m2 : M unit), keeps m1 -> keeps m2 -> keeps (m1 ;; m2).
Proof.
  intros m1 m2 H1 H2 s Hv. destruct (H1 s Hv) as (s1 & E1 & P1).
  destruct (H2 s1 (preserves_valid _ _ Hv P1)) as (s2 & E2 & P2).
  exists s2. unfold bind. rewrite E1. split; [exact E2|].
  eapply preserves_trans; eassumption.
Qed.

Lemma keeps_when : forall (b : bool) (m : M unit), keeps m -> keeps (when b m).
Proof. intros [|] m H; simpl; [exact H | apply keeps_ret]. Qed.

Lemma keeps_forEach : forall (A : Type) (l : list A) (body : A -> M unit),
  (forall x, In x l -> keeps (body x)) -> keeps (forEach l body).
Proof.
  intros A l body. induction l as [|x l IH]; intro H; simpl.
  - apply keeps_ret.
  - apply keeps_seq; [apply H; left; reflexivity|].
    apply IH. intros y Hy. apply H. right. exact Hy.
Qed.

(** ** Balance: the primitives *)

Lemma map_skeleton_setNth : forall (l : list LayerBuilder) i lb lb',
  nth_error l i = Some lb -> skeleton lb' = skeleton lb ->
  map skeleton (setNth i lb' l) = map skeleton l.
Proof.
  induction l as [|x l IH]; intros i lb lb' Hn Hs; simpl.
  - reflexivity.
  - destruct i; simpl in *.
    + inversion Hn; subst. rewrite Hs. reflexivity.
    + f_equal. eapply IH; eassumption.
Qed.

Ltac use_valid Hv :=
  let Hc := fresh "Hcanvas" in
  let i := fresh "top" in
  let below := fresh "below" in
  let Hs := fresh "Hstack" in
  let Hi := fresh "Htop" in
  let snap := fresh "snap" in
  let cb := fresh "under" in
  let Ec := fresh "Ecanvas" in
  let lb := fresh "layer" in
  let El := fresh "Elayer" in
  destruct Hv as [Hc (i & below & Hs & Hi)];
  match type of Hc with
  | mCanvasState ?s <> [] =>
      assert (exists snap cb, mCanvasState s = snap :: cb) as (snap & cb & Ec)
        by (destruct (mCanvasState s) as [|? ?]; [congruence | eauto]);
      assert (exists lb, nth_error (mLayerBuilders s) i = Some lb) as (lb & El)
        by (let E := fresh "E" in
            destruct (nth_error (mLayerBuilders s) i) eqn:E;
            [eauto | apply nth_error_None in E; lia])
  end.

Ltac quiet_done :=
  eexists; eexists; split; [reflexivity|]; simpl; repeat split; auto;
  try (match goal with E : mCanvasState _ = _ |- _ => rewrite E; reflexivity end).

Lemma quiet_currentSnapshot : quiet (fun _ => True) currentSnapshot.
Proof.
  intros s Hv. use_valid Hv. unfold currentSnapshot, bind, get. rewrite Ecanvas.
  quiet_done.
Qed.

Lemma quiet_writeSnapshot : forall f, quiet (fun _ => True) (writeSnapshot f).
Proof.
  intros f s Hv. use_valid Hv. unfold writeSnapshot, bind, get, put. rewrite Ecanvas.
  quiet_done.
Qed.

Lemma quiet_quickRejectConservative : forall l t r b,
  quiet (fun _ => True) (quickRejectConservative l t r b).
Proof.
  intros. unfold quickRejectConservative.
  eapply quiet_bind; [apply quiet_currentSnapshot|]. intros. apply quiet_ret. exact I.
Qed.

Lemma quiet_getLocalClipBounds : quiet (fun _ => True) getLocalClipBounds.
Proof.
  unfold getLocalClipBounds.
  eapply quiet_bind; [apply quiet_currentSnapshot|]. intros. apply quiet_ret. exact I.
Qed.

Lemma quiet_tryBakeOpState : forall op,
  bakesClipState ->
  quiet (fun baked => forall st, baked = Some st -> clipState (computedState st) <> None)
        (tryBakeOpState op).
Proof.
  intros op Hb s Hv. use_valid Hv. unfold tryBakeOpState, currentSnapshot, bind, get.
  rewrite Ecanvas. simpl. quiet_done. intros st E. eapply Hb. exact E.
Qed.

Lemma quiet_callTop : forall call,
  quiet (fun _ => True) (i <- layerStackBack ;; callLayer i call).
Proof.
  intros call s Hv. use_valid Hv.
  unfold bind, layerStackBack, get, callLayer, bind, get, at_. rewrite Hstack. simpl.
  rewrite Elayer. simpl. quiet_done.
  eapply map_skeleton_setNth; [eassumption | reflexivity].
Qed.

Lemma quiet_deferUnmergeableOp : forall st batchId,
  quiet (fun _ => True) (deferUnmergeableOp st batchId).
Proof. intros. apply quiet_callTop. Qed.

Lemma quiet_deferMergeableOp : forall st batchId mergeId,
  quiet (fun _ => True) (deferMergeableOp st batchId mergeId).
Proof. intros. apply quiet_callTop. Qed.

Lemma quiet_deferLayerClear : forall r, quiet (fun _ => True) (deferLayerClear r).
Proof. intros. apply quiet_callTop. Qed.

Lemma quiet_setSkipInOrderDraw : forall op flag,
  quiet (fun _ => True) (setSkipInOrderDraw op flag).
Proof. intros op flag s Hv. unfold setSkipInOrderDraw, bind, get, put. quiet_done. Qed.

Lemma quiet_getSkipInOrderDraw : forall op, quiet (fun _ => True) (getSkipInOrderDraw op).
Proof. intros op s Hv. unfold getSkipInOrderDraw, bind, get, ret. quiet_done. Qed.

(** ** Balance: the handlers of the drawing ops *)

Lemma quiet_ret_tt : forall (A : Type) (a : A), quiet (fun _ => True) (ret a).
Proof. intros. apply quiet_ret. exact I. Qed.

Create HintDb quiet.

#[local] Hint Resolve quiet_ret_tt quiet_currentSnapshot quiet_writeSnapshot
  quiet_quickRejectConservative quiet_getLocalClipBounds quiet_tryBakeOpState
  quiet_deferUnmergeableOp quiet_deferMergeableOp quiet_deferLayerClear
  quiet_setSkipInOrderDraw quiet_getSkipInOrderDraw : quiet.

Ltac quiet_auto :=
  repeat first
    [ apply quiet_ret_tt
    | solve [eauto with quiet]
    | match goal with
      | |- quiet _ (bind _ _) => eapply quiet_bind; [ | intros ]
      | |- quiet _ (when ?b _) => destruct b; simpl
      | |- quiet _ (if ?b then _ else _) => destruct b
      | |- quiet _ (match ?x with _ => _ end) => destruct x
      end ].

Lemma quiet_deref : forall (p : option SkPaint),
  hasPaint p = true -> quiet (fun _ => True) (deref p).
Proof.
  intros [a|] H; [|discriminate]. simpl. apply quiet_ret. exact I.
Qed.

Lemma quiet_deferShadow : forall op, quiet (fun _ => True) (deferShadow op).
Proof.
  intro op. unfold deferShadow.
  destruct (Outline_getPath (getOutline (properties (renderNode op)))) as [path|];
    simpl.
  - destruct (_ || _ || _ || _ || _); [apply quiet_ret; exact I|].
    quiet_auto.
  - rewrite !orb_true_r. simpl. apply quiet_ret. exact I.
Qed.

Lemma quiet_deferStrokeableOp : forall op batchId strokeBehavior,
  quiet (fun _ => True) (deferStrokeableOp op batchId strokeBehavior).
Proof. intros. unfold deferStrokeableOp. quiet_auto. Qed.

Lemma quiet_tessBatchId : forall op,
  hasPaint (paint op) = true -> quiet (fun _ => True) (tessBatchId op).
Proof.
  intros op H. unfold tessBatchId, hasPaint in *.
  destruct (paint op); [|discriminate]. simpl. quiet_auto.
Qed.

Lemma quiet_andHasMergeableClip : forall conds st,
  clipState (computedState st) <> None ->
  quiet (fun _ => True) (andHasMergeableClip conds st).
Proof.
  intros conds st H. unfold andHasMergeableClip, hasMergeableClip.
  destruct (clipState (computedState st)); [|congruence]. simpl. quiet_auto.
Qed.

#[local] Hint Resolve quiet_deref quiet_deferShadow quiet_deferStrokeableOp
  quiet_tessBatchId quiet_andHasMergeableClip : quiet.

Lemma quiet_bakeAndDeferUnmergeable : forall op batchId,
  bakesClipState -> quiet (fun _ => True) (bakeAndDeferUnmergeable op batchId).
Proof. intros. unfold bakeAndDeferUnmergeable. quiet_auto. Qed.

#[local] Hint Resolve quiet_bakeAndDeferUnmergeable : quiet.

(** Every drawing op whose paint is there where the handler reads it is
    dispatched without touching the balance. *)
Lemma quiet_dispatch_plain : forall recurse childOK open open' op,
  bakesClipState ->
  isPlainDraw op = true ->
  checkOp childOK open op = Some open' ->
  quiet (fun _ => True) (dispatch recurse op).
Proof.
  intros recurse childOK open open' op Hb Hplain Hcheck.
  destruct op; try discriminate; simpl in *;
    unfold deferArcOp, deferBitmapOp, deferBitmapMeshOp, deferBitmapRectOp,
      deferCirclePropsOp, deferFunctorOp, deferLinesOp, deferOvalOp, deferPatchOp,
      deferPathOp, deferPointsOp, deferRectOp, deferRoundRectOp,
      deferRoundRectPropsOp, deferRoundRectOp, deferSimpleRectsOp, deferTextOp,
      deferTextOnPathOp, deferTextureLayerOp, deferOvalOp;
    try (match type of Hcheck with
         | (if hasPaint ?p then _ else _) = _ =>
             let E := fresh "Epaint" in
             destruct (hasPaint p) eqn:E; [|discriminate]
         end);
    quiet_auto.
Qed.

(** ** Balance: save and restore *)

Lemma keeps_ext : forall (m m' : M unit),
  (forall s, m s = m' s) -> keeps m -> keeps m'.
Proof.
  intros m m' E H s Hv. destruct (H s Hv) as (s' & E' & P).
  exists s'. rewrite <- E. auto.
Qed.

Lemma save_top : forall flags s snap under,
  mCanvasState s = snap :: under ->
  save flags s
  = Ok (length (snap :: under))
       (withCanvas s (Snapshot_saved snap flags :: snap :: under)).
Proof.
  intros flags s snap under E. unfold save, bind, get, put, ret. rewrite E.
  reflexivity.
Qed.

Lemma restore_top : forall s removed restored under,
  mCanvasState s = removed :: restored :: under ->
  restore s = Ok tt (withCanvas s (Snapshot_restored removed restored :: under)).
Proof.
  intros s removed restored under E. unfold restore, bind, get, put. rewrite E.
  reflexivity.
Qed.

Lemma restoreToCount_loop_step : forall pops n s,
  restoreToCount_loop (S pops) n s
  = if n <? length (mCanvasState s)
    then (restore ;; restoreToCount_loop pops n) s
    else Ok tt s.
Proof.
  intros pops n s. simpl. unfold bind at 1. unfold getSaveCount, bind, get, ret.
  destruct (n <? length (mCanvasState s)); reflexivity.
Qed.

(** [restoreToCount] from one level above the count pops exactly once *)
Lemma restoreToCount_one : forall s n,
  length (mCanvasState s) = S n -> 1 <= n ->
  exists s', restoreToCount n s = Ok tt s'
             /\ mLayerBuilders s' = mLayerBuilders s
             /\ mLayerStack s' = mLayerStack s
             /\ length (mCanvasState s') = n.
Proof.
  intros s n Hlen Hn.
  destruct (mCanvasState s) as [|removed [|restored under]] eqn:E;
    simpl in Hlen; try lia.
  exists (withCanvas s (Snapshot_restored removed restored :: under)).
  split; [|simpl; repeat split; lia].
  unfold restoreToCount. unfold bind at 1. unfold getSaveCount, bind, get, ret.
  rewrite E. simpl length. rewrite restoreToCount_loop_step.
  rewrite E. simpl length.
  assert (H1 : (n <? S (S (length under))) = true) by (apply Nat.ltb_lt; lia).
  rewrite H1. rewrite (bind_Ok _ _ _ _ _ _ _ (restore_top _ _ _ _ E)).
  destruct (length under) as [|k] eqn:Ek.
  - assert (n = 1) by lia. subst n. simpl. unfold bind, getSaveCount, get, ret.
    simpl. rewrite Ek. reflexivity.
  - rewrite restoreToCount_loop_step. simpl length. rewrite Ek.
    assert (H2 : (n <? S (S k)) = false) by (apply Nat.ltb_ge; lia).
    rewrite H2. reflexivity.
Qed.

Lemma keeps_saved : forall flags (body : M unit),
  keeps body ->
  keeps (count <- save flags ;; body ;; restoreToCount count).
Proof.
  intros flags body Hbody s Hv.
  assert (Hv0 := Hv). use_valid Hv.
  rewrite (bind_Ok _ _ _ _ _ _ _ (save_top flags _ _ _ Ecanvas)).
  set (s1 := withCanvas s (Snapshot_saved snap flags :: snap :: under)).
  assert (Hv1 : valid s1).
  { split; [simpl; discriminate|]. exists top, below. simpl. auto. }
  destruct (Hbody s1 Hv1) as (s2 & E2 & P2).
  rewrite (bind_Ok _ _ _ _ _ _ _ E2).
  destruct (restoreToCount_one s2 (length (snap :: under))) as (s3 & E3 & B3 & S3 & D3).
  { rewrite (pres_depth _ _ P2). reflexivity. }
  { simpl. lia. }
  exists s3. split; [exact E3|]. split.
  - rewrite S3, (pres_stack _ _ P2). reflexivity.
  - rewrite D3, Ecanvas. reflexivity.
  - rewrite B3. exact (pres_builders _ _ P2).
Qed.

Lemma keeps_saved3 : forall flags (a b c : M unit),
  keeps a -> keeps b -> keeps c ->
  keeps (count <- save flags ;; a ;; b ;; c ;; restoreToCount count).
Proof.
  intros flags a b c Ha Hb Hc.
  apply (keeps_ext (count <- save flags ;; (a ;; b ;; c) ;; restoreToCount count)).
  - intro s. unfold bind. destruct (save flags s); auto.
    destruct (a s0); auto. destruct (b s1); auto.
  - apply keeps_saved. repeat apply keeps_seq; assumption.
Qed.

(** ** Balance: layers *)

Lemma saveForLayer_top : forall w h x y repaint light begin node s,
  valid s ->
  exists s',
    saveForLayer w h x y repaint light begin node s = Ok tt s'
    /\ mLayerStack s' = length (mLayerBuilders s) :: mLayerStack s
    /\ mLayerBuilders s' = mLayerBuilders s ++ [LayerBuilder_new w h repaint begin node]
    /\ length (mCanvasState s') = S (length (mCanvasState s)).
Proof.
  intros w h x y repaint light begin node s Hv. use_valid Hv.
  unfold saveForLayer.
  rewrite (bind_Ok _ _ _ _ _ _ _ (save_top _ _ _ _ Ecanvas)).
  unfold writeSnapshot, bind, get, put. simpl.
  eexists. split; [reflexivity|]. simpl. rewrite Ecanvas. auto.
Qed.

Lemma restoreForLayer_top : forall s removed restored under i below,
  mCanvasState s = removed :: restored :: under ->
  mLayerStack s = i :: below ->
  restoreForLayer s
  = Ok tt (mkFrameBuilder (mLayerBuilders s) below
             (Snapshot_restored removed restored :: under)
             (skipFlags s) (nextHandle s)).
Proof.
  intros s removed restored under i below Ec Es. unfold restoreForLayer.
  rewrite (bind_Ok _ _ _ _ _ _ _ (restore_top _ _ _ _ Ec)).
  unfold bind, get, put. simpl. rewrite Es. reflexivity.
Qed.

Lemma deferBeginLayerOp_top : forall b s,
  valid s ->
  exists s' w h repaint,
    deferBeginLayerOp b s = Ok tt s'
    /\ mLayerStack s' = length (mLayerBuilders s) :: mLayerStack s
    /\ mLayerBuilders s' = mLayerBuilders s ++ [LayerBuilder_new w h repaint (Some b) None]
    /\ length (mCanvasState s') = S (length (mCanvasState s)).
Proof.
  intros b s Hv. assert (Hv0 := Hv). use_valid Hv. unfold deferBeginLayerOp.
  rewrite (bind_Ok _ _ _ _ _ _ _ (currentSnapshot_top _ _ _ Ecanvas)).
  match goal with
  | |- exists s' w h repaint, saveForLayer ?w0 ?h0 ?x ?y ?r ?l ?bg ?n ?st = _ /\ _ =>
      destruct (saveForLayer_top w0 h0 x y r l bg n st Hv0) as (s' & E & H1 & H2 & H3);
      exists s', w0, h0, r
  end.
  auto.
Qed.

Lemma map_setNth : forall (A B : Type) (f : A -> B) (l : list A) i a,
  map f (setNth i a l) = setNth i (f a) (map f l).
Proof.
  intros A B f l. induction l as [|x l IH]; intros i a; simpl.
  - reflexivity.
  - destruct i; simpl; [reflexivity | rewrite IH; reflexivity].
Qed.

Lemma setNth_app_l : forall (A : Type) (l r : list A) i a,
  i < length l -> setNth i a (l ++ r) = setNth i a l ++ r.
Proof.
  intros A l. induction l as [|x l IH]; intros r i a Hi; simpl in *.
  - lia.
  - destruct i; simpl; [reflexivity | rewrite IH by lia; reflexivity].
Qed.

Lemma setNth_setNth : forall (A : Type) (l : list A) i a b,
  setNth i a (setNth i b l) = setNth i a l.
Proof.
  intros A l. induction l as [|x l IH]; intros i a b; simpl.
  - reflexivity.
  - destruct i; simpl; [reflexivity | rewrite IH; reflexivity].
Qed.

Lemma setNth_same : forall (A : Type) (l : list A) i a,
  nth_error l i = Some a -> setNth i a l = l.
Proof.
  intros A l. induction l as [|x l IH]; intros i a H; simpl.
  - reflexivity.
  - destruct i; simpl in *; [congruence | rewrite IH by assumption; reflexivity].
Qed.

(** the builder behind an entry of the skeleton list *)
Lemma nth_error_skeleton : forall (l : list LayerBuilder) front back i k,
  map skeleton l = front ++ back ->
  nth_error front i = Some k ->
  exists lb, nth_error l i = Some lb /\ skeleton lb = k.
Proof.
  intros l front back i k Hmap Hn.
  assert (H : nth_error (map skeleton l) i = Some k).
  { rewrite Hmap. rewrite nth_error_app1; [exact Hn|].
    apply nth_error_Some. congruence. }
  rewrite nth_error_map in H. destruct (nth_error l i) as [lb|]; [|discriminate].
  exists lb. simpl in H. split; congruence.
Qed.

(** what [deferBeginUnclippedLayerOp] leaves behind *)
Lemma deferBeginUnclippedLayerOp_top : forall op s snap under i below lb,
  mCanvasState s = snap :: under ->
  mLayerStack s = i :: below ->
  nth_error (mLayerBuilders s) i = Some lb ->
  let dstRect := unclippedDstRect snap op in
  let copyTo :=
    BakedOpState_directConstruct (viewportClip lb) dstRect
      (CopyToLayerOp op (nextHandle s)) in
  let copyFrom :=
    BakedOpState_directConstruct (viewportClip lb) dstRect
      (CopyFromLayerOp op (nextHandle s)) in
  deferBeginUnclippedLayerOp op s
  = Ok tt (mkFrameBuilder
             (setNth i
                (withActive
                   (withReceived lb
                      [DeferUnmergeableOp copyTo CopyToLayer; DeferLayerClear dstRect])
                   (activeUnclippedSaveLayers lb ++ [copyFrom]))
                (mLayerBuilders s))
             (mLayerStack s) (mCanvasState s) (skipFlags s) (S (nextHandle s))).
Proof.
  intros op s snap under i below lb Ec Es En dstRect copyTo copyFrom.
  assert (Hi : i < length (mLayerBuilders s)) by (apply nth_error_Some; congruence).
  unfold deferBeginUnclippedLayerOp.
  rewrite (bind_Ok _ _ _ _ _ _ _ (currentSnapshot_top _ _ _ Ec)).
  set (s1 := mkFrameBuilder (mLayerBuilders s) (mLayerStack s) (mCanvasState s)
               (skipFlags s) (S (nextHandle s))).
  assert (E1 : createLayerHandle s = Ok (nextHandle s) s1) by reflexivity.
  rewrite (bind_Ok _ _ _ _ _ _ _ E1).
  assert (Es1 : mLayerStack s1 = i :: below) by exact Es.
  assert (En1 : nth_error (mLayerBuilders s1) i = Some lb) by exact En.
  rewrite (bind_Ok _ _ _ _ _ _ _ (currentLayer_top _ _ _ _ Es1 En1)).
  rewrite (bind_Ok _ _ _ _ _ _ _ (deferUnmergeableOp_top _ _ _ _ _ _ Es1 En1)).
  fold dstRect copyTo.
  set (lb2 := withReceived lb [DeferUnmergeableOp copyTo CopyToLayer]).
  set (s2 := withLayerBuilder s1 i lb2).
  assert (Es2 : mLayerStack s2 = i :: below) by exact Es.
  assert (En2 : nth_error (mLayerBuilders s2) i = Some lb2).
  { apply nth_error_setNth_same. exact Hi. }
  assert (E3 : deferLayerClear dstRect s2
               = Ok tt (withLayerBuilder s2 i (withReceived lb2 [DeferLayerClear dstRect]))).
  { unfold deferLayerClear.
    rewrite (bind_Ok _ _ _ _ _ _ _ (layerStackBack_top _ _ _ Es2)).
    apply callLayer_at. exact En2. }
  rewrite (bind_Ok _ _ _ _ _ _ _ E3).
  set (lb3 := withReceived lb2 [DeferLayerClear dstRect]).
  set (s3 := withLayerBuilder s2 i lb3).
  assert (Es3 : mLayerStack s3 = i :: below) by exact Es.
  assert (En3 : nth_error (mLayerBuilders s3) i = Some lb3).
  { apply nth_error_setNth_same. unfold s2. simpl. rewrite length_setNth. exact Hi. }
  rewrite (bind_Ok _ _ _ _ _ _ _ (currentLayer_top _ _ _ _ Es3 En3)).
  rewrite (bind_Ok _ _ _ _ _ _ _ (layerStackBack_top _ _ _ Es3)).
  unfold setActiveUnclippedSaveLayers, bind, get, at_. rewrite En3.
  unfold setLayerBuilder, bind, get, put. simpl.
  rewrite !setNth_setNth. unfold withActive, withReceived, lb3, lb2. simpl.
  rewrite <- app_assoc. reflexivity.
Qed.

(** what [deferEndUnclippedLayerOp] leaves behind *)
Lemma deferEndUnclippedLayerOp_top : forall s i below lb rest copyFromLayerOp,
  mLayerStack s = i :: below ->
  nth_error (mLayerBuilders s) i = Some lb ->
  activeUnclippedSaveLayers lb = rest ++ [copyFromLayerOp] ->
  deferEndUnclippedLayerOp s
  = Ok tt (withLayerBuilder s i
             (withActive
                (withReceived lb [DeferUnmergeableOp copyFromLayerOp CopyFromLayer])
                rest)).
Proof.
  intros s i below lb rest x Hs Hn Ha. unfold deferEndUnclippedLayerOp.
  rewrite (bind_Ok _ _ _ _ _ _ _ (currentLayer_top _ _ _ _ Hs Hn)).
  rewrite Ha, rev_app_distr. simpl.
  rewrite (bind_Ok _ _ _ _ _ _ _ (deferUnmergeableOp_top _ _ _ _ _ _ Hs Hn)).
  assert (Hi : i < length (mLayerBuilders s)) by (apply nth_error_Some; congruence).
  set (lb1 := withReceived lb [DeferUnmergeableOp x CopyFromLayer]).
  set (s1 := withLayerBuilder s i lb1).
  assert (Hn1 : nth_error (mLayerBuilders s1) i = Some lb1).
  { unfold s1, withLayerBuilder. simpl. apply nth_error_setNth_same, Hi. }
  assert (Hs1 : mLayerStack s1 = i :: below) by exact Hs.
  rewrite (bind_Ok _ _ _ _ _ _ _ (currentLayer_top _ _ _ _ Hs1 Hn1)).
  rewrite (bind_Ok _ _ _ _ _ _ _ (layerStackBack_top _ _ _ Hs1)).
  unfold setActiveUnclippedSaveLayers, bind, get, at_. rewrite Hn1.
  unfold setLayerBuilder, bind, get, put. simpl.
  unfold withLayerBuilder, withActive. simpl. rewrite setNth_setNth.
  unfold lb1. simpl. rewrite Ha, removelast_last. reflexivity.
Qed.

(** An [EndLayerOp] closes the layer its [BeginLayerOp] opened. *)
Lemma end_of_layer : forall s1 s1' s b,
  valid s1 ->
  deferBeginLayerOp b s1 = Ok tt s1' ->
  preserves s1' s ->
  exists s', deferEndLayerOp s = Ok tt s' /\ preserves s1 s'.
Proof.
  intros s1 s1' s b Hv Hbegin P.
  destruct (deferBeginLayerOp_top b s1 Hv) as (s1'' & w & h & r & E & St & Bu & De).
  rewrite E in Hbegin. inversion Hbegin; subst s1''. clear Hbegin E.
  destruct P as [Pst Pde (added & Pbu & Pfa)].
  rewrite St in Pst. rewrite De in Pde. rewrite Bu, map_app in Pbu. simpl in Pbu.
  set (n := length (mLayerBuilders s1)) in *.
  set (new := LayerBuilder_new w h r (Some b) None) in *.
  rewrite <- app_assoc in Pbu. simpl in Pbu.
  (* the finished layer *)
  assert (Hfin : exists lbn, nth_error (mLayerBuilders s) n = Some lbn
                             /\ beginLayerOp lbn = Some b).
  { assert (H : nth_error (map skeleton (mLayerBuilders s)) n = Some (skeleton new)).
    { rewrite Pbu. rewrite nth_error_app2 by (rewrite length_map; unfold n; lia).
      rewrite length_map. unfold n. rewrite Nat.sub_diag. reflexivity. }
    rewrite nth_error_map in H.
    destruct (nth_error (mLayerBuilders s) n) as [lbn|]; [|discriminate].
    exists lbn. split; [reflexivity|].
    assert (Hsk : skeleton lbn = skeleton new) by (simpl in H; congruence).
    apply (f_equal beginLayerOp) in Hsk. exact Hsk. }
  destruct Hfin as (lbn & Hn & Hb).
  (* the snapshots *)
  destruct (mCanvasState s) as [|removed [|restored under]] eqn:Ec;
    simpl in Pde; try lia.
  { destruct Hv as [Hc _]. destruct (mCanvasState s1); [congruence|].
    simpl in Pde. lia. }
  unfold deferEndLayerOp.
  rewrite (bind_Ok _ _ _ _ _ _ _ (currentLayer_top _ _ _ _ Pst Hn)).
  cbv zeta.
  rewrite (bind_Ok _ _ _ _ _ _ _ (layerStackBack_top _ _ _ Pst)).
  rewrite (bind_Ok _ _ _ _ _ _ _ (restoreForLayer_top _ _ _ _ _ _ Ec Pst)).
  rewrite Hb. simpl deref. rewrite bind_ret.
  set (sa := mkFrameBuilder (mLayerBuilders s) (mLayerStack s1)
               (Snapshot_restored removed restored :: under)
               (skipFlags s) (nextHandle s)).
  assert (Eca : mCanvasState sa = Snapshot_restored removed restored :: under)
    by reflexivity.
  unfold tryBakeOpState.
  rewrite bind_assoc.
  rewrite (bind_Ok _ _ _ _ _ _ _ (currentSnapshot_top _ _ _ Eca)).
  rewrite bind_ret.
  assert (Hlen : length (mLayerBuilders s1) <= length (mLayerBuilders s)).
  { apply (f_equal (@length _)) in Pbu. rewrite length_map, length_app, length_map in Pbu.
    lia. }
  assert (Hdone : forall lb' i,
            nth_error (mLayerBuilders s) i = Some lb' ->
            forall call,
              preserves s1 (withLayerBuilder sa i (withReceived lb' [call]))).
  { intros lb' i Hi call. split.
    - reflexivity.
    - simpl. lia.
    - exists (skeleton new :: added). split.
      + simpl. rewrite (map_skeleton_setNth _ _ lb' _ Hi) by reflexivity. exact Pbu.
      + constructor; [reflexivity | exact Pfa]. }
  destruct (BakedOpState_tryConstruct _ _) as [bakedOpState|].
  - destruct Hv as [_ (i & below & Hs & Hi)].
    assert (Hi' : exists lb', nth_error (mLayerBuilders s) i = Some lb').
    { destruct (nth_error (mLayerBuilders s) i) eqn:E; [eauto|].
      apply nth_error_None in E. lia. }
    destruct Hi' as (lb' & Hi').
    assert (Hsa : mLayerStack sa = i :: below) by exact Hs.
    assert (Hna : nth_error (mLayerBuilders sa) i = Some lb') by exact Hi'.
    rewrite (deferUnmergeableOp_top _ _ _ _ _ _ Hsa Hna).
    eexists. split; [reflexivity|]. apply Hdone. exact Hi'.
  - assert (Hna : nth_error (mLayerBuilders sa) n = Some lbn) by exact Hn.
    rewrite (callLayer_at _ _ _ _ Hna).
    eexists. split; [reflexivity|]. apply Hdone. exact Hn.
Qed.

(** An [EndUnclippedLayerOp] closes the save-layer its
    [BeginUnclippedLayerOp] opened. *)
Lemma end_of_unclipped_layer : forall s1 s1' s b,
  valid s1 ->
  deferBeginUnclippedLayerOp b s1 = Ok tt s1' ->
  preserves s1' s ->
  exists s', deferEndUnclippedLayerOp s = Ok tt s' /\ preserves s1 s'.
Proof.
  intros s1 s1' s b Hv Hbegin P. use_valid Hv.
  rewrite (deferBeginUnclippedLayerOp_top b _ _ _ _ _ _ Ecanvas Hstack Elayer) in Hbegin.
  inversion Hbegin; subst s1'. clear Hbegin.
  destruct P as [Pst Pde (added & Pbu & Pfa)]. simpl in Pst, Pde, Pbu.
  rewrite map_setNth in Pbu.
  match type of Pbu with
  | _ = setNth _ (skeleton ?x) _ ++ _ => set (opened := x) in *
  end.
  assert (Hcur : exists lbi, nth_error (mLayerBuilders s) top = Some lbi
                             /\ skeleton lbi = skeleton opened).
  { eapply nth_error_skeleton; [exact Pbu|].
    apply nth_error_setNth_same. rewrite length_map. exact Htop. }
  destruct Hcur as (lbi & Hn & Hsk).
  assert (Hact : activeUnclippedSaveLayers lbi
                 = activeUnclippedSaveLayers layer
                   ++ [BakedOpState_directConstruct (viewportClip layer)
                         (unclippedDstRect snap b) (CopyFromLayerOp b (nextHandle s1))]).
  { apply (f_equal activeUnclippedSaveLayers) in Hsk. exact Hsk. }
  rewrite Hstack in Pst.
  rewrite (deferEndUnclippedLayerOp_top _ _ _ _ _ _ Pst Hn Hact).
  eexists. split; [reflexivity|]. split.
  - simpl. congruence.
  - simpl. exact Pde.
  - exists added. split; [|exact Pfa]. simpl.
    rewrite map_setNth, Pbu.
    rewrite setNth_app_l by (rewrite length_setNth, length_map; exact Htop).
    rewrite setNth_setNth. f_equal.
    apply setNth_same. rewrite nth_error_map, Elayer. simpl. f_equal.
    unfold skeleton. simpl.
    apply (f_equal (fun x => (LayerBuilder_width x, LayerBuilder_height x, repaintRect x,
                              beginLayerOp x, LayerBuilder_renderNode x, viewportClip x)))
      in Hsk.
    simpl in Hsk. inversion Hsk. reflexivity.
Qed.

(** ** Balance: open save-layers *)

Lemma within_step : forall open s0 s s',
  within open s0 s -> preserves s s' -> within open s0 s'.
Proof.
  intros [|[|] outer] s0 s s' W P; simpl in *.
  - eapply preserves_trans; eassumption.
  - destruct W as (s1 & s1' & b & W & V & E & P1).
    exists s1, s1', b. split; [exact W|]. split; [exact V|]. split; [exact E|].
    eapply preserves_trans; eassumption.
  - destruct W as (s1 & s1' & b & W & V & E & P1).
    exists s1, s1', b. split; [exact W|]. split; [exact V|]. split; [exact E|].
    eapply preserves_trans; eassumption.
Qed.

Lemma deferBeginLayerOp_valid : forall b s s',
  valid s -> deferBeginLayerOp b s = Ok tt s' -> valid s'.
Proof.
  intros b s s' Hv E.
  destruct (deferBeginLayerOp_top b s Hv) as (s'' & w & h & r & E' & St & Bu & De).
  rewrite E' in E. inversion E; subst s''. split.
  - intro H. rewrite H in De. simpl in De. discriminate.
  - exists (length (mLayerBuilders s)), (mLayerStack s). split; [exact St|].
    rewrite Bu, length_app. simpl. lia.
Qed.

Lemma deferBeginUnclippedLayerOp_valid : forall b s s',
  valid s -> deferBeginUnclippedLayerOp b s = Ok tt s' -> valid s'.
Proof.
  intros b s s' Hv E. use_valid Hv.
  rewrite (deferBeginUnclippedLayerOp_top b _ _ _ _ _ _ Ecanvas Hstack Elayer) in E.
  inversion E; subst s'. split; simpl.
  - exact Hcanvas.
  - exists top, below. split; [exact Hstack|]. rewrite length_setNth. exact Htop.
Qed.

Lemma within_valid : forall open s0 s, valid s0 -> within open s0 s -> valid s.
Proof.
  induction open as [|[|] outer IH]; intros s0 s Hv W; simpl in W.
  - eapply preserves_valid; eassumption.
  - destruct W as (s1 & s1' & b & W & V & E & P).
    eapply preserves_valid; [|exact P]. eapply deferBeginLayerOp_valid; eassumption.
  - destruct W as (s1 & s1' & b & W & V & E & P).
    eapply preserves_valid; [|exact P].
    eapply deferBeginUnclippedLayerOp_valid; eassumption.
Qed.

Lemma moves_keeps : forall open m, keeps m -> moves open open m.
Proof.
  intros open m H s0 s Hv W.
  destruct (H s (within_valid _ _ _ Hv W)) as (s' & E & P).
  exists s'. split; [exact E|]. eapply within_step; eassumption.
Qed.

Lemma moves_seq : forall o1 o2 o3 (m1 m2 : M unit),
  moves o1 o2 m1 -> moves o2 o3 m2 -> moves o1 o3 (m1 ;; m2).
Proof.
  intros o1 o2 o3 m1 m2 H1 H2 s0 s Hv W.
  destruct (H1 s0 s Hv W) as (s1 & E1 & W1).
  destruct (H2 s0 s1 Hv W1) as (s2 & E2 & W2).
  exists s2. unfold bind. rewrite E1. auto.
Qed.

Lemma moves_bind : forall (A : Type) (R : A -> Prop) o1 o2 (m : M A) (k : A -> M unit),
  quiet R m -> (forall a, R a -> moves o1 o2 (k a)) -> moves o1 o2 (bind m k).
Proof.
  intros A R o1 o2 m k Hm Hk s0 s Hv W.
  destruct (Hm s (within_valid _ _ _ Hv W)) as (a & s1 & E & H1 & H2 & H3 & Ha).
  assert (W1 : within o1 s0 s1).
  { eapply within_step; [exact W|]. split; auto. exists []. rewrite app_nil_r. auto. }
  destruct (Hk a Ha s0 s1 Hv W1) as (s2 & E2 & W2).
  exists s2. unfold bind. rewrite E. auto.
Qed.

Lemma moves_begin_layer : forall open b,
  moves open (Clipped :: open) (deferBeginLayerOp b).
Proof.
  intros open b s0 s Hv W. assert (V := within_valid _ _ _ Hv W).
  destruct (deferBeginLayerOp_top b s V) as (s' & w & h & r & E & _).
  exists s'. split; [exact E|]. simpl. exists s, s', b.
  split; [exact W|]. split; [exact V|]. split; [exact E|]. apply preserves_refl.
Qed.

Lemma moves_end_layer : forall open, moves (Clipped :: open) open deferEndLayerOp.
Proof.
  intros open s0 s Hv W. simpl in W. destruct W as (s1 & s1' & b & W & V & E & P).
  destruct (end_of_layer _ _ _ _ V E P) as (s' & E' & P').
  exists s'. split; [exact E'|]. eapply within_step; eassumption.
Qed.

Lemma moves_begin_unclipped_layer : forall open b,
  moves open (Unclipped :: open) (deferBeginUnclippedLayerOp b).
Proof.
  intros open b s0 s Hv W. assert (V := within_valid _ _ _ Hv W).
  assert (V' := V). use_valid V'.
  eexists. split.
  - apply (deferBeginUnclippedLayerOp_top b _ _ _ _ _ _ Ecanvas Hstack Elayer).
  - simpl. exists s. eexists. exists b. split; [exact W|]. split; [exact V|].
    split; [apply (deferBeginUnclippedLayerOp_top b _ _ _ _ _ _ Ecanvas Hstack Elayer)|].
    apply preserves_refl.
Qed.

Lemma moves_end_unclipped_layer : forall open,
  moves (Unclipped :: open) open deferEndUnclippedLayerOp.
Proof.
  intros open s0 s Hv W. simpl in W. destruct W as (s1 & s1' & b & W & V & E & P).
  destruct (end_of_unclipped_layer _ _ _ _ V E P) as (s' & E' & P').
  exists s'. split; [exact E'|]. eapply within_step; eassumption.
Qed.

(** ** Balance: children *)

Lemma bind_ext : forall (A B : Type) (m : M A) (k k' : A -> M B) s,
  (forall a s', k a s' = k' a s') -> bind m k s = bind m k' s.
Proof. intros A B m k k' s H. unfold bind. destruct (m s); auto. Qed.

Lemma keeps_deferRenderNodeOpImpl : forall recurse op,
  (nothingToDraw (renderNode op) = false -> keeps (recurse (renderNode op))) ->
  keeps (deferRenderNodeOpImpl recurse op).
Proof.
  intros recurse op H. unfold deferRenderNodeOpImpl.
  destruct (nothingToDraw (renderNode op)); [apply keeps_ret|].
  apply keeps_saved3.
  - eapply quiet_keeps. apply quiet_writeSnapshot.
  - eapply quiet_keeps. apply quiet_writeSnapshot.
  - apply H. reflexivity.
Qed.

Lemma keeps_deferRenderNodeOp : forall recurse op,
  (nothingToDraw (renderNode op) = false -> keeps (recurse (renderNode op))) ->
  keeps (deferRenderNodeOp recurse op).
Proof.
  intros recurse op H. unfold deferRenderNodeOp.
  eapply keeps_bind; [apply quiet_getSkipInOrderDraw|]. intros skip _.
  destruct skip; simpl; [apply keeps_ret | apply keeps_deferRenderNodeOpImpl, H].
Qed.

Lemma defer3dChildren_loop_unfold : forall recurse steps z endIndex si di last,
  defer3dChildren_loop recurse (S steps) z endIndex si di last
  = if (si <? endIndex) || (di <? endIndex)
    then
      let draw :=
        childOp <- at_ z di ;;
        deferRenderNodeOpImpl recurse (snd childOp) ;;
        defer3dChildren_loop recurse steps z endIndex si (S di) last in
      if si <? endIndex
      then
        caster <- at_ z si ;;
        if (si =? di) || nearPrevious (fst caster) last
        then
          deferShadow (snd caster) ;;
          defer3dChildren_loop recurse steps z endIndex (S si) di (fst caster)
        else draw
      else draw
    else ret tt.
Proof. reflexivity. Qed.

(** The loop of [defer3dChildren] performs, in order, a sequence of shadows
    and draws that obeys the interleaving rule, and never runs out of steps. *)
Lemma defer3dChildren_loop_rule : forall recurse z endIndex steps si di last,
  endIndex <= length z -> di <= si ->
  (endIndex - si) + (endIndex - di) <= steps ->
  exists emitted,
    ShadowRule z endIndex si di last emitted
    /\ (forall s, defer3dChildren_loop recurse steps z endIndex si di last s
                  = forEach emitted (perform recurse) s)
    /\ Forall (fun e => exists p, In p z
                                  /\ (e = EmitShadow (snd p) \/ e = EmitDraw (snd p)))
              emitted.
Proof.
  intros recurse z endIndex steps.
  induction steps as [|steps IH]; intros si di last Hend Hle Hsteps.
  - exists []. split; [|split].
    + apply rule_done; lia.
    + intro s. simpl.
      assert (H1 : (si <? endIndex) = false) by (apply Nat.ltb_ge; lia).
      assert (H2 : (di <? endIndex) = false) by (apply Nat.ltb_ge; lia).
      rewrite H1, H2. reflexivity.
    + constructor.
  - rewrite defer3dChildren_loop_unfold.
    assert (Hdraw : di < endIndex -> (si < endIndex -> si <> di) ->
              (forall caster, si < endIndex -> nth_error z si = Some caster ->
                 nearPrevious (fst caster) last = false) ->
              exists emitted,
                ShadowRule z endIndex si di last emitted
                /\ (forall s,
                      (childOp <- at_ z di ;;
                       deferRenderNodeOpImpl recurse (snd childOp) ;;
                       defer3dChildren_loop recurse steps z endIndex si (S di) last) s
                      = forEach emitted (perform recurse) s)
                /\ Forall (fun e => exists p, In p z
                                   /\ (e = EmitShadow (snd p) \/ e = EmitDraw (snd p)))
                          emitted).
    { intros Hdi Hne Hfar.
      destruct (nth_error z di) as [child|] eqn:Echild;
        [|apply nth_error_None in Echild; lia].
      destruct (IH si (S di) last) as (rest & R & E & F); [lia | | lia |].
      { destruct (Nat.lt_ge_cases si endIndex) as [Hlt|Hge]; [|lia].
        specialize (Hne Hlt). lia. }
      exists (EmitDraw (snd child) :: rest). split; [|split].
      - eapply rule_draw; eauto.
      - intro s. unfold at_. rewrite Echild. rewrite bind_ret. simpl.
        apply bind_ext. intros _ s'. apply E.
      - constructor; [|exact F]. exists child. split; [|auto].
        eapply nth_error_In. exact Echild. }
    destruct (si <? endIndex) eqn:Hsi.
    + apply Nat.ltb_lt in Hsi. simpl.
      destruct (nth_error z si) as [caster|] eqn:Ecaster;
        [|apply nth_error_None in Ecaster; lia].
      destruct ((si =? di) || nearPrevious (fst caster) last) eqn:Hcond.
      * destruct (IH (S si) di (fst caster)) as (rest & R & E & F); try lia.
        exists (EmitShadow (snd caster) :: rest). split; [|split].
        -- eapply rule_shadow; eauto.
           apply orb_true_iff in Hcond. destruct Hcond as [H|H]; [left|right; exact H].
           apply Nat.eqb_eq. exact H.
        -- intro s. unfold at_ at 1. rewrite Ecaster. rewrite bind_ret.
           rewrite Hcond. simpl. apply bind_ext. intros _ s'. apply E.
        -- constructor; [|exact F]. exists caster. split; [|auto].
           eapply nth_error_In. exact Ecaster.
      * apply orb_false_iff in Hcond. destruct Hcond as [Hne Hfar].
        apply Nat.eqb_neq in Hne.
        destruct Hdraw as (emitted & R & E & F); [lia | auto | |].
        { intros c _ Hc. try rewrite Ecaster in Hc. inversion Hc; subst. exact Hfar. }
        exists emitted. split; [exact R|]. split; [|exact F].
        intro s. rewrite <- E. unfold at_ at 1. rewrite Ecaster. rewrite bind_ret.
        assert (Hb : (si =? di) || nearPrevious (fst caster) last = false).
        { apply orb_false_iff. split; [apply Nat.eqb_neq; exact Hne | exact Hfar]. }
        rewrite Hb. reflexivity.
    + apply Nat.ltb_ge in Hsi. simpl.
      destruct (di <? endIndex) eqn:Hdi.
      * apply Nat.ltb_lt in Hdi.
        destruct Hdraw as (emitted & R & E & F); [lia | lia | intros; lia |].
        exists emitted. auto.
      * apply Nat.ltb_ge in Hdi. exists []. split; [|split].
        -- apply rule_done; lia.
        -- reflexivity.
        -- constructor.
Qed.

Lemma findNonNegativeIndex_le : forall z, findNonNegativeIndex z <= length z.
Proof.
  induction z as [|p z IH]; simpl; [lia|].
  destruct (F32.leb F32.zero (fst p)); lia.
Qed.

Lemma keeps_defer3dChildren : forall recurse mode z,
  (forall p, In p z -> nothingToDraw (renderNode (snd p)) = false ->
             keeps (recurse (renderNode (snd p)))) ->
  keeps (defer3dChildren recurse mode z).
Proof.
  intros recurse mode z H. unfold defer3dChildren.
  destruct z as [|first rest] eqn:Ez; [apply keeps_ret|]. rewrite <- Ez in *.
  destruct (_ || _); [apply keeps_ret|].
  pose proof (findNonNegativeIndex_le z) as Hnn.
  match goal with
  | |- keeps (defer3dChildren_loop _ ?steps _ ?e ?si ?di ?last) =>
      destruct (defer3dChildren_loop_rule recurse z e steps si di last)
        as (emitted & _ & E & F)
  end.
  - destruct mode; simpl; lia.
  - destruct mode; simpl; lia.
  - destruct mode; simpl; lia.
  - eapply keeps_ext; [intro s; symmetry; apply E|].
    apply keeps_forEach. intros e He.
    rewrite Forall_forall in F. destruct (F e He) as (p & Hp & [->| ->]); simpl.
    + eapply quiet_keeps. apply quiet_deferShadow.
    + apply keeps_deferRenderNodeOpImpl. apply H. exact Hp.
Qed.

Lemma In_insertByKey : forall x l p, In p (insertByKey x l) -> p = x \/ In p l.
Proof.
  intros x l. induction l as [|y l IH]; intros p H; simpl in *.
  - destruct H as [H|[]]. auto.
  - destruct (F32.ltb (fst x) (fst y)); simpl in H.
    + destruct H as [H|H]; auto.
    + destruct H as [H|H]; auto. destruct (IH p H); auto.
Qed.

Lemma In_stable_sort : forall l p, In p (stable_sort l) -> In p l.
Proof.
  intros l p. unfold stable_sort.
  assert (G : forall acc, In p (fold_left (fun sorted x => insertByKey x sorted) l acc)
                          -> In p acc \/ In p l).
  { induction l as [|x l IH]; intros acc H; simpl in *; [auto|].
    destruct (IH _ H) as [H1|H1]; [|auto].
    destruct (In_insertByKey _ _ _ H1); auto. }
  intro H. destruct (G [] H) as [[]|H1]. exact H1.
Qed.

Lemma quiet_buildZSortedChildList_loop : forall displayList chunk indices acc,
  (forall i, In i indices -> i < length (getChildren displayList)) ->
  (forall p, In p acc -> In (snd p) (getChildren displayList)) ->
  quiet (fun z => forall p, In p z -> In (snd p) (getChildren displayList))
        (buildZSortedChildList_loop displayList chunk indices acc).
Proof.
  intros displayList chunk indices.
  induction indices as [|i indices IH]; intros acc Hidx Hacc; simpl.
  - apply quiet_ret. exact Hacc.
  - assert (Hi : i < length (getChildren displayList)) by (apply Hidx; left; reflexivity).
    destruct (nth_error (getChildren displayList) i) as [childOp|] eqn:E;
      [|apply nth_error_None in E; lia].
    unfold at_. rewrite E.
    assert (Hrest : forall j, In j indices -> j < length (getChildren displayList)).
    { intros j Hj. apply Hidx. right. exact Hj. }
    apply (quiet_bind _ _ (fun a => a = childOp));
      [apply quiet_ret; reflexivity|]. intros a ->. simpl.
    destruct (_ && _).
    + eapply quiet_bind; [apply quiet_setSkipInOrderDraw|]. intros _ _.
      apply IH; [exact Hrest|]. intros p Hp. apply in_app_or in Hp.
      destruct Hp as [Hp|[Hp|[]]]; [auto|]. subst p. simpl.
      eapply nth_error_In. exact E.
    + destruct (negb _).
      * eapply quiet_bind; [apply quiet_setSkipInOrderDraw|]. intros _ _.
        apply IH; assumption.
      * apply IH; assumption.
Qed.

Lemma quiet_buildZSortedChildList : forall displayList chunk,
  (endChildIndex chunk <=? length (getChildren displayList))
  || (endChildIndex chunk <=? beginChildIndex chunk) = true ->
  quiet (fun z => forall p, In p z -> In (snd p) (getChildren displayList))
        (buildZSortedChildList displayList chunk).
Proof.
  intros displayList chunk Hrange. unfold buildZSortedChildList.
  destruct (beginChildIndex chunk =? endChildIndex chunk).
  - apply quiet_ret. intros p [].
  - eapply quiet_bind.
    + apply quiet_buildZSortedChildList_loop.
      * intros i Hi. apply in_seq in Hi.
        apply orb_true_iff in Hrange. destruct Hrange as [H|H]; apply Nat.leb_le in H; lia.
      * intros p [].
    + intros z Hz. apply quiet_ret. intros p Hp. apply Hz.
      apply In_stable_sort. exact Hp.
Qed.

Section Traversed.

Variable recurse : RenderNode -> M unit.
Variable childOK : RenderNode -> bool.
Hypothesis recurse_keeps :
  forall child, childOK child = true -> nothingToDraw child = false ->
                keeps (recurse child).
Hypothesis bakes : bakesClipState.

Lemma keeps_deferProjectedChildren : forall node displayList opIndex r,
  getDisplayList node = Some displayList ->
  forallb (fun r => childOK (renderNode r)) (mProjectedNodes node) = true ->
  projectsAt node displayList opIndex = true ->
  nth_error (getOps displayList) opIndex = Some (OfRenderNodeOp r) ->
  keeps (deferProjectedChildren recurse node).
Proof.
  intros node displayList opIndex r Hdl Hproj Hat Hop.
  unfold projectsAt in Hat. apply andb_true_iff in Hat. destruct Hat as [Hat Heq].
  apply andb_true_iff in Hat. destruct Hat as [_ Hpos].
  apply Z.eqb_eq in Heq. apply Z.leb_le in Hpos.
  set (background := properties (renderNode r)).
  apply (keeps_ext
    (count <- save saveFlags_clip_matrix ;;
     translate (getTranslationX background) (getTranslationY background) ;;
     setProjectionPathMask (Outline_getPath (getOutline (properties node))) ;;
     forEach (mProjectedNodes node) (fun childOp =>
       restoreTo <- save kMatrix_SaveFlag ;;
       concatMatrix (transformFromCompositingAncestor childOp) ;;
       deferRenderNodeOpImpl recurse childOp ;;
       restoreToCount restoreTo) ;;
     restoreToCount count)).
  - intro s. unfold deferProjectedChildren. apply bind_ext. intros count s'.
    rewrite Hdl. simpl. rewrite bind_ret.
    assert (Hneg : (projectionReceiveIndex displayList <? 0)%Z = false)
      by (apply Z.ltb_ge; lia).
    rewrite Hneg. rewrite <- Heq, Nat2Z.id. unfold at_. rewrite Hop.
    rewrite !bind_ret. reflexivity.
  - apply keeps_saved3.
    + eapply quiet_keeps. apply quiet_writeSnapshot.
    + eapply quiet_keeps. apply quiet_writeSnapshot.
    + apply keeps_forEach. intros childOp Hin.
      apply (keeps_ext
        (restoreTo <- save kMatrix_SaveFlag ;;
         (concatMatrix (transformFromCompositingAncestor childOp) ;;
          deferRenderNodeOpImpl recurse childOp) ;;
         restoreToCount restoreTo)).
      * intro s. apply bind_ext. intros restoreTo s'. unfold bind.
        destruct (concatMatrix _ s'); reflexivity.
      * apply keeps_saved. apply keeps_seq.
        -- eapply quiet_keeps. apply quiet_writeSnapshot.
        -- apply keeps_deferRenderNodeOpImpl. apply recurse_keeps.
           rewrite forallb_forall in Hproj. apply Hproj. exact Hin.
Qed.

Lemma moves_dispatch : forall open open' op,
  checkOp childOK open op = Some open' ->
  moves open open' (dispatch recurse op).
Proof.
  intros open open' op Hcheck.
  destruct (isPlainDraw op) eqn:Hplain.
  - assert (open' = open).
    { destruct op; try discriminate; simpl in Hcheck;
        try (destruct (hasPaint _); [|discriminate]); congruence. }
    subst open'. apply moves_keeps. eapply quiet_keeps.
    eapply quiet_dispatch_plain; eassumption.
  - destruct op; try discriminate; simpl in Hcheck |- *.
    + inversion Hcheck; subst. apply moves_begin_layer.
    + destruct open as [|[|] outer]; try discriminate. inversion Hcheck; subst.
      apply moves_end_layer.
    + inversion Hcheck; subst. apply moves_begin_unclipped_layer.
    + destruct open as [|[|] outer]; try discriminate. inversion Hcheck; subst.
      apply moves_end_unclipped_layer.
    + destruct (childOK (renderNode r)) eqn:Hok; [|discriminate].
      inversion Hcheck; subst. apply moves_keeps.
      apply keeps_deferRenderNodeOp. apply recurse_keeps. exact Hok.
Qed.

Lemma moves_ops : forall node displayList indices open open',
  getDisplayList node = Some displayList ->
  forallb (fun r => childOK (renderNode r)) (mProjectedNodes node) = true ->
  checkOps childOK node displayList indices open = Some open' ->
  moves open open'
    (forEach indices (fun opIndex =>
       op <- at_ (getOps displayList) opIndex ;;
       dispatch recurse op ;;
       when (negb (isNull (head (mProjectedNodes node)))
             && (0 <=? projectionReceiveIndex displayList)%Z
             && (Z.of_nat opIndex =? projectionReceiveIndex displayList)%Z)
         (deferProjectedChildren recurse node))).
Proof.
  intros node displayList indices.
  induction indices as [|opIndex indices IH]; intros open open' Hdl Hproj Hcheck;
    simpl in Hcheck |- *.
  - inversion Hcheck; subst. apply moves_keeps, keeps_ret.
  - destruct (nth_error (getOps displayList) opIndex) as [op|] eqn:Eop; [|discriminate].
    destruct (checkOp childOK open op) as [open1|] eqn:Echeck; [|discriminate].
    destruct (projectsAt node displayList opIndex && negb (isRenderNodeOp op)) eqn:Ebad;
      [discriminate|].
    apply (moves_seq open open1 open'); [|apply IH; assumption].
    unfold at_. rewrite Eop.
    apply (moves_bind _ (fun a => a = op)); [apply quiet_ret; reflexivity|].
    intros a ->.
    apply (moves_seq open open1 open1); [apply moves_dispatch; exact Echeck|].
    apply moves_keeps. fold (projectsAt node displayList opIndex).
    destruct (projectsAt node displayList opIndex) eqn:Eat; simpl; [|apply keeps_ret].
    destruct op; simpl in Ebad; try discriminate.
    eapply keeps_deferProjectedChildren; eassumption.
Qed.

Lemma moves_chunks : forall node displayList chunks open open',
  getDisplayList node = Some displayList ->
  forallb (fun r => childOK (renderNode r)) (getChildren displayList) = true ->
  forallb (fun r => childOK (renderNode r)) (mProjectedNodes node) = true ->
  checkChunks childOK node displayList chunks open = Some open' ->
  moves open open'
    (forEach chunks (fun chunk =>
       zTranslatedNodes <- buildZSortedChildList displayList chunk ;;
       defer3dChildren recurse Negative zTranslatedNodes ;;
       forRange (beginOpIndex chunk) (endOpIndex chunk) (fun opIndex =>
         op <- at_ (getOps displayList) opIndex ;;
         dispatch recurse op ;;
         when (negb (isNull (head (mProjectedNodes node)))
               && (0 <=? projectionReceiveIndex displayList)%Z
               && (Z.of_nat opIndex =? projectionReceiveIndex displayList)%Z)
           (deferProjectedChildren recurse node)) ;;
       defer3dChildren recurse Positive zTranslatedNodes)).
Proof.
  intros node displayList chunks.
  induction chunks as [|chunk chunks IH];
    intros open open' Hdl Hchildren Hproj Hcheck; simpl in Hcheck |- *.
  - inversion Hcheck; subst. apply moves_keeps, keeps_ret.
  - destruct (checkChunk childOK node displayList chunk open) as [open1|] eqn:Echunk;
      [|discriminate].
    apply (moves_seq open open1 open'); [|apply IH; assumption].
    unfold checkChunk in Echunk.
    destruct (_ || _) eqn:Erange in Echunk; [|discriminate].
    eapply moves_bind; [apply quiet_buildZSortedChildList; exact Erange|].
    intros z Hz.
    assert (Hz' : forall p, In p z -> nothingToDraw (renderNode (snd p)) = false ->
                            keeps (recurse (renderNode (snd p)))).
    { intros p Hp. apply recurse_keeps. rewrite forallb_forall in Hchildren.
      apply Hchildren. apply Hz. exact Hp. }
    apply (moves_seq open open open1);
      [apply moves_keeps, keeps_defer3dChildren; exact Hz'|].
    apply (moves_seq open open1 open1);
      [|apply moves_keeps, keeps_defer3dChildren; exact Hz'].
    unfold forRange. apply moves_ops; assumption.
Qed.

Lemma keeps_deferNodeOps : forall node displayList,
  getDisplayList node = Some displayList ->
  checkDisplayList childOK node displayList = true ->
  keeps (deferNodeOps recurse node).
Proof.
  intros node displayList Hdl Hcheck. unfold checkDisplayList in Hcheck.
  apply andb_true_iff in Hcheck. destruct Hcheck as [Hcheck Hnone].
  apply andb_true_iff in Hcheck. destruct Hcheck as [Hchildren Hproj].
  destruct (checkChunks childOK node displayList (getChunks displayList) [])
    as [[|]|] eqn:Echunks; try discriminate.
  intros s Hv. unfold deferNodeOps. rewrite Hdl. simpl. rewrite bind_ret.
  destruct (moves_chunks node displayList _ _ _ Hdl Hchildren Hproj Echunks s s Hv
              (preserves_refl s)) as (s' & E & W).
  exists s'. split; [exact E | exact W].
Qed.

Lemma quiet_applyNodeProperties : forall props,
  transformOK props = true ->
  quiet (fun _ => True) (applyNodeProperties props).
Proof.
  intros props Hok. unfold applyNodeProperties, translate, concatMatrix, scaleAlpha,
    clipRect, setClippingRoundRect, setClippingOutline.
  unfold transformOK in Hok.
  eapply quiet_bind; [quiet_auto|]. intros _ _.
  eapply quiet_bind; [quiet_auto|]. intros _ _.
  eapply quiet_bind.
  { destruct (hasTransformMatrix props); simpl; [|apply quiet_ret_tt].
    destruct (isTransformTranslateOnly props); [apply quiet_writeSnapshot|].
    simpl in Hok. destruct (getTransformMatrix props); [|discriminate]. simpl.
    quiet_auto. }
  intros _ _. clear Hok. quiet_auto.
Qed.

Lemma keeps_deferNodePropsAndOps_body : forall node,
  checkNode childOK node = true ->
  keeps (deferNodePropsAndOps_body recurse node).
Proof.
  intros node Hcheck. unfold checkNode in Hcheck.
  apply andb_true_iff in Hcheck. destruct Hcheck as [Htransform Hdl].
  unfold deferNodePropsAndOps_body.
  destruct (rejected (properties node)); [apply keeps_ret|].
  eapply keeps_bind; [apply quiet_applyNodeProperties; exact Htransform|].
  intros saveLayerBounds _.
  eapply keeps_bind; [apply quiet_quickRejectConservative|]. intros isRejected _.
  destruct isRejected; simpl; [apply keeps_ret|].
  destruct (getLayer node) as [buffer|].
  - eapply quiet_keeps. quiet_auto.
  - destruct (getDisplayList node) as [displayList|] eqn:Edl; [|discriminate].
    assert (Hops : keeps (deferNodeOps recurse node))
      by (eapply keeps_deferNodeOps; eassumption).
    destruct (negb (Rect_isEmpty saveLayerBounds)); [|exact Hops].
    intros s Hv.
    assert (Hm : moves [] []
              (deferBeginLayerOp
                 (mkOpBase saveLayerBounds Matrix4_identity None
                    (Some (SkPaint_setAlpha SkPaint_new
                             (float_to_uint32 (getAlpha (properties node)))))) ;;
               deferNodeOps recurse node ;;
               deferEndLayerOp)).
    { apply (moves_seq [] [Clipped] []); [apply moves_begin_layer|].
      apply (moves_seq [Clipped] [Clipped] []);
        [apply moves_keeps; exact Hops | apply moves_end_layer]. }
    destruct (Hm s s Hv (preserves_refl s)) as (s' & E & W).
    exists s'. split; [exact E | exact W].
Qed.

End Traversed.

(** A well-formed node is traversed to the end, and the traversal is
    balanced. *)
Lemma keeps_deferNodePropsAndOps : forall depth node,
  bakesClipState ->
  wellFormed depth node = true ->
  keeps (deferNodePropsAndOps (S depth) node).
Proof.
  intros depth. induction depth as [|depth IH]; intros node Hb Hwf.
  - apply (keeps_deferNodePropsAndOps_body (deferNodePropsAndOps 0)
             (fun child => nothingToDraw child || false)); [|exact Hb|exact Hwf].
    intros child Hok Hdraw. rewrite Hdraw in Hok. discriminate.
  - apply (keeps_deferNodePropsAndOps_body (deferNodePropsAndOps (S depth))
             (fun child => nothingToDraw child || wellFormed depth child));
      [|exact Hb|exact Hwf].
    intros child Hok Hdraw. rewrite Hdraw in Hok. simpl in Hok.
    apply IH; assumption.
Qed.

Lemma keeps_recurse_at : forall depth child,
  bakesClipState ->
  childOKat depth child = true -> nothingToDraw child = false ->
  keeps (deferNodePropsAndOps depth child).
Proof.
  intros depth child Hb Hok Hdraw. unfold childOKat in Hok. rewrite Hdraw in Hok.
  simpl in Hok. destruct depth as [|depth]; [discriminate|].
  apply keeps_deferNodePropsAndOps; assumption.
Qed.

(** ** The constructor *)

Lemma forEach_ext_in : forall (A : Type) (l : list A) (f g : A -> M unit) s,
  (forall x s', In x l -> f x s' = g x s') -> forEach l f s = forEach l g s.
Proof.
  intros A l f g. induction l as [|x l IH]; intros s H; simpl; [reflexivity|].
  unfold bind. rewrite (H x s (or_introl eq_refl)).
  destruct (g x s); auto. apply IH. intros y s' Hy. apply H. right. exact Hy.
Qed.

(** the loop that counts the queue's indices down visits its entries last
    to first *)
Lemma forEach_indices_rev : forall (A : Type) (l : list A) (f : A -> M unit) s,
  forEach (rev (seq 0 (length l))) (fun i => x <- at_ l i ;; f x) s
  = forEach (rev l) f s.
Proof.
  intros A l f. induction l as [|x l IH] using rev_ind; intro s; [reflexivity|].
  rewrite length_app. simpl length. rewrite Nat.add_1_r, seq_S, !rev_app_distr.
  simpl. unfold at_ at 1.
  rewrite nth_error_app2 by lia. rewrite Nat.sub_diag. simpl.
  rewrite bind_assoc, bind_ret.
  apply bind_ext. intros _ s'. rewrite <- IH.
  apply forEach_ext_in. intros i s'' Hi. apply in_rev, in_seq in Hi.
  unfold at_. rewrite nth_error_app1 by lia. reflexivity.
Qed.

Lemma restoreForLayer_after : forall s i below n,
  mLayerStack s = i :: below ->
  length (mCanvasState s) = S n -> 1 <= n ->
  exists s', restoreForLayer s = Ok tt s'
             /\ mLayerStack s' = below
             /\ mLayerBuilders s' = mLayerBuilders s
             /\ length (mCanvasState s') = n.
Proof.
  intros s i below n Hs Hlen Hn.
  destruct (mCanvasState s) as [|removed [|restored under]] eqn:Ec;
    simpl in Hlen; try lia.
  rewrite (restoreForLayer_top _ _ _ _ _ _ Ec Hs).
  eexists. split; [reflexivity|]. simpl. repeat split. lia.
Qed.

Lemma valid_grow : forall s s',
  valid s ->
  mLayerStack s' = mLayerStack s ->
  length (mCanvasState s') = length (mCanvasState s) ->
  length (mLayerBuilders s) <= length (mLayerBuilders s') ->
  valid s'.
Proof.
  intros s s' [Hc (i & below & Hs & Hi)] St De Le. split.
  - intro E. apply Hc. apply length_zero_iff_nil. rewrite <- De, E. reflexivity.
  - exists i, below. split; [congruence | lia].
Qed.

Lemma ctor_layer_spec : forall fuel entry s,
  bakesClipState ->
  wellFormedEntry fuel entry = true ->
  valid s ->
  exists s' added,
    FrameBuilder_ctor_layer fuel entry s = Ok tt s'
    /\ mLayerStack s' = mLayerStack s
    /\ length (mCanvasState s') = length (mCanvasState s)
    /\ map skeleton (mLayerBuilders s')
       = map skeleton (mLayerBuilders s) ++ entryBuilder entry :: added
    /\ Forall (fun lb => LayerBuilder_renderNode lb = None) added.
Proof.
  intros fuel entry s Hb Hwf Hv. unfold wellFormedEntry in Hwf.
  apply andb_true_iff in Hwf. destruct Hwf as [Hlayer Hdl].
  assert (Hv0 := Hv). use_valid Hv.
  unfold FrameBuilder_ctor_layer.
  set (layerNode := computeOrdering (Entry_renderNode entry)) in *.
  rewrite (bind_Ok _ _ _ _ _ _ _ (currentSnapshot_top _ _ _ Ecanvas)).
  destruct (getLayer layerNode) as [buffer|]; [|discriminate]. simpl.
  rewrite bind_ret.
  match goal with
  | |- exists s' added, bind (saveForLayer ?w ?h ?x ?y ?r ?l ?bg ?n) _ _ = _ /\ _ =>
      destruct (saveForLayer_top w h x y r l bg n s Hv0) as (s1 & E1 & St1 & Bu1 & De1)
  end.
  rewrite (bind_Ok _ _ _ _ _ _ _ E1).
  assert (Hv1 : valid s1).
  { split.
    - intro H. rewrite H in De1. simpl in De1. discriminate.
    - exists (length (mLayerBuilders s)), (mLayerStack s). split; [exact St1|].
      rewrite Bu1, length_app. simpl. lia. }
  assert (Hk : keeps (when (negb (isNull (getDisplayList layerNode)))
                        (deferNodeOps (deferNodePropsAndOps fuel) layerNode))).
  { destruct (getDisplayList layerNode) as [displayList|] eqn:Edl; simpl;
      [|apply keeps_ret].
    eapply (keeps_deferNodeOps (deferNodePropsAndOps fuel) (childOKat fuel));
      [|exact Hb|exact Edl|exact Hdl].
    intros child Hok Hdraw. apply keeps_recurse_at; assumption. }
  destruct (Hk s1 Hv1) as (s2 & E2 & [St2 De2 (added & Bu2 & Fa2)]).
  rewrite (bind_Ok _ _ _ _ _ _ _ E2).
  destruct (restoreForLayer_after s2 (length (mLayerBuilders s)) (mLayerStack s)
              (length (mCanvasState s))) as (s3 & E3 & St3 & Bu3 & De3).
  { rewrite St2. exact St1. }
  { rewrite De2. exact De1. }
  { rewrite Ecanvas. simpl. lia. }
  exists s3, added. split; [exact E3|]. split; [exact St3|]. split; [exact De3|].
  split; [|exact Fa2].
  rewrite Bu3, Bu2, Bu1, map_app. simpl. rewrite <- app_assoc. reflexivity.
Qed.

Lemma queueLayout_app_None : forall entries builders added,
  queueLayout entries builders ->
  Forall (fun lb => LayerBuilder_renderNode lb = None) added ->
  queueLayout entries (builders ++ added).
Proof.
  induction entries as [|e entries IH]; intros builders added H Ha; simpl in *.
  - apply Forall_app. auto.
  - destruct H as (a & rest & E & Fa & L). exists a, (rest ++ added).
    subst builders. split; [simpl; rewrite <- app_assoc; reflexivity|].
    split; [exact Fa|]. apply IH; assumption.
Qed.

Lemma ctor_layers_spec : forall fuel entries s,
  bakesClipState ->
  forallb (wellFormedEntry fuel) entries = true ->
  valid s ->
  exists s' created,
    forEach entries (FrameBuilder_ctor_layer fuel) s = Ok tt s'
    /\ mLayerStack s' = mLayerStack s
    /\ length (mCanvasState s') = length (mCanvasState s)
    /\ map skeleton (mLayerBuilders s') = map skeleton (mLayerBuilders s) ++ created
    /\ queueLayout entries created.
Proof.
  intros fuel entries. induction entries as [|e entries IH]; intros s Hb Hwf Hv.
  - exists s, []. simpl. rewrite app_nil_r. repeat split; auto.
  - simpl in Hwf. apply andb_true_iff in Hwf. destruct Hwf as [He Hrest].
    destruct (ctor_layer_spec fuel e s Hb He Hv) as (s1 & added & E1 & St1 & De1 & Bu1 & Fa1).
    assert (Hv1 : valid s1).
    { apply (valid_grow s); auto.
      apply (f_equal (@length _)) in Bu1.
      rewrite length_app, !length_map in Bu1. lia. }
    destruct (IH s1 Hb Hrest Hv1) as (s2 & created & E2 & St2 & De2 & Bu2 & L2).
    exists s2, (entryBuilder e :: added ++ created).
    simpl. rewrite (bind_Ok _ _ _ _ _ _ _ E1).
    split; [exact E2|]. split; [congruence|]. split; [congruence|].
    split.
    + rewrite Bu2, Bu1. rewrite <- app_assoc. reflexivity.
    + exists added, created. auto.
Qed.

Lemma keeps_ctor_node : forall fuel node,
  bakesClipState ->
  nothingToDraw node || wellFormed fuel (computeOrdering node) = true ->
  keeps (FrameBuilder_ctor_node fuel node).
Proof.
  intros fuel node Hb Hwf. unfold FrameBuilder_ctor_node.
  destruct (nothingToDraw node); [apply keeps_ret|]. simpl in Hwf.
  apply keeps_saved. apply keeps_deferNodePropsAndOps; assumption.
Qed.

(** What the constructor leaves behind on well-formed input. *)
Lemma FrameBuilder_new_spec : forall fuel layers clip w h nodes lightCenter,
  bakesClipState ->
  wellFormedInput fuel layers nodes = true ->
  exists s created,
    FrameBuilder_new fuel layers clip w h nodes lightCenter = Ok tt s
    /\ mLayerStack s = [0]
    /\ length (mCanvasState s) = 1
    /\ map skeleton (mLayerBuilders s)
       = LayerBuilder_new w h (Rect_ofSkRect clip) None None :: created
    /\ queueLayout (rev layers) created.
Proof.
  intros fuel layers clip w h nodes lightCenter Hb Hwf.
  unfold wellFormedInput in Hwf. apply andb_true_iff in Hwf.
  destruct Hwf as [Hlayers Hnodes].
  set (fbo0 := LayerBuilder_new w h (Rect_ofSkRect clip) None None).
  set (s0 := mkFrameBuilder [fbo0] [0]
               [Snapshot_root w h (fLeft clip) (fTop clip) (fRight clip) (fBottom clip)
                  lightCenter] [] 0).
  assert (E0 : FrameBuilder_new fuel layers clip w h nodes lightCenter
               = (forEach (rev layers) (FrameBuilder_ctor_layer fuel) ;;
                  forEach nodes (FrameBuilder_ctor_node fuel)) s0).
  { transitivity
      ((forEach (rev (seq 0 (length layers)))
          (fun i => entry <- at_ layers i ;; FrameBuilder_ctor_layer fuel entry) ;;
        forEach nodes (FrameBuilder_ctor_node fuel)) s0); [reflexivity|].
    unfold bind at 1. rewrite forEach_indices_rev. reflexivity. }
  assert (Hv0 : valid s0).
  { split; [discriminate|]. exists 0, []. simpl. auto. }
  assert (Hrev : forallb (wellFormedEntry fuel) (rev layers) = true).
  { apply forallb_forall. intros e He. rewrite forallb_forall in Hlayers.
    apply Hlayers. apply in_rev. exact He. }
  destruct (ctor_layers_spec fuel (rev layers) s0 Hb Hrev Hv0)
    as (s1 & created & E1 & St1 & De1 & Bu1 & L1).
  assert (Hv1 : valid s1).
  { apply (valid_grow s0); auto. apply (f_equal (@length _)) in Bu1.
    rewrite length_app, !length_map in Bu1. lia. }
  assert (Hk : keeps (forEach nodes (FrameBuilder_ctor_node fuel))).
  { apply keeps_forEach. intros node Hin. apply keeps_ctor_node; [exact Hb|].
    rewrite forallb_forall in Hnodes. apply Hnodes. exact Hin. }
  destruct (Hk s1 Hv1) as (s2 & E2 & [St2 De2 (added & Bu2 & Fa2)]).
  exists s2, (created ++ added). rewrite E0.
  rewrite (bind_Ok _ _ _ _ _ _ _ E1).
  split; [exact E2|]. split; [rewrite St2, St1; reflexivity|].
  split; [rewrite De2, De1; reflexivity|]. split.
  - rewrite Bu2, Bu1. reflexivity.
  - apply queueLayout_app_None; assumption.
Qed.

Lemma layerNodes_app : forall a b, layerNodes (a ++ b) = layerNodes a ++ layerNodes b.
Proof. intros. unfold layerNodes. apply flat_map_app. Qed.

Lemma layerNodes_skeleton : forall l, layerNodes (map skeleton l) = layerNodes l.
Proof.
  induction l as [|lb l IH]; simpl; [reflexivity|]. rewrite IH. reflexivity.
Qed.

Lemma layerNodes_None : forall l,
  Forall (fun lb => LayerBuilder_renderNode lb = None) l -> layerNodes l = [].
Proof.
  induction l as [|lb l IH]; intro H; simpl; [reflexivity|].
  inversion H; subst. rewrite H2. simpl. apply IH. assumption.
Qed.

Lemma queueLayout_nodes : forall entries builders,
  queueLayout entries builders ->
  layerNodes builders
  = map (fun entry => computeOrdering (Entry_renderNode entry)) entries.
Proof.
  induction entries as [|e entries IH]; intros builders H; simpl in *.
  - apply layerNodes_None. exact H.
  - destruct H as (added & rest & -> & Fa & L). simpl.
    rewrite layerNodes_app, (layerNodes_None _ Fa). simpl. f_equal. apply IH. exact L.
Qed.

Lemma queueLayout_length : forall entries builders,
  queueLayout entries builders -> length entries <= length builders.
Proof.
  induction entries as [|e entries IH]; intros builders H; simpl in *; [lia|].
  destruct H as (added & rest & -> & Fa & L). simpl. rewrite length_app.
  specialize (IH _ L). lia.
Qed.

Lemma queueLayout_exact : forall entries builders,
  queueLayout entries builders ->
  length builders = length entries ->
  builders = map entryBuilder entries.
Proof.
  induction entries as [|e entries IH]; intros builders H Hlen; simpl in *.
  - destruct builders; [reflexivity | discriminate].
  - destruct H as (added & rest & -> & Fa & L). simpl in Hlen.
    rewrite length_app in Hlen. pose proof (queueLayout_length _ _ L) as Hle.
    destruct added as [|x added]; [|simpl in Hlen; lia].
    simpl in *. f_equal. apply IH; [exact L | lia].
Qed.

(** an entry is found at its own position when no save-layer builder comes
    before it *)
Lemma queueLayout_at : forall entries builders j entry,
  queueLayout entries builders ->
  nth_error entries j = Some entry ->
  (forall k lb, k <= j -> nth_error builders k = Some lb ->
                LayerBuilder_renderNode lb <> None) ->
  nth_error builders j = Some (entryBuilder entry).
Proof.
  induction entries as [|e entries IH]; intros builders j entry L Hj Hnodes.
  - destruct j; discriminate.
  - simpl in L. destruct L as (added & rest & -> & Fa & L).
    destruct j as [|j]; simpl in Hj.
    + injection Hj as ->. reflexivity.
    + destruct added as [|x added].
      * simpl. apply IH; [exact L | exact Hj |].
        intros k lb Hk Hn. apply (Hnodes (S k) lb); [lia | exact Hn].
      * exfalso. inversion Fa as [|? ? Hx _]; subst.
        apply (Hnodes 1 x); [lia | reflexivity | exact Hx].
Qed.

(** * The claims *)

(** ** C1: mergeable clips *)

(** With a clip state present the predicate answers yes without looking at
    its mode. *)
Lemma hasMergeableClip_nonnull : forall state clip s,
  clipState (computedState state) = Some clip ->
  hasMergeableClip state s = Ok true s.
Proof.
  intros state clip s H. unfold hasMergeableClip. rewrite H. reflexivity.
Qed.

(** With no clip state the predicate dereferences the null pointer. *)
Lemma hasMergeableClip_null : forall state s,
  clipState (computedState state) = None ->
  hasMergeableClip state s = Crash NullDereference.
Proof.
  intros state s H. unfold hasMergeableClip. rewrite H. reflexivity.
Qed.

(** C1, as the code has it.  A bitmap op that survives baking with a simple,
    positively scaled transform, a src-over paint and a bitmap that is not A8
    is deferred mergeable on batch Bitmap, keyed by the generation id,
    whatever the mode of its baked clip; when the baked clip state is null
    the predicate dereferences it and the defer faults.  When one of the
    other four conditions fails the op is deferred unmergeable on batch
    Bitmap and the clip is not looked at. *)
Theorem C1_bitmap_merge_ignores_clip_mode :
  forall (op : OpBase) (bitmap : SkBitmap) (s : FrameBuilder)
         (snap : Snapshot) (below : list Snapshot) (bakedState : BakedOpState),
    mCanvasState s = snap :: below ->
    BakedOpState_tryConstruct snap (BitmapOp op bitmap) = Some bakedState ->
    let others :=
      Matrix4_isSimple (transform (computedState bakedState))
      && Matrix4_positiveScale (transform (computedState bakedState))
      && isSrcOver (PaintUtils_getXfermodeDirect (paint op))
      && negb (SkColorType_eqb (colorType bitmap) kAlpha_8_SkColorType) in
    (others = false ->
     deferBitmapOp op bitmap s = deferUnmergeableOp bakedState Bitmap s)
    /\ (others = true ->
        forall clip,
          clipState (computedState bakedState) = Some clip ->
          deferBitmapOp op bitmap s
          = deferMergeableOp bakedState Bitmap (getGenerationID bitmap) s)
    /\ (others = true ->
        clipState (computedState bakedState) = None ->
        deferBitmapOp op bitmap s = Crash NullDereference).
Proof.
  intros op bitmap s snap below st Hc Hb others.
  assert (E : deferBitmapOp op bitmap s
              = (mergeable <- andHasMergeableClip others st ;;
                 if mergeable
                 then deferMergeableOp st Bitmap (getGenerationID bitmap)
                 else deferUnmergeableOp st Bitmap) s).
  { unfold deferBitmapOp, tryBakeOpState.
    rewrite bind_assoc. rewrite (bind_Ok _ _ _ _ _ _ _ (currentSnapshot_top _ _ _ Hc)).
    rewrite bind_ret. rewrite Hb. reflexivity. }
  rewrite E. clear E. repeat split.
  - intros ->. reflexivity.
  - intros -> clip H. simpl.
    rewrite (bind_Ok _ _ _ _ _ _ _ (hasMergeableClip_nonnull _ _ _ H)). reflexivity.
  - intros -> H. simpl.
    rewrite (bind_Crash _ _ _ _ _ _ (hasMergeableClip_null _ _ H)). reflexivity.
Qed.

(** ** C3: tessellated shapes *)

(** C3, as amended.  Rect, round-rect, oval and arc ops are baked with the
    paint's stroke and deferred unmergeable on the batch chosen from the
    paint (AlphaMaskTexture with a path effect, else AlphaVertices when
    anti-aliased, else Vertices); a path op is deferred unmergeable on batch
    Bitmap whatever its paint.  No mergeable defer is made, and a shape that
    does not survive baking defers nothing. *)
Theorem C3_strokeable_batches :
  forall (recurse : RenderNode -> M unit) (k : Tessellated) (op : OpBase)
         (p : SkPaint) (s : FrameBuilder) (snap : Snapshot) (below : list Snapshot),
    paint op = Some p ->
    mCanvasState s = snap :: below ->
    dispatch recurse (tessellatedOp k op) s
    = match BakedOpState_tryStrokeableOpConstruct snap (tessellatedOp k op) StyleDefined with
      | Some bakedState => deferUnmergeableOp bakedState (strokeableBatch k p) s
      | None => Ok tt s
      end.
Proof.
  intros recurse k op p s snap below Hp Hc.
  assert (Hstroke : forall o batch,
            deferStrokeableOp o batch StyleDefined s
            = match BakedOpState_tryStrokeableOpConstruct snap o StyleDefined with
              | Some bakedState => deferUnmergeableOp bakedState batch s
              | None => Ok tt s
              end).
  { intros o batch. unfold deferStrokeableOp.
    rewrite (bind_Ok _ _ _ _ _ _ _ (currentSnapshot_top _ _ _ Hc)).
    destruct (BakedOpState_tryStrokeableOpConstruct snap o StyleDefined); reflexivity. }
  assert (Htess : tessBatchId op s = Ok (paintBatch p) s).
  { unfold tessBatchId. rewrite Hp. reflexivity. }
  destruct k; simpl;
    unfold deferRectOp, deferRoundRectOp, deferOvalOp, deferArcOp, deferPathOp;
    try rewrite (bind_Ok _ _ _ _ _ _ _ Htess); apply Hstroke.
Qed.

(** ** C7: node rejection *)

Lemma writeSnapshot_top : forall f s snap under,
  mCanvasState s = snap :: under ->
  writeSnapshot f s = Ok tt (withCanvas s (f snap :: under)).
Proof.
  intros f s snap under E. unfold writeSnapshot, bind, get, put. rewrite E.
  reflexivity.
Qed.

(** C7.  A node whose alpha is not above 0, whose clipping outline is empty,
    or whose x or y scale is 0 makes [deferNodePropsAndOps] return at once:
    nothing is deferred and the canvas state is untouched, whatever state the
    traversal is in.  For a node with alpha 0 in particular, neither its
    shadow nor the op that draws it as a child, anywhere in a tree, adds an op
    to any layer builder. *)
Theorem C7_rejected_node_defers_nothing :
  forall (node : RenderNode),
    (F32.leb (getAlpha (properties node)) F32.zero = true
     \/ (Outline_getShouldClip (getOutline (properties node)) = true
         /\ Outline_isEmpty (getOutline (properties node)) = true)
     \/ F32.eqb (getScaleX (properties node)) F32.zero = true
     \/ F32.eqb (getScaleY (properties node)) F32.zero = true) ->
    (forall fuel s, deferNodePropsAndOps (S fuel) node s = Ok tt s)
    /\ (F32.eqb (getAlpha (properties node)) F32.zero = true ->
        forall fuel op s,
          renderNode op = node ->
          deferShadow op s = Ok tt s
          /\ (mCanvasState s <> [] ->
              exists s',
                deferRenderNodeOpImpl (deferNodePropsAndOps (S fuel)) op s = Ok tt s'
                /\ mLayerBuilders s' = mLayerBuilders s
                /\ mLayerStack s' = mLayerStack s
                /\ length (mCanvasState s') = length (mCanvasState s))).
Proof.
  intros node Hrej.
  assert (R : rejected (properties node) = true).
  { unfold rejected. destruct Hrej as [H|[[H1 H2]|[H|H]]].
    - rewrite H. reflexivity.
    - rewrite H1, H2. simpl. rewrite orb_true_r. reflexivity.
    - rewrite H. rewrite !orb_true_r. reflexivity.
    - rewrite H. rewrite !orb_true_r. reflexivity. }
  assert (Hdefer : forall fuel s, deferNodePropsAndOps (S fuel) node s = Ok tt s).
  { intros fuel s. simpl. unfold deferNodePropsAndOps_body. rewrite R. reflexivity. }
  split; [exact Hdefer|].
  intros Hzero fuel op s Hop.
  assert (Hle : F32.leb (getAlpha (properties node)) F32.zero = true).
  { revert Hzero. unfold F32.eqb, F32.leb, SFeqb, SFleb.
    destruct (SFcompare (getAlpha (properties node)) F32.zero) as [[| |]|];
      intro H; try discriminate; reflexivity. }
  split.
  - unfold deferShadow. rewrite Hop, Hle. reflexivity.
  - intro Hne. unfold deferRenderNodeOpImpl.
    destruct (nothingToDraw (renderNode op)).
    { exists s. auto. }
    destruct (mCanvasState s) as [|snap under] eqn:Hc; [congruence|].
    rewrite (bind_Ok _ _ _ _ _ _ _ (save_top saveFlags_clip_matrix _ _ _ Hc)).
    match goal with
    | |- exists s', bind (writeSnapshot ?f) _ ?s1 = _ /\ _ =>
        rewrite (bind_Ok _ _ _ _ _ _ _ (writeSnapshot_top f s1 _ _ eq_refl))
    end.
    unfold concatMatrix.
    match goal with
    | |- exists s', bind (writeSnapshot ?f) _ ?s1 = _ /\ _ =>
        rewrite (bind_Ok _ _ _ _ _ _ _ (writeSnapshot_top f s1 _ _ eq_refl))
    end.
    rewrite Hop. rewrite (bind_Ok _ _ _ _ _ _ _ (Hdefer fuel _)).
    match goal with
    | |- exists s', restoreToCount ?n ?st = _ /\ _ =>
        destruct (restoreToCount_one st n) as (s' & H1 & H2 & H3 & H4);
        [reflexivity | simpl; lia | ]
    end.
    exists s'. simpl in *. auto.
Qed.

(** ** C8: the end of an unclipped save-layer *)

(** C8.  With a current layer builder, [deferEndUnclippedLayerOp] ends in
    the fatal error "no layer to end!" exactly when the builder's stack of
    active unclipped save-layers is empty; otherwise it pops the last entry,
    the builder receives it as an unmergeable op of batch CopyFromLayer, and
    nothing else of the object changes. *)
Theorem C8_end_unclipped_layer :
  forall (s : FrameBuilder) (i : nat) (below : list nat) (lb : LayerBuilder),
    mLayerStack s = i :: below ->
    nth_error (mLayerBuilders s) i = Some lb ->
    (deferEndUnclippedLayerOp s = Crash (LogAlwaysFatal "no layer to end!"%string)
     <-> activeUnclippedSaveLayers lb = [])
    /\ (forall rest copyFromLayerOp,
          activeUnclippedSaveLayers lb = rest ++ [copyFromLayerOp] ->
          deferEndUnclippedLayerOp s
          = Ok tt (withLayerBuilder s i
                     (withActive
                        (withReceived lb
                           [DeferUnmergeableOp copyFromLayerOp CopyFromLayer])
                        rest))).
Proof.
  intros s i below lb Hs Hn.
  split; [split|].
  - intro Hcrash.
    destruct (activeUnclippedSaveLayers lb) as [|y l] eqn:Ha using rev_ind.
    + reflexivity.
    + rewrite (deferEndUnclippedLayerOp_top _ _ _ _ _ _ Hs Hn Ha) in Hcrash.
      discriminate.
  - intro Ha. unfold deferEndUnclippedLayerOp.
    rewrite (bind_Ok _ _ _ _ _ _ _ (currentLayer_top _ _ _ _ Hs Hn)).
    rewrite Ha. reflexivity.
  - intros rest x Ha. apply (deferEndUnclippedLayerOp_top _ _ _ _ _ _ Hs Hn Ha).
Qed.

(** ** C9: shadows of revealed casters *)

(** C9.  A caster whose reveal clip has a path, and that path is empty,
    casts no shadow: [deferShadow] defers nothing and changes nothing,
    whether or not one of the listed skip conditions holds as well. *)
Theorem C9_empty_reveal_clip_skips_shadow :
  forall (casterNodeOp : RenderNodeOp) (revealClipPath : SkPath) (s : FrameBuilder),
    RevealClip_getPath (getRevealClip (properties (renderNode casterNodeOp)))
    = Some revealClipPath ->
    SkPath_isEmpty revealClipPath = true ->
    deferShadow casterNodeOp s = Ok tt s.
Proof.
  intros op path s Hpath Hempty. unfold deferShadow.
  destruct (_ || _ || _ || _ || _) eqn:Hskip; [reflexivity|].
  apply orb_false_iff in Hskip. destruct Hskip as [Hskip _].
  apply orb_false_iff in Hskip. destruct Hskip as [Hskip _].
  apply orb_false_iff in Hskip. destruct Hskip as [_ Hnull].
  destruct (Outline_getPath (getOutline (properties (renderNode op)))) as [outline|];
    [|discriminate].
  simpl. rewrite bind_ret. rewrite Hpath, Hempty. reflexivity.
Qed.

(** ** C2: shadow interleaving *)

(** The rule leaves no choice: the indices and the last caster's z fix the
    sequence of emits. *)
Lemma ShadowRule_deterministic :
  forall zChildren endIndex shadowIndex drawIndex lastCasterZ xs ys,
    ShadowRule zChildren endIndex shadowIndex drawIndex lastCasterZ xs ->
    ShadowRule zChildren endIndex shadowIndex drawIndex lastCasterZ ys ->
    xs = ys.
Proof.
  intros zs e si di z xs ys Hx. revert ys.
  induction Hx as [si di z Hs Hd
                  | si di z caster rest Hlt Hnth Hcond Hrest IH
                  | si di z child rest Hlt Hnth Hno Hrest IH];
    intros ys Hy; inversion Hy; subst; try lia.
  - reflexivity.
  - assert (caster0 = caster) by congruence. subst caster0.
    f_equal. apply IH. assumption.
  - match goal with
    | Hn : forall c, _ -> nth_error zs si = Some c -> _ |- _ =>
        destruct (Hn caster Hlt Hnth) as [Hne Hfar]
    end.
    destruct Hcond as [Heq | Hnear]; [contradiction | congruence].
  - match goal with
    | Hc : nth_error zs si = Some ?c, Hl : si < e |- _ =>
        destruct (Hno c Hl Hc) as [Hne Hfar]
    end.
    match goal with
    | Hd : _ \/ _ |- _ => destruct Hd as [Heq | Hnear]; [contradiction | congruence]
    end.
  - assert (child0 = child) by congruence. subst child0.
    f_equal. apply IH. assumption.
Qed.

(** C2.  In the positive phase [defer3dChildren] performs, in order, the
    shadows and draws that the interleaving rule prescribes from both indices
    at the first non-negative child: a shadow of [zChildren[shadowIndex]]
    exactly when [shadowIndex == drawIndex] or its z is less than 0.1 above
    the last caster's, else the draw of [zChildren[drawIndex]].  (When there
    is no child, or the last key is below 0, it returns at once.)  For the two
    children at z 2.0 and 2.05 both shadows come before either draw. *)
Theorem C2_shadow_interleaving :
  forall (recurse : RenderNode -> M unit),
    (forall zChildren : list ZRenderNodeOpPair,
        exists emitted,
          ShadowRule zChildren (length zChildren)
            (findNonNegativeIndex zChildren) (findNonNegativeIndex zChildren)
            F32.zero emitted
          /\ forall s,
               defer3dChildren recurse Positive zChildren s
               = if noPositiveChildren zChildren then Ok tt s
                 else forEach emitted (perform recurse) s)
    /\ (forall (a b : RenderNodeOp) s,
          defer3dChildren recurse Positive [(z_2_0, a); (z_2_05, b)] s
          = forEach [EmitShadow a; EmitShadow b; EmitDraw a; EmitDraw b]
              (perform recurse) s).
Proof.
  intro recurse. split.
  - intro z. pose proof (findNonNegativeIndex_le z) as Hnn.
    destruct (defer3dChildren_loop_rule recurse z (length z) (2 * length z)
                (findNonNegativeIndex z) (findNonNegativeIndex z) F32.zero)
      as (emitted & R & E & _); try lia.
    exists emitted. split; [exact R|]. intro s.
    unfold defer3dChildren, noPositiveChildren.
    destruct z as [|first rest] eqn:Ez; [reflexivity|]. rewrite <- Ez in *.
    simpl isNegative. cbv iota. simpl negb. rewrite andb_false_l, orb_false_l, andb_true_l.
    destruct (F32.ltb (fst (last z first)) F32.zero); [reflexivity|].
    apply E.
  - intros a b s. reflexivity.
Qed.

(** ** C5: unclipped save-layers *)

Lemma withReceived_nil : forall lb, withReceived lb [] = lb.
Proof. intros [w h r b n v rec act]. unfold withReceived. simpl. rewrite app_nil_r. reflexivity. Qed.

Lemma drawsInto_ret : forall canvas, drawsInto (ret tt) canvas [].
Proof.
  intros canvas s i below lb Hc Hs Hn. unfold ret, withLayerBuilder.
  rewrite withReceived_nil, (setNth_same _ _ _ _ Hn). destruct s; reflexivity.
Qed.

Lemma drawsInto_seq : forall (a b : M unit) canvas xs ys,
  drawsInto a canvas xs -> drawsInto b canvas ys ->
  drawsInto (a ;; b) canvas (xs ++ ys).
Proof.
  intros a b canvas xs ys Ha Hb s i below lb Hc Hs Hn.
  assert (Hi : i < length (mLayerBuilders s)) by (apply nth_error_Some; congruence).
  rewrite (bind_Ok _ _ _ _ _ _ _ (Ha s i below lb Hc Hs Hn)).
  rewrite (Hb _ i below (withReceived lb xs)); simpl; auto.
  - unfold withLayerBuilder, withReceived. simpl. rewrite setNth_setNth, app_assoc.
    reflexivity.
  - apply nth_error_setNth_same. exact Hi.
Qed.

Lemma drawsInto_deferStrokeableOp : forall op batchId strokeBehavior snap under st,
  BakedOpState_tryStrokeableOpConstruct snap op strokeBehavior = Some st ->
  drawsInto (deferStrokeableOp op batchId strokeBehavior) (snap :: under)
    [DeferUnmergeableOp st batchId].
Proof.
  intros op batchId sb snap under st Hb s i below lb Hc Hs Hn.
  unfold deferStrokeableOp.
  rewrite (bind_Ok _ _ _ _ _ _ _ (currentSnapshot_top _ _ _ Hc)). rewrite Hb.
  apply (deferUnmergeableOp_top _ _ _ _ _ _ Hs Hn).
Qed.

Lemma drawsInto_deferRectOp : forall op p snap under st,
  paint op = Some p ->
  BakedOpState_tryStrokeableOpConstruct snap (RectOp op) StyleDefined = Some st ->
  drawsInto (deferRectOp op) (snap :: under) [DeferUnmergeableOp st (paintBatch p)].
Proof.
  intros op p snap under st Hp Hb s i below lb Hc Hs Hn. unfold deferRectOp.
  assert (Htess : tessBatchId op s = Ok (paintBatch p) s).
  { unfold tessBatchId. rewrite Hp. reflexivity. }
  rewrite (bind_Ok _ _ _ _ _ _ _ Htess).
  apply (drawsInto_deferStrokeableOp _ _ _ _ _ _ Hb s i below lb Hc Hs Hn).
Qed.

(** C5, as amended.  A BeginUnclippedLayerOp, draws that hand [calls] to the
    current layer builder, and the EndUnclippedLayerOp leave the builder with,
    in order: the CopyToLayerOp baked over dstRect on batch CopyToLayer, the
    layer clear of dstRect, the calls of the enclosed draws, and the
    CopyFromLayerOp over the same dstRect on batch CopyFromLayer; its stack of
    unclipped save-layers is as before.  dstRect is the op's unmappedBounds
    mapped by the current transform multiplied by the op's localMatrix, then
    intersected with the current render-target clip. *)
Theorem C5_unclipped_layer_sequence :
  forall (op : OpBase) (body : M unit) (calls : list LayerCall)
         (s : FrameBuilder) (snap : Snapshot) (under : list Snapshot)
         (i : nat) (below : list nat) (lb : LayerBuilder),
    mCanvasState s = snap :: under ->
    mLayerStack s = i :: below ->
    nth_error (mLayerBuilders s) i = Some lb ->
    drawsInto body (mCanvasState s) calls ->
    let dstRect :=
      Rect_doIntersect
        (Matrix4_mapRect (Matrix4_multiply (Snapshot_transform snap) (localMatrix op))
           (unmappedBounds op))
        (Snapshot_getRenderTargetClip snap) in
    let copyTo :=
      BakedOpState_directConstruct (viewportClip lb) dstRect
        (CopyToLayerOp op (nextHandle s)) in
    let copyFrom :=
      BakedOpState_directConstruct (viewportClip lb) dstRect
        (CopyFromLayerOp op (nextHandle s)) in
    (deferBeginUnclippedLayerOp op ;; body ;; deferEndUnclippedLayerOp) s
    = Ok tt (mkFrameBuilder
               (setNth i
                  (withReceived lb
                     ([DeferUnmergeableOp copyTo CopyToLayer; DeferLayerClear dstRect]
                      ++ calls
                      ++ [DeferUnmergeableOp copyFrom CopyFromLayer]))
                  (mLayerBuilders s))
               (mLayerStack s) (mCanvasState s) (skipFlags s) (S (nextHandle s))).
Proof.
  intros op body calls s snap under i below lb Hc Hs Hn Hbody dstRect copyTo copyFrom.
  assert (Hi : i < length (mLayerBuilders s)) by (apply nth_error_Some; congruence).
  rewrite (bind_Ok _ _ _ _ _ _ _
             (deferBeginUnclippedLayerOp_top op _ _ _ _ _ _ Hc Hs Hn)).
  fold dstRect copyTo copyFrom. unfold unclippedDstRect. fold dstRect copyTo copyFrom.
  match goal with
  | |- bind body _ ?st = _ => set (s1 := st)
  end.
  set (lb1 := withActive
                (withReceived lb
                   [DeferUnmergeableOp copyTo CopyToLayer; DeferLayerClear dstRect])
                (activeUnclippedSaveLayers lb ++ [copyFrom])).
  assert (Hn1 : nth_error (mLayerBuilders s1) i = Some lb1).
  { apply nth_error_setNth_same. exact Hi. }
  rewrite (bind_Ok _ _ _ _ _ _ _ (Hbody s1 i below lb1 eq_refl Hs Hn1)).
  set (lb2 := withReceived lb1 calls).
  set (s2 := withLayerBuilder s1 i lb2).
  assert (Hn2 : nth_error (mLayerBuilders s2) i = Some lb2).
  { apply nth_error_setNth_same. unfold s1. simpl. rewrite length_setNth. exact Hi. }
  rewrite (deferEndUnclippedLayerOp_top s2 i below lb2
             (activeUnclippedSaveLayers lb) copyFrom Hs Hn2 eq_refl).
  unfold withLayerBuilder, s2, withLayerBuilder, s1. simpl.
  rewrite !setNth_setNth. unfold withActive, withReceived, lb2, lb1. simpl.
  rewrite <- !app_assoc. reflexivity.
Qed.

(** ** C10: the layer op of a node with a hardware layer *)

Lemma canvasOnly_ret : forall (A : Type) (a : A), canvasOnly (ret a).
Proof. intros A a s a' s' H. inversion H; subst. auto. Qed.

Lemma canvasOnly_bind : forall (A B : Type) (m : M A) (k : A -> M B),
  canvasOnly m -> (forall a, canvasOnly (k a)) -> canvasOnly (bind m k).
Proof.
  intros A B m k Hm Hk s b s' H. unfold bind in H.
  destruct (m s) as [a s1| |] eqn:E; try discriminate.
  destruct (Hm _ _ _ E) as (H1 & H2 & H3 & H4).
  destruct (Hk a _ _ _ H) as (G1 & G2 & G3 & G4).
  repeat split; congruence.
Qed.

Lemma canvasOnly_writeSnapshot : forall f, canvasOnly (writeSnapshot f).
Proof.
  intros f s a s' H. unfold writeSnapshot, bind, get, put, crash in H.
  destruct (mCanvasState s); inversion H; subst; simpl; auto.
Qed.

Lemma canvasOnly_deref : forall (A : Type) (p : option A), canvasOnly (deref p).
Proof.
  intros A [a|] s a' s' H; simpl in H; inversion H; subst. auto.
Qed.

Lemma canvasOnly_applyNodeProperties : forall props,
  canvasOnly (applyNodeProperties props).
Proof.
  intro props.
  unfold applyNodeProperties, translate, concatMatrix, scaleAlpha, clipRect,
    setClippingRoundRect, setClippingOutline, when.
  repeat first
    [ apply canvasOnly_ret
    | apply canvasOnly_writeSnapshot
    | apply canvasOnly_deref
    | apply canvasOnly_bind; [ | intros ]
    | match goal with
      | |- canvasOnly (if ?b then _ else _) => destruct b
      | |- canvasOnly (match ?x with _ => _ end) => destruct x
      end ].
Qed.

(** C10.  For a node that is not rejected and has a hardware layer, once its
    properties are applied and the quick reject passes, a LayerOp that
    [tryBakeOpState] turns down ends [deferNodePropsAndOps] there: the result
    is the object as the properties left it, with every layer builder, the
    layer stack and the skip flags as before the call, no fault, and no use of
    the display list (no fuel is consumed below the node). *)
Theorem C10_layer_op_quick_rejected :
  forall (fuel : nat) (node : RenderNode) (buffer : OffscreenBuffer)
         (s s1 : FrameBuilder) (saveLayerBounds : Rect)
         (snap : Snapshot) (under : list Snapshot),
    rejected (properties node) = false ->
    getLayer node = Some buffer ->
    applyNodeProperties (properties node) s = Ok saveLayerBounds s1 ->
    mCanvasState s1 = snap :: under ->
    Snapshot_quickRejectConservative snap F32.zero F32.zero
      (F32.of_int (getWidth (properties node)))
      (F32.of_int (getHeight (properties node))) = false ->
    BakedOpState_tryConstruct snap (LayerOp_ofNode node) = None ->
    deferNodePropsAndOps (S fuel) node s = Ok tt s1
    /\ mLayerBuilders s1 = mLayerBuilders s
    /\ mLayerStack s1 = mLayerStack s
    /\ skipFlags s1 = skipFlags s.
Proof.
  intros fuel node buffer s s1 slb snap under Hrej Hlayer Happly Hc Hquick Hbake.
  split.
  - simpl. unfold deferNodePropsAndOps_body. rewrite Hrej.
    rewrite (bind_Ok _ _ _ _ _ _ _ Happly).
    unfold quickRejectConservative. rewrite bind_assoc.
    rewrite (bind_Ok _ _ _ _ _ _ _ (currentSnapshot_top _ _ _ Hc)).
    rewrite bind_ret. rewrite Hquick. simpl. rewrite Hlayer.
    unfold tryBakeOpState. rewrite bind_assoc.
    rewrite (bind_Ok _ _ _ _ _ _ _ (currentSnapshot_top _ _ _ Hc)).
    rewrite bind_ret. rewrite Hbake. reflexivity.
  - destruct (canvasOnly_applyNodeProperties _ _ _ _ Happly) as (H1 & H2 & H3 & _).
    auto.
Qed.

(** ** C4 and C6: the constructor *)

(** C6.  On input whose pointers are sound and whose layer and save-layer ops
    are balanced (every display list nests them properly), the constructor
    runs to completion; the layer stack is then exactly [[0]] and the save
    stack holds the one snapshot it was initialized with. *)
Theorem C6_balanced_stacks :
  forall (fuel : nat) (layers : list Entry) (clip : SkRect)
         (viewportWidth viewportHeight : Z) (nodes : list RenderNode)
         (lightCenter : Vector3),
    bakesClipState ->
    wellFormedInput fuel layers nodes = true ->
    exists s,
      FrameBuilder_new fuel layers clip viewportWidth viewportHeight nodes lightCenter
      = Ok tt s
      /\ mLayerStack s = [0]
      /\ length (mCanvasState s) = 1.
Proof.
  intros fuel layers clip w h nodes light Hb Hwf.
  destruct (FrameBuilder_new_spec fuel layers clip w h nodes light Hb Hwf)
    as (s & created & E & St & De & _).
  exists s. auto.
Qed.

(** C4, as amended.  The constructor processes the queue from its last entry
    to its first.  layerBuilders[0] is the primary framebuffer; after it
    come, for the entries e(N-1), ..., e0 in this order, the builder of the
    entry (its node, its damage, the node's width and height as uint32_t),
    each followed at once by builders that belong to no render node: those
    of the clipped save-layers.  So the builders that stand for a render
    node are, in index order, those of e(N-1), ..., e0, and layerBuilders[j]
    is the builder of entry e(N-j), for 1 <= j <= N, whenever each of
    layerBuilders[1], ..., layerBuilders[j] belongs to a render node. *)
Theorem C4_queue_layers_in_reverse_order :
  forall (fuel : nat) (layers : list Entry) (clip : SkRect)
         (viewportWidth viewportHeight : Z) (nodes : list RenderNode)
         (lightCenter : Vector3),
    bakesClipState ->
    wellFormedInput fuel layers nodes = true ->
    exists s,
      FrameBuilder_new fuel layers clip viewportWidth viewportHeight nodes lightCenter
      = Ok tt s
      /\ (exists fbo0,
            nth_error (mLayerBuilders s) 0 = Some fbo0
            /\ skeleton fbo0
               = LayerBuilder_new viewportWidth viewportHeight (Rect_ofSkRect clip)
                   None None)
      /\ (exists created,
            map skeleton (mLayerBuilders s)
            = LayerBuilder_new viewportWidth viewportHeight (Rect_ofSkRect clip)
                None None :: created
            /\ queueLayout (rev layers) created)
      /\ layerNodes (mLayerBuilders s)
         = map (fun entry => computeOrdering (Entry_renderNode entry)) (rev layers)
      /\ (forall j entry,
            1 <= j <= length layers ->
            nth_error layers (length layers - j) = Some entry ->
            (forall k lb, 1 <= k <= j ->
                          nth_error (mLayerBuilders s) k = Some lb ->
                          LayerBuilder_renderNode lb <> None) ->
            exists lb,
              nth_error (mLayerBuilders s) j = Some lb
              /\ skeleton lb = entryBuilder entry).
Proof.
  intros fuel layers clip w h nodes light Hb Hwf.
  destruct (FrameBuilder_new_spec fuel layers clip w h nodes light Hb Hwf)
    as (s & created & E & St & De & Bu & L).
  exists s. split; [exact E|]. split; [|split; [|split]].
  - destruct (mLayerBuilders s) as [|fbo0 rest]; [discriminate|].
    exists fbo0. simpl in Bu. split; [reflexivity | congruence].
  - exists created. split; [exact Bu | exact L].
  - rewrite <- layerNodes_skeleton, Bu. simpl.
    apply queueLayout_nodes. exact L.
  - intros j entry Hj Hentry Hnodes.
    destruct j as [|j]; [lia|].
    assert (Hrev : nth_error (rev layers) j = Some entry).
    { rewrite nth_error_rev.
      assert (Hlt : (j <? length layers) = true) by (apply Nat.ltb_lt; lia).
      rewrite Hlt. exact Hentry. }
    assert (H : nth_error (map skeleton (mLayerBuilders s)) (S j)
                = Some (entryBuilder entry)).
    { rewrite Bu. simpl. apply (queueLayout_at (rev layers)); [exact L | exact Hrev |].
      intros k lb Hk Hn.
      assert (Hn' : nth_error (map skeleton (mLayerBuilders s)) (S k) = Some lb)
        by (rewrite Bu; exact Hn).
      rewrite nth_error_map in Hn'.
      destruct (nth_error (mLayerBuilders s) (S k)) as [lb'|] eqn:Ek; [|discriminate].
      simpl in Hn'. injection Hn' as <-. simpl.
      apply (Hnodes (S k) lb'); [lia | exact Ek]. }
    rewrite nth_error_map in H.
    destruct (nth_error (mLayerBuilders s) (S j)) as [lb|]; [|discriminate].
    exists lb. split; [reflexivity|]. simpl in H. congruence.
Qed.

(** * Further properties of FrameBuilder.cpp *)

(** ** Z-ordered children *)

Lemma ltb_leb : forall a b, F32.ltb a b = true -> F32.leb a b = true.
Proof.
  intros a b. unfold F32.ltb, F32.leb, SFltb, SFleb.
  destruct (SFcompare a b) as [[| |]|]; congruence.
Qed.

Lemma skipn_nth_error : forall (A : Type) (l : list A) i x,
  nth_error l i = Some x -> skipn i l = x :: skipn (S i) l.
Proof.
  intros A l. induction l as [|y l IH]; intros [|i] x H; simpl in *; try discriminate.
  - congruence.
  - apply IH. exact H.
Qed.

Lemma span_nth_error : forall (A : Type) (l : list A) e i x,
  nth_error l i = Some x -> i < e ->
  firstn (e - i) (skipn i l) = x :: firstn (e - S i) (skipn (S i) l).
Proof.
  intros A l e i x H Hlt. rewrite (skipn_nth_error _ _ _ _ H).
  replace (e - i) with (S (e - S i)) by lia. reflexivity.
Qed.

(** What the rule emits: a shadow for each child from [shadowIndex] to the
    end, a draw for each child from [drawIndex] to the end, each sequence in
    the order of the list, and never more draws than shadows but for the
    lead [shadowIndex - drawIndex] the shadows start with. *)
Lemma ShadowRule_lists : forall zChildren endIndex shadowIndex drawIndex lastCasterZ emitted,
  ShadowRule zChildren endIndex shadowIndex drawIndex lastCasterZ emitted ->
  endIndex <= length zChildren -> drawIndex <= shadowIndex ->
  shadowsOf emitted
  = map snd (firstn (endIndex - shadowIndex) (skipn shadowIndex zChildren))
  /\ drawsOf emitted
     = map snd (firstn (endIndex - drawIndex) (skipn drawIndex zChildren))
  /\ forall n, length (drawsOf (firstn n emitted))
               <= length (shadowsOf (firstn n emitted)) + (shadowIndex - drawIndex).
Proof.
  intros zs e si di z em R He.
  induction R as [si di z Hs Hd
                 | si di z caster rest Hlt Hnth Hcond Hrest IH
                 | si di z child rest Hlt Hnth Hno Hrest IH]; intro Hle.
  - replace (e - si) with 0 by lia. replace (e - di) with 0 by lia.
    simpl. repeat split; try lia; destruct n; simpl; lia.
  - destruct IH as (IHs & IHd & IHn); [lia|].
    simpl. rewrite IHs, IHd. rewrite (span_nth_error _ _ _ _ _ Hnth Hlt).
    repeat split; try reflexivity.
    intros [|n]; simpl; [lia|]. specialize (IHn n). lia.
  - assert (Hlead : S di <= si).
    { destruct (Nat.lt_ge_cases si e) as [Hin | Hout]; [|lia].
      destruct (nth_error zs si) as [caster|] eqn:Ec.
      - destruct (Hno caster Hin eq_refl). lia.
      - apply nth_error_None in Ec. lia. }
    destruct IH as (IHs & IHd & IHn); [lia|].
    simpl. rewrite IHs, IHd. rewrite (span_nth_error _ _ _ _ _ Hnth Hlt).
    repeat split; try reflexivity.
    intros [|n]; simpl; [lia|]. specialize (IHn n). lia.
Qed.

(** X1.  [findNonNegativeIndex] returns the position of the first child whose
    key is [>= 0.0f]: the index is within the list or its size, no child
    before it passes the test, and the child at it, if there is one, does. *)
Theorem X1_first_non_negative_child : forall zTranslatedNodes : list ZRenderNodeOpPair,
  findNonNegativeIndex zTranslatedNodes <= length zTranslatedNodes
  /\ (forall j p, j < findNonNegativeIndex zTranslatedNodes ->
                  nth_error zTranslatedNodes j = Some p ->
                  F32.leb F32.zero (fst p) = false)
  /\ (forall p, nth_error zTranslatedNodes (findNonNegativeIndex zTranslatedNodes) = Some p ->
                F32.leb F32.zero (fst p) = true).
Proof.
  intro zs. split; [apply findNonNegativeIndex_le|].
  induction zs as [|q rest [IHlt IHat]]; simpl.
  - split; [intros j p Hj; lia | intros p H; discriminate].
  - destruct (F32.leb F32.zero (fst q)) eqn:E.
    + split; [intros j p Hj; lia | intros p H; simpl in H; congruence].
    + split.
      * intros [|j] p Hj H; simpl in H; [congruence|].
        apply (IHlt j); [lia | exact H].
      * intros p H. simpl in H. apply IHat. exact H.
Qed.

Lemma forEach_map : forall (A B : Type) (f : A -> B) (l : list A) (body : B -> M unit) s,
  forEach (map f l) body s = forEach l (fun x => body (f x)) s.
Proof.
  intros A B f l body. induction l as [|x l IH]; intro s; simpl; [reflexivity|].
  unfold bind. destruct (body (f x) s); auto.
Qed.

Lemma draws_only : forall emitted,
  shadowsOf emitted = [] -> emitted = map EmitDraw (drawsOf emitted).
Proof.
  induction emitted as [|[c|c] rest IH]; simpl; intro H;
    [reflexivity | discriminate | f_equal; auto].
Qed.

(** X2.  The negative phase of [defer3dChildren] draws the children before the
    first non-negative key, in the order of the list, and asks for no
    shadow; when the list is empty or starts with a positive key that is
    nothing at all. *)
Theorem X2_negative_phase_draws_no_shadow :
  forall (recurse : RenderNode -> M unit) (zTranslatedNodes : list ZRenderNodeOpPair) s,
    defer3dChildren recurse Negative zTranslatedNodes s
    = forEach (firstn (findNonNegativeIndex zTranslatedNodes) zTranslatedNodes)
        (fun child => deferRenderNodeOpImpl recurse (snd child)) s.
Proof.
  intros recurse zs s. unfold defer3dChildren.
  destruct zs as [|first rest] eqn:Ez; [reflexivity|]. rewrite <- Ez in *.
  simpl isNegative. cbv iota. simpl negb.
  rewrite andb_true_l, andb_false_l, orb_false_r.
  destruct (F32.ltb F32.zero (fst first)) eqn:Epos.
  - rewrite Ez. simpl. rewrite (ltb_leb _ _ Epos). reflexivity.
  - pose proof (findNonNegativeIndex_le zs) as Hnn.
    destruct (defer3dChildren_loop_rule recurse zs (findNonNegativeIndex zs)
                (2 * length zs) (findNonNegativeIndex zs) 0 F32.zero)
      as (emitted & R & E & _); try lia.
    rewrite E.
    destruct (ShadowRule_lists _ _ _ _ _ _ R) as (Hs & Hd & _); try lia.
    rewrite Nat.sub_diag in Hs. simpl in Hs.
    rewrite (draws_only _ Hs), Hd. rewrite Nat.sub_0_r. simpl skipn.
    rewrite forEach_map, forEach_map. reflexivity.
Qed.

(** X3.  In the positive phase every child from the first non-negative key on
    has its shadow asked for once and is drawn once, shadows and draws each
    in the order of the list, and no child is drawn before its own shadow
    was asked for: at any point there are at least as many shadows as
    draws. *)
Theorem X3_positive_phase_shadow_before_draw :
  forall (recurse : RenderNode -> M unit) (zTranslatedNodes : list ZRenderNodeOpPair),
    exists emitted,
      (forall s,
          defer3dChildren recurse Positive zTranslatedNodes s
          = if noPositiveChildren zTranslatedNodes then Ok tt s
            else forEach emitted (perform recurse) s)
      /\ shadowsOf emitted
         = map snd (skipn (findNonNegativeIndex zTranslatedNodes) zTranslatedNodes)
      /\ drawsOf emitted
         = map snd (skipn (findNonNegativeIndex zTranslatedNodes) zTranslatedNodes)
      /\ forall n, length (drawsOf (firstn n emitted))
                   <= length (shadowsOf (firstn n emitted)).
Proof.
  intros recurse zs. pose proof (findNonNegativeIndex_le zs) as Hnn.
  destruct (defer3dChildren_loop_rule recurse zs (length zs) (2 * length zs)
              (findNonNegativeIndex zs) (findNonNegativeIndex zs) F32.zero)
    as (emitted & R & E & _); try lia.
  destruct (ShadowRule_lists _ _ _ _ _ _ R) as (Hs & Hd & Hn); try lia.
  assert (Hall : firstn (length zs - findNonNegativeIndex zs)
                   (skipn (findNonNegativeIndex zs) zs)
                 = skipn (findNonNegativeIndex zs) zs).
  { apply firstn_all2. rewrite length_skipn. lia. }
  rewrite Hall in Hs, Hd.
  exists emitted. repeat split; try assumption.
  - intro s. unfold defer3dChildren, noPositiveChildren.
    destruct zs as [|first rest] eqn:Ez; [reflexivity|]. rewrite <- Ez in *.
    simpl isNegative. cbv iota. simpl negb.
    rewrite andb_false_l, orb_false_l, andb_true_l.
    destruct (F32.ltb (fst (last zs first)) F32.zero); [reflexivity|].
    apply E.
  - intro n. specialize (Hn n). lia.
Qed.


Lemma buildZSortedChildList_loop_spec : forall displayList chunk indices children acc s,
  Forall2 (fun i childOp => nth_error (getChildren displayList) i = Some childOp)
    indices children ->
  buildZSortedChildList_loop displayList chunk indices acc s
  = Ok (acc ++ zPairs chunk children)
       (withSkipFlags s (rev (flagWrites chunk children) ++ skipFlags s)).
Proof.
  intros dl chunk indices children acc s H. revert acc s.
  induction H as [|i childOp indices children Hnth _ IH]; intros acc s.
  - unfold zPairs, withSkipFlags. simpl. rewrite app_nil_r. destruct s; reflexivity.
  - simpl buildZSortedChildList_loop. unfold at_ at 1. rewrite Hnth. rewrite bind_ret.
    unfold zPairs, flagWrites. simpl filter. simpl flat_map.
    fold (isZChild chunk childOp).
    destruct (isZChild chunk childOp) eqn:Ez.
    + unfold setSkipInOrderDraw. unfold bind at 1. unfold bind at 1. simpl.
      rewrite IH. unfold zPairs, flagWrites, withSkipFlags. simpl.
      rewrite <- !app_assoc. simpl. reflexivity.
    + destruct (negb (getProjectBackwards (properties (renderNode childOp)))) eqn:Eb.
      * unfold setSkipInOrderDraw. unfold bind at 1. unfold bind at 1. simpl.
        rewrite IH. unfold zPairs, flagWrites, withSkipFlags. simpl.
        rewrite <- !app_assoc. simpl. reflexivity.
      * rewrite IH. unfold zPairs, flagWrites, withSkipFlags. simpl. reflexivity.
Qed.

Lemma Forall2_seq_span : forall (A : Type) (l : list A) b n,
  b + n <= length l ->
  Forall2 (fun i x => nth_error l i = Some x) (seq b n) (firstn n (skipn b l)).
Proof.
  intros A l b n. revert b. induction n as [|n IH]; intros b H; simpl.
  - constructor.
  - destruct (nth_error l b) as [x|] eqn:E;
      [|apply nth_error_None in E; lia].
    rewrite (skipn_nth_error _ _ _ _ E). simpl. constructor; [exact E|].
    apply IH. lia.
Qed.

Lemma buildZSortedChildList_spec : forall displayList chunk s,
  endChildIndex chunk <= length (getChildren displayList) ->
  buildZSortedChildList displayList chunk s
  = Ok (stable_sort (zPairs chunk (chunkChildren displayList chunk)))
       (withSkipFlags s
          (rev (flagWrites chunk (chunkChildren displayList chunk)) ++ skipFlags s)).
Proof.
  intros dl chunk s H. unfold buildZSortedChildList, chunkChildren.
  destruct (beginChildIndex chunk =? endChildIndex chunk) eqn:E.
  - apply Nat.eqb_eq in E. rewrite E, Nat.sub_diag. simpl.
    unfold withSkipFlags. destruct s; reflexivity.
  - destruct (Nat.le_gt_cases (endChildIndex chunk) (beginChildIndex chunk)) as [Hle|Hlt].
    + replace (endChildIndex chunk - beginChildIndex chunk) with 0 by lia. simpl.
      unfold withSkipFlags. destruct s; reflexivity.
    + assert (Hspan : beginChildIndex chunk
                      + (endChildIndex chunk - beginChildIndex chunk)
                      <= length (getChildren dl)) by lia.
      rewrite (bind_Ok _ _ _ _ _ _ _
                 (buildZSortedChildList_loop_spec dl chunk _ _ [] s
                    (Forall2_seq_span _ _ _ _ Hspan))).
      reflexivity.
Qed.

Lemma Permutation_insertByKey : forall x l, Permutation (insertByKey x l) (x :: l).
Proof.
  intros x l. induction l as [|y l IH]; simpl; [reflexivity|].
  destruct (F32.ltb (fst x) (fst y)); [reflexivity|].
  rewrite IH. apply perm_swap.
Qed.

Lemma Permutation_stable_sort : forall l, Permutation (stable_sort l) l.
Proof.
  intro l. unfold stable_sort.
  assert (H : forall acc, Permutation
                (fold_left (fun sorted x => insertByKey x sorted) l acc) (acc ++ l)).
  { induction l as [|x l IH]; intro acc; simpl.
    - rewrite app_nil_r. reflexivity.
    - rewrite IH. rewrite Permutation_insertByKey.
      simpl. apply Permutation_middle. }
  apply (H []).
Qed.

(** X4.  [buildZSortedChildList] hands back, in some order, exactly the
    children of the chunk whose Z is not zero, each under its Z, when the
    chunk reorders its children, and no child at all when it does not; it
    writes [skipInOrderDraw] flags and nothing else of the object. *)
Theorem X4_z_list_holds_the_reordered_children :
  forall (displayList : DisplayList) (chunk : Chunk) s,
    endChildIndex chunk <= length (getChildren displayList) ->
    exists zTranslatedNodes s',
      buildZSortedChildList displayList chunk s = Ok zTranslatedNodes s'
      /\ Permutation zTranslatedNodes
           (map (fun childOp => (getZ (properties (renderNode childOp)), childOp))
              (filter (fun childOp =>
                         negb (MathUtils_isZero (getZ (properties (renderNode childOp))))
                         && reorderChildren chunk)
                 (chunkChildren displayList chunk)))
      /\ (reorderChildren chunk = false -> zTranslatedNodes = [])
      /\ mLayerBuilders s' = mLayerBuilders s
      /\ mLayerStack s' = mLayerStack s
      /\ mCanvasState s' = mCanvasState s
      /\ nextHandle s' = nextHandle s.
Proof.
  intros dl chunk s H. eexists. eexists.
  split; [apply buildZSortedChildList_spec; exact H|].
  split; [apply Permutation_stable_sort|].
  split; [|repeat split].
  intro Hno. unfold zPairs, isZChild.
  assert (E : filter (fun childOp =>
                        negb (MathUtils_isZero (getZ (properties (renderNode childOp))))
                        && reorderChildren chunk) (chunkChildren dl chunk) = []).
  { induction (chunkChildren dl chunk) as [|c l IH]; simpl; [reflexivity|].
    rewrite Hno at 1. rewrite andb_false_r. exact IH. }
  rewrite E. reflexivity.
Qed.

Lemma lookupFlag_one_child : forall chunk b a old,
  lookupFlag a (rev (flagWrites chunk [b]) ++ old)
  = if (a =? opAddr b)
       && (isZChild chunk b || negb (getProjectBackwards (properties (renderNode b))))
    then Some (isZChild chunk b)
    else lookupFlag a old.
Proof.
  intros chunk b a old. unfold flagWrites. simpl.
  destruct (isZChild chunk b); simpl.
  - destruct (a =? opAddr b); reflexivity.
  - destruct (negb (getProjectBackwards (properties (renderNode b)))); simpl.
    + destruct (a =? opAddr b); reflexivity.
    + rewrite andb_false_r. reflexivity.
Qed.

Lemma flagWrites_cons : forall chunk b l,
  flagWrites chunk (b :: l) = flagWrites chunk [b] ++ flagWrites chunk l.
Proof. intros. unfold flagWrites. simpl. rewrite app_nil_r. reflexivity. Qed.

Lemma lookupFlag_flagWrites : forall chunk children childOp old,
  (forall other, In other children -> opAddr other = opAddr childOp -> other = childOp) ->
  lookupFlag (opAddr childOp) (rev (flagWrites chunk children) ++ old)
  = if existsb (fun other => opAddr childOp =? opAddr other) children
       && (isZChild chunk childOp
           || negb (getProjectBackwards (properties (renderNode childOp))))
    then Some (isZChild chunk childOp)
    else lookupFlag (opAddr childOp) old.
Proof.
  intros chunk children childOp. induction children as [|b l IH]; intros old Huniq.
  - reflexivity.
  - rewrite flagWrites_cons, rev_app_distr, <- app_assoc.
    rewrite IH by (intros other Hin; apply Huniq; right; exact Hin).
    rewrite lookupFlag_one_child. simpl existsb.
    destruct (opAddr childOp =? opAddr b) eqn:Eb.
    + apply Nat.eqb_eq in Eb. symmetry in Eb.
      rewrite (Huniq b (or_introl eq_refl) Eb).
      destruct (existsb _ l);
        destruct (isZChild chunk childOp
                  || negb (getProjectBackwards (properties (renderNode childOp))));
        reflexivity.
    + destruct (existsb _ l);
        destruct (isZChild chunk childOp
                  || negb (getProjectBackwards (properties (renderNode childOp))));
        reflexivity.
Qed.

(** X5.  After [buildZSortedChildList], a child of the chunk that went to the
    z list is in that list and is skipped by the in-order
    [deferRenderNodeOp]; a child that stayed and does not project backwards
    is drawn in order whatever its flag was before; a child that stayed and
    projects backwards keeps the flag it had.  (Two ops of the chunk at one
    address are one op.) *)
Theorem X5_reordered_child_is_skipped_in_order :
  forall (recurse : RenderNode -> M unit) (displayList : DisplayList) (chunk : Chunk)
         (childOp : RenderNodeOp) s,
    endChildIndex chunk <= length (getChildren displayList) ->
    In childOp (chunkChildren displayList chunk) ->
    (forall other, In other (chunkChildren displayList chunk) ->
                   opAddr other = opAddr childOp -> other = childOp) ->
    exists zTranslatedNodes s',
      buildZSortedChildList displayList chunk s = Ok zTranslatedNodes s'
      /\ (isZChild chunk childOp = true ->
          In (getZ (properties (renderNode childOp)), childOp) zTranslatedNodes
          /\ deferRenderNodeOp recurse childOp s' = Ok tt s')
      /\ (isZChild chunk childOp = false ->
          getProjectBackwards (properties (renderNode childOp)) = false ->
          deferRenderNodeOp recurse childOp s' = deferRenderNodeOpImpl recurse childOp s')
      /\ (isZChild chunk childOp = false ->
          getProjectBackwards (properties (renderNode childOp)) = true ->
          forall flag,
            getSkipInOrderDraw childOp s = Ok flag s ->
            getSkipInOrderDraw childOp s' = Ok flag s').
Proof.
  intros recurse dl chunk childOp s Hend Hin Huniq.
  eexists. eexists. split; [apply buildZSortedChildList_spec; exact Hend|].
  assert (Hex : existsb (fun other => opAddr childOp =? opAddr other)
                  (chunkChildren dl chunk) = true).
  { apply existsb_exists. exists childOp. split; [exact Hin | apply Nat.eqb_refl]. }
  pose proof (lookupFlag_flagWrites chunk _ childOp (skipFlags s) Huniq) as L.
  rewrite Hex in L. simpl andb in L.
  split; [|split].
  - intro Ez. rewrite Ez in L. simpl in L. split.
    + apply (Permutation_in _ (Permutation_sym (Permutation_stable_sort _))).
      unfold zPairs.
      apply (in_map (fun c => (getZ (properties (renderNode c)), c))).
      apply filter_In. split; assumption.
    + unfold deferRenderNodeOp, getSkipInOrderDraw.
      unfold bind at 1. unfold bind at 1. simpl. rewrite L. reflexivity.
  - intros Ez Eb. rewrite Ez, Eb in L. simpl in L.
    unfold deferRenderNodeOp, getSkipInOrderDraw.
    unfold bind at 1. unfold bind at 1. simpl. rewrite L. reflexivity.
  - intros Ez Eb flag Hflag. rewrite Ez, Eb in L. simpl in L.
    unfold getSkipInOrderDraw in *. unfold bind in *. simpl in *.
    rewrite L. inversion Hflag as [Hf]. rewrite Hf. reflexivity.
Qed.

(** ** Layers *)

Lemma saveForLayer_exact : forall w h x y repaint light begin node s snap under,
  mCanvasState s = snap :: under ->
  saveForLayer w h x y repaint light begin node s
  = Ok tt (mkFrameBuilder
             (mLayerBuilders s ++ [LayerBuilder_new w h repaint begin node])
             (length (mLayerBuilders s) :: mLayerStack s)
             (layerSnapshot snap w h x y repaint light :: snap :: under)
             (skipFlags s) (nextHandle s)).
Proof.
  intros w h x y repaint light begin node s snap under Ec.
  unfold saveForLayer.
  rewrite (bind_Ok _ _ _ _ _ _ _ (save_top _ _ _ _ Ec)).
  unfold writeSnapshot, bind, get, put. simpl. reflexivity.
Qed.

Ltac flatten_builders :=
  unfold withLayerBuilder, withActive, withReceived;
  cbn [LayerBuilder_width LayerBuilder_height repaintRect beginLayerOp
       LayerBuilder_renderNode viewportClip received activeUnclippedSaveLayers].

(** X6.  [saveForLayer] followed at once by [restoreForLayer] leaves the
    layer stack as it was and the save stack at its depth, with the snapshot
    the pop hands back on top, and one more layer builder at the end of
    [mLayerBuilders]: fresh, of the size, repaint rectangle, begin op and
    node it was given.  The builder is not taken back. *)
Theorem X6_save_and_restore_for_layer :
  forall (layerWidth layerHeight : Z) (contentTranslateX contentTranslateY : float)
         (repaint : Rect) (lightCenter : Vector3) (begin : option OpBase)
         (node : option RenderNode) s (snap : Snapshot) (under : list Snapshot),
    mCanvasState s = snap :: under ->
    bind (saveForLayer layerWidth layerHeight contentTranslateX contentTranslateY
            repaint lightCenter begin node)
         (fun _ => restoreForLayer) s
    = Ok tt (mkFrameBuilder
               (mLayerBuilders s
                ++ [LayerBuilder_new layerWidth layerHeight repaint begin node])
               (mLayerStack s)
               (Snapshot_restored
                  (layerSnapshot snap layerWidth layerHeight contentTranslateX
                     contentTranslateY repaint lightCenter) snap :: under)
               (skipFlags s) (nextHandle s)).
Proof.
  intros w h x y repaint light begin node s snap under Ec.
  rewrite (bind_Ok _ _ _ _ _ _ _ (saveForLayer_exact w h x y repaint light begin node _ _ _ Ec)).
  erewrite restoreForLayer_top; reflexivity.
Qed.

(** X9.  Unclipped save-layers nest: of two that are begun one after the
    other, the one begun last is copied back first.  The current builder
    receives copy-to and clear of the outer, copy-to and clear of the inner,
    copy-from of the inner, copy-from of the outer; the two layers get
    different handles and the stack of open layers is as before. *)
Theorem X9_unclipped_layers_end_innermost_first :
  forall (outer inner : OpBase) s (snap : Snapshot) (under : list Snapshot)
         (i : nat) (below : list nat) lb,
    mCanvasState s = snap :: under ->
    mLayerStack s = i :: below ->
    nth_error (mLayerBuilders s) i = Some lb ->
    let bake := fun (op : OpBase) (recorded : RecordedOp) =>
      BakedOpState_directConstruct (viewportClip lb) (unclippedDstRect snap op) recorded in
    bind (deferBeginUnclippedLayerOp outer)
      (fun _ => bind (deferBeginUnclippedLayerOp inner)
         (fun _ => bind deferEndUnclippedLayerOp
            (fun _ => deferEndUnclippedLayerOp))) s
    = Ok tt
        (mkFrameBuilder
           (setNth i
              (withReceived lb
                 [ DeferUnmergeableOp (bake outer (CopyToLayerOp outer (nextHandle s)))
                     CopyToLayer;
                   DeferLayerClear (unclippedDstRect snap outer);
                   DeferUnmergeableOp
                     (bake inner (CopyToLayerOp inner (S (nextHandle s)))) CopyToLayer;
                   DeferLayerClear (unclippedDstRect snap inner);
                   DeferUnmergeableOp
                     (bake inner (CopyFromLayerOp inner (S (nextHandle s)))) CopyFromLayer;
                   DeferUnmergeableOp
                     (bake outer (CopyFromLayerOp outer (nextHandle s))) CopyFromLayer ])
              (mLayerBuilders s))
           (mLayerStack s) (mCanvasState s) (skipFlags s) (S (S (nextHandle s)))).
Proof.
  intros outer inner s snap under i below lb Hc Hs Hn bake.
  assert (Hi : i < length (mLayerBuilders s)) by (apply nth_error_Some; congruence).
  unfold bake. clear bake. destruct lb as [w h r b n v rec act].
  rewrite (bind_Ok _ _ _ _ _ _ _
             (deferBeginUnclippedLayerOp_top outer _ _ _ _ _ _ Hc Hs Hn)).
  flatten_builders.
  match goal with
  | |- bind _ _ ?st = _ =>
      set (s1 := st);
      assert (Hc1 : mCanvasState s1 = snap :: under) by exact Hc;
      assert (Hs1 : mLayerStack s1 = i :: below) by exact Hs
  end.
  assert (Hn1 : nth_error (mLayerBuilders s1) i <> None).
  { apply nth_error_Some. unfold s1. simpl. rewrite length_setNth. exact Hi. }
  destruct (nth_error (mLayerBuilders s1) i) as [lb1|] eqn:En1; [clear Hn1|congruence].
  assert (Elb1 : Some lb1 = Some _)
    by (rewrite <- En1; apply (nth_error_setNth_same _ (mLayerBuilders s) i _ Hi)).
  injection Elb1 as Elb1.
  rewrite (bind_Ok _ _ _ _ _ _ _
             (deferBeginUnclippedLayerOp_top inner _ _ _ _ _ _ Hc1 Hs1 En1)).
  subst lb1. flatten_builders. unfold s1.
  cbn [mLayerBuilders mLayerStack mCanvasState skipFlags nextHandle].
  rewrite setNth_setNth.
  match goal with
  | |- bind _ _ ?st = _ =>
      set (s2 := st);
      assert (Hs2 : mLayerStack s2 = i :: below) by exact Hs
  end.
  match goal with
  | s2 := mkFrameBuilder (setNth i ?x _) _ _ _ _ |- _ =>
      assert (Hn2 : nth_error (mLayerBuilders s2) i = Some x)
        by apply (nth_error_setNth_same _ (mLayerBuilders s) i _ Hi)
  end.
  rewrite (bind_Ok _ _ _ _ _ _ _
             (deferEndUnclippedLayerOp_top s2 i below _ _ _ Hs2 Hn2 eq_refl)).
  flatten_builders. unfold s2.
  cbn [mLayerBuilders mLayerStack mCanvasState skipFlags nextHandle].
  rewrite setNth_setNth.
  match goal with
  | |- deferEndUnclippedLayerOp ?st = _ =>
      set (s3 := st);
      assert (Hs3 : mLayerStack s3 = i :: below) by exact Hs
  end.
  match goal with
  | s3 := mkFrameBuilder (setNth i ?x _) _ _ _ _ |- _ =>
      assert (Hn3 : nth_error (mLayerBuilders s3) i = Some x)
        by apply (nth_error_setNth_same _ (mLayerBuilders s) i _ Hi)
  end.
  rewrite (deferEndUnclippedLayerOp_top s3 i below _ act _ Hs3 Hn3 eq_refl).
  flatten_builders. unfold s3, s2, s1. cbn [mLayerBuilders mLayerStack mCanvasState
                                            skipFlags nextHandle].
  rewrite setNth_setNth. rewrite <- !app_assoc. reflexivity.
Qed.

Lemma nth_error_snoc : forall (A : Type) (l : list A) x,
  nth_error (l ++ [x]) (length l) = Some x.
Proof.
  intros A l x. rewrite nth_error_app2 by lia. rewrite Nat.sub_diag. reflexivity.
Qed.

Lemma setNth_snoc : forall (A : Type) (l : list A) x y,
  setNth (length l) y (l ++ [x]) = l ++ [y].
Proof.
  intros A l x y. induction l as [|a l IH]; simpl; [reflexivity|]. rewrite IH. reflexivity.
Qed.

(** X7.  A clipped save-layer, from its [BeginLayerOp] to its [EndLayerOp]:
    the draws in between go to a new layer builder, appended to
    [mLayerBuilders], that belongs to no render node and remembers the begin
    op; the builder that was current receives one op for the whole layer, a
    [LayerOp] naming the new builder, unmergeable on batch Bitmap, baked
    against the snapshot the restore hands back; if baking rejects that op
    the new builder is cleared instead and the parent receives nothing.  The
    layer stack and the save depth end as they began, and no other builder
    is touched. *)
Theorem X7_clipped_layer_bracket :
  forall (op : OpBase) (body : M unit) (calls : list LayerCall)
         s (snap : Snapshot) (under : list Snapshot) (i : nat) (below : list nat)
         (parent : LayerBuilder),
    mCanvasState s = snap :: under ->
    mLayerStack s = i :: below ->
    nth_error (mLayerBuilders s) i = Some parent ->
    (forall s1, deferBeginLayerOp op s = Ok tt s1 ->
                drawsInto body (mCanvasState s1) calls) ->
    exists s' layer restored,
      bind (deferBeginLayerOp op) (fun _ => bind body (fun _ => deferEndLayerOp)) s
      = Ok tt s'
      /\ mLayerStack s' = i :: below
      /\ mCanvasState s' = restored :: under
      /\ length (mLayerBuilders s') = S (length (mLayerBuilders s))
      /\ nth_error (mLayerBuilders s') (length (mLayerBuilders s)) = Some layer
      /\ beginLayerOp layer = Some op
      /\ LayerBuilder_renderNode layer = None
      /\ (forall j, j <> i -> j < length (mLayerBuilders s) ->
                    nth_error (mLayerBuilders s') j = nth_error (mLayerBuilders s) j)
      /\ match BakedOpState_tryConstruct restored
                 (LayerOp op (length (mLayerBuilders s))) with
         | Some bakedOpState =>
             received layer = calls
             /\ nth_error (mLayerBuilders s') i
                = Some (withReceived parent [DeferUnmergeableOp bakedOpState Bitmap])
         | None =>
             received layer = calls ++ [Clear]
             /\ nth_error (mLayerBuilders s') i = Some parent
         end.
Proof.
  intros op body calls s snap under i below parent Hc Hs Hn Hbody.
  assert (Hi : i < length (mLayerBuilders s)) by (apply nth_error_Some; congruence).
  set (n := length (mLayerBuilders s)).
  assert (Hbegin : exists w h x y r l,
             deferBeginLayerOp op s
             = Ok tt (mkFrameBuilder
                        (mLayerBuilders s ++ [LayerBuilder_new w h r (Some op) None])
                        (n :: mLayerStack s)
                        (layerSnapshot snap w h x y r l :: snap :: under)
                        (skipFlags s) (nextHandle s))).
  { unfold deferBeginLayerOp.
    rewrite (bind_Ok _ _ _ _ _ _ _ (currentSnapshot_top _ _ _ Hc)).
    do 6 eexists. apply saveForLayer_exact. exact Hc. }
  destruct Hbegin as (w & h & x & y & r & l & Hbegin).
  set (new := LayerBuilder_new w h r (Some op) None) in *.
  set (top := layerSnapshot snap w h x y r l) in *.
  specialize (Hbody _ Hbegin).
  rewrite (bind_Ok _ _ _ _ _ _ _ Hbegin).
  match goal with |- exists _ _ _, bind body _ ?st = _ /\ _ => set (s1 := st) in * end.
  assert (Hn1 : nth_error (mLayerBuilders s1) n = Some new) by apply nth_error_snoc.
  rewrite (bind_Ok _ _ _ _ _ _ _ (Hbody s1 n (mLayerStack s) new eq_refl eq_refl Hn1)).
  set (s2 := withLayerBuilder s1 n (withReceived new calls)).
  assert (Eb2 : mLayerBuilders s2 = mLayerBuilders s ++ [withReceived new calls]).
  { unfold s2, s1, n. simpl. apply setNth_snoc. }
  assert (Hs2 : mLayerStack s2 = n :: mLayerStack s) by reflexivity.
  assert (Hn2 : nth_error (mLayerBuilders s2) n = Some (withReceived new calls)).
  { rewrite Eb2. apply nth_error_snoc. }
  assert (Hc2 : mCanvasState s2 = top :: snap :: under) by reflexivity.
  unfold deferEndLayerOp.
  rewrite (bind_Ok _ _ _ _ _ _ _ (currentLayer_top _ _ _ _ Hs2 Hn2)).
  cbv zeta.
  rewrite (bind_Ok _ _ _ _ _ _ _ (layerStackBack_top _ _ _ Hs2)).
  rewrite (bind_Ok _ _ _ _ _ _ _ (restoreForLayer_top _ _ _ _ _ _ Hc2 Hs2)).
  simpl beginLayerOp. simpl deref. rewrite bind_ret.
  match goal with |- exists _ _ _, bind _ _ ?st = _ /\ _ => set (s3 := st) end.
  assert (Hc3 : mCanvasState s3 = Snapshot_restored top snap :: under) by reflexivity.
  assert (Hs3 : mLayerStack s3 = i :: below) by exact Hs.
  assert (Eb3 : mLayerBuilders s3 = mLayerBuilders s ++ [withReceived new calls])
    by exact Eb2.
  unfold tryBakeOpState. rewrite bind_assoc.
  rewrite (bind_Ok _ _ _ _ _ _ _ (currentSnapshot_top _ _ _ Hc3)).
  rewrite bind_ret.
  assert (Hpar : nth_error (mLayerBuilders s3) i = Some parent).
  { rewrite Eb3. rewrite nth_error_app1 by exact Hi. exact Hn. }
  assert (Hlay : nth_error (mLayerBuilders s3) n = Some (withReceived new calls)).
  { rewrite Eb3. apply nth_error_snoc. }
  assert (Hlen3 : length (mLayerBuilders s3) = S n).
  { rewrite Eb3, length_app. simpl. unfold n. lia. }
  clearbody s3. clear s2 Eb2 Hs2 Hn2 Hc2.
  destruct (BakedOpState_tryConstruct (Snapshot_restored top snap) (LayerOp op n))
    as [bakedOpState|] eqn:Ebake.
  - rewrite (deferUnmergeableOp_top _ _ _ _ _ _ Hs3 Hpar).
    eexists. exists (withReceived new calls), (Snapshot_restored top snap).
    split; [reflexivity|].
    unfold withLayerBuilder.
    cbn [mLayerBuilders mLayerStack mCanvasState skipFlags nextHandle].
    rewrite Ebake.
    assert (Hne : i <> n) by (unfold n; lia).
    split; [exact Hs3|]. split; [exact Hc3|].
    split; [rewrite length_setNth; exact Hlen3|].
    split; [rewrite nth_error_setNth_other by exact Hne; exact Hlay|].
    split; [reflexivity|]. split; [reflexivity|].
    split.
    { intros j Hj Hlt. rewrite nth_error_setNth_other by congruence.
      rewrite Eb3. apply nth_error_app1. exact Hlt. }
    split; [reflexivity|].
    apply nth_error_setNth_same. rewrite Hlen3. unfold n. lia.
  - rewrite (callLayer_at _ _ _ _ Hlay).
    eexists. exists (withReceived (withReceived new calls) [Clear]),
               (Snapshot_restored top snap).
    split; [reflexivity|].
    unfold withLayerBuilder.
    cbn [mLayerBuilders mLayerStack mCanvasState skipFlags nextHandle].
    rewrite Ebake.
    assert (Hne : n <> i) by (unfold n; lia).
    split; [exact Hs3|]. split; [exact Hc3|].
    split; [rewrite length_setNth; exact Hlen3|].
    split; [apply nth_error_setNth_same; rewrite Hlen3; lia|].
    split; [reflexivity|]. split; [reflexivity|].
    split.
    { intros j Hj Hlt. rewrite nth_error_setNth_other by (unfold n; lia).
      rewrite Eb3. apply nth_error_app1. exact Hlt. }
    split; [reflexivity|].
    rewrite nth_error_setNth_other by exact Hne. exact Hpar.
Qed.

Lemma currentSnapshot_mk : forall builders stack snap under flags handle,
  currentSnapshot (mkFrameBuilder builders stack (snap :: under) flags handle)
  = Ok snap (mkFrameBuilder builders stack (snap :: under) flags handle).
Proof. reflexivity. Qed.

Lemma callLayer_no_null : forall i call s, callLayer i call s <> Crash NullDereference.
Proof.
  intros i call s. unfold callLayer, setLayerBuilder, at_, bind, get, put, ret, crash.
  destruct (nth_error (mLayerBuilders s) i); discriminate.
Qed.

Lemma deferUnmergeableOp_no_null : forall st batchId s,
  deferUnmergeableOp st batchId s <> Crash NullDereference.
Proof.
  intros st batchId s. unfold deferUnmergeableOp, layerStackBack, bind, get, ret, crash.
  destruct (mLayerStack s) as [|i below]; [discriminate|]. apply callLayer_no_null.
Qed.

(** X8.  [deferEndLayerOp] binds a reference to the begin op of the current
    layer builder and reads its fields only after [restoreForLayer], without
    a test.  Where the restore can pop a snapshot (there is one below the
    current one), the call ends in a null dereference exactly when the
    current builder was not opened by a [BeginLayerOp] (the primary builder,
    or the builder of a queued layer). *)
Theorem X8_end_layer_without_begin :
  forall s (i : nat) (below : list nat) lb (removed restored : Snapshot)
         (under : list Snapshot),
    mLayerStack s = i :: below ->
    nth_error (mLayerBuilders s) i = Some lb ->
    mCanvasState s = removed :: restored :: under ->
    (deferEndLayerOp s = Crash NullDereference <-> beginLayerOp lb = None).
Proof.
  intros s i below lb removed restored under Hs Hn Ec. unfold deferEndLayerOp.
  rewrite (bind_Ok _ _ _ _ _ _ _ (currentLayer_top _ _ _ _ Hs Hn)).
  cbv zeta.
  rewrite (bind_Ok _ _ _ _ _ _ _ (layerStackBack_top _ _ _ Hs)).
  rewrite (bind_Ok _ _ _ _ _ _ _ (restoreForLayer_top _ _ _ _ _ _ Ec Hs)).
  destruct (beginLayerOp lb) as [begin|]; simpl deref.
  - split; [|discriminate]. intro H. exfalso. revert H.
    rewrite bind_ret.
    unfold tryBakeOpState. rewrite bind_assoc.
    rewrite (bind_Ok _ _ _ _ _ _ _ (currentSnapshot_mk _ _ _ _ _ _)).
    rewrite bind_ret.
    destruct (BakedOpState_tryConstruct _ _) as [bakedOpState|].
    + apply deferUnmergeableOp_no_null.
    + apply callLayer_no_null.
  - split; reflexivity.
Qed.

(** ** The handlers of the drawing ops *)

Ltac unfold_handlers :=
  unfold deferArcOp, deferBitmapOp, deferBitmapMeshOp, deferBitmapRectOp,
    deferCirclePropsOp, deferFunctorOp, deferLinesOp, deferOvalOp, deferPatchOp,
    deferPathOp, deferPointsOp, deferRectOp, deferRoundRectOp,
    deferRoundRectPropsOp, deferRoundRectOp, deferSimpleRectsOp, deferTextOp,
    deferTextOnPathOp, deferTextureLayerOp, deferOvalOp,
    bakeAndDeferUnmergeable, tessBatchId, deferStrokeableOp, tryBakeOpState.

(** steps of a run that does not leave the current snapshot *)
Ltac run_snapshot Hc :=
  repeat first
    [ rewrite bind_assoc
    | rewrite bind_ret
    | rewrite (bind_Ok _ _ _ _ _ _ _ (currentSnapshot_top _ _ _ Hc)) ].

(** X10.  A drawing op that baking rejects defers nothing and leaves the
    object as it was.  The handlers of arcs, ovals, rects, round rects,
    circle and round-rect props, lines and points read the paint before they
    bake: with a null paint they fault even on an op that would be
    rejected. *)
Theorem X10_rejected_op_defers_nothing :
  forall (recurse : RenderNode -> M unit) (op : RecordedOp) s
         (snap : Snapshot) (under : list Snapshot),
    isPlainDraw op = true ->
    mCanvasState s = snap :: under ->
    bakeOf snap op = None ->
    dispatch recurse op s
    = if readsPaintFirst op && isNull (paintOf op)
      then Crash NullDereference
      else Ok tt s.
Proof.
  intros recurse op s snap under Hplain Hc Hbake.
  destruct op; try discriminate; unfold bakeOf in Hbake; simpl in *; unfold_handlers;
    cbn [paint];
    try (run_snapshot Hc; rewrite Hbake; reflexivity);
    match goal with
    | |- context [deref ?p] => destruct p; simpl; [|reflexivity]
    end;
    run_snapshot Hc; rewrite Hbake; reflexivity.
Qed.

Lemma andHasMergeableClip_nonnull : forall conds st s,
  clipState (computedState st) <> None ->
  andHasMergeableClip conds st s = Ok conds s.
Proof.
  intros conds st s H. unfold andHasMergeableClip.
  destruct conds; [|reflexivity].
  destruct (clipState (computedState st)) as [clip|] eqn:E; [|congruence].
  apply (hasMergeableClip_nonnull _ _ _ E).
Qed.

(** X11.  A drawing op that baking accepts makes exactly one call, on the
    current layer builder, that carries the baked state; the layer stack, the
    snapshots and every other builder are as before.  The call is a mergeable
    defer only for bitmaps, patches and text.  (The baked state has a clip
    state, and the paint is not null where the handler reads it.) *)
Theorem X11_accepted_op_is_one_call :
  forall (recurse : RenderNode -> M unit) (op : RecordedOp) s
         (snap : Snapshot) (under : list Snapshot) (i : nat) (below : list nat)
         lb (bakedState : BakedOpState),
    isPlainDraw op = true ->
    mCanvasState s = snap :: under ->
    mLayerStack s = i :: below ->
    nth_error (mLayerBuilders s) i = Some lb ->
    bakeOf snap op = Some bakedState ->
    clipState (computedState bakedState) <> None ->
    (readsPaintFirst op || readsPaintLater op = true -> paintOf op <> None) ->
    exists call,
      dispatch recurse op s = Ok tt (withLayerBuilder s i (withReceived lb [call]))
      /\ callState call = Some bakedState
      /\ (isMergeableCall call = true -> mayMerge op = true).
Proof.
  intros recurse op s snap under i below lb st Hplain Hc Hs Hn Hbake Hclip Hpaint.
  assert (Hu : forall batchId,
             deferUnmergeableOp st batchId s
             = Ok tt (withLayerBuilder s i
                        (withReceived lb [DeferUnmergeableOp st batchId])))
    by (intro; apply (deferUnmergeableOp_top _ _ _ _ _ _ Hs Hn)).
  assert (Hm : forall batchId mergeId,
             deferMergeableOp st batchId mergeId s
             = Ok tt (withLayerBuilder s i
                        (withReceived lb [DeferMergeableOp st batchId mergeId])))
    by (intros; apply (deferMergeableOp_top _ _ _ _ _ _ _ Hs Hn)).
  destruct op; try discriminate; unfold bakeOf in Hbake; simpl in *; unfold_handlers;
    cbn [paint];
    try (match goal with
         | |- context [deref ?p] =>
             destruct p; [|exfalso; apply Hpaint; reflexivity]; simpl deref
         end);
    run_snapshot Hc; rewrite Hbake; run_snapshot Hc;
    try (rewrite (bind_Ok _ _ _ _ _ _ _ (andHasMergeableClip_nonnull _ _ _ Hclip)));
    try (match goal with
         | |- context [if ?c then deferMergeableOp _ _ _ else _] => destruct c
         end);
    rewrite ?Hu, ?Hm;
    (eexists; split; [reflexivity | split; [reflexivity | simpl; congruence]]).
Qed.

(** X16.  Bitmap meshes and bitmap rects are deferred on batch Bitmap,
    functors on Functor, simple rects on Vertices, texture layers on
    TextureLayer; lines and points go to AlphaVertices when the paint is
    anti-aliased and to Vertices otherwise, whether or not the paint has a
    path effect, and are baked with a forced stroke.  All of them are
    deferred unmergeable. *)
Theorem X16_fixed_batches :
  forall (recurse : RenderNode -> M unit) (op : RecordedOp) (batchId : OpBatchType)
         s (snap : Snapshot) (under : list Snapshot) (bakedState : BakedOpState),
    fixedBatch op = Some batchId ->
    mCanvasState s = snap :: under ->
    bakeOf snap op = Some bakedState ->
    dispatch recurse op s = deferUnmergeableOp bakedState batchId s.
Proof.
  intros recurse op batchId s snap under st Hbatch Hc Hbake.
  destruct op; try discriminate; unfold bakeOf in Hbake; simpl in *; unfold_handlers;
    cbn [paint];
    try (match goal with
         | |- context [deref ?p] => destruct p; [|discriminate]; simpl deref
         end);
    run_snapshot Hc; rewrite Hbake; congruence.
Qed.

(** X12.  A patch that survives baking with a clip state is deferred
    mergeable on batch MergedPatch, keyed by the generation id of its bitmap,
    when the baked transform is a pure translation and the paint's xfermode
    is src-over, whatever the mode of the clip; otherwise it is deferred
    unmergeable on batch Bitmap.  It is never deferred mergeable on batch
    Bitmap nor unmergeable on batch MergedPatch.  With the two conditions met
    and no clip state the defer faults on the null pointer. *)
Theorem X12_patch_batches :
  forall (op : OpBase) (bitmap : SkBitmap) s (snap : Snapshot) (under : list Snapshot)
         (bakedState : BakedOpState),
    mCanvasState s = snap :: under ->
    BakedOpState_tryConstruct snap (PatchOp op bitmap) = Some bakedState ->
    let conds :=
      Matrix4_isPureTranslate (transform (computedState bakedState))
      && isSrcOver (PaintUtils_getXfermodeDirect (paint op)) in
    (conds = false ->
     deferPatchOp op bitmap s = deferUnmergeableOp bakedState Bitmap s)
    /\ (conds = true -> clipState (computedState bakedState) <> None ->
        deferPatchOp op bitmap s
        = deferMergeableOp bakedState MergedPatch (getGenerationID bitmap) s)
    /\ (conds = true -> clipState (computedState bakedState) = None ->
        deferPatchOp op bitmap s = Crash NullDereference).
Proof.
  intros op bitmap s snap under st Hc Hb conds.
  assert (E : deferPatchOp op bitmap s
              = bind (andHasMergeableClip conds st)
                  (fun mergeable =>
                     if mergeable
                     then deferMergeableOp st MergedPatch (getGenerationID bitmap)
                     else deferUnmergeableOp st Bitmap) s).
  { unfold deferPatchOp, tryBakeOpState.
    rewrite bind_assoc. rewrite (bind_Ok _ _ _ _ _ _ _ (currentSnapshot_top _ _ _ Hc)).
    rewrite bind_ret. rewrite Hb. reflexivity. }
  rewrite E. clear E. repeat split.
  - intros ->. reflexivity.
  - intros -> H. rewrite (bind_Ok _ _ _ _ _ _ _ (andHasMergeableClip_nonnull _ _ _ H)).
    reflexivity.
  - intros -> H. simpl.
    rewrite (bind_Crash _ _ _ _ _ _ (hasMergeableClip_null _ _ H)). reflexivity.
Qed.

(** X13.  Text that survives baking goes to batch Text when the paint's
    color is black and to batch ColorText otherwise.  A [TextOp] with a clip
    state is deferred mergeable, keyed by the paint's color, when the baked
    transform is a pure translation and the xfermode is src-over, and
    unmergeable otherwise; a [TextOnPathOp] is always unmergeable. *)
Theorem X13_text_batches :
  forall (op : OpBase) (p : SkPaint) s (snap : Snapshot) (under : list Snapshot),
    mCanvasState s = snap :: under ->
    paint op = Some p ->
    let batchId := if (SkPaint_getColor p =? SK_ColorBLACK)%Z then Text else ColorText in
    (forall bakedState,
        BakedOpState_tryConstruct snap (TextOp op) = Some bakedState ->
        clipState (computedState bakedState) <> None ->
        deferTextOp op s
        = if Matrix4_isPureTranslate (transform (computedState bakedState))
             && isSrcOver (PaintUtils_getXfermodeDirect (paint op))
          then deferMergeableOp bakedState batchId (SkPaint_getColor p) s
          else deferUnmergeableOp bakedState batchId s)
    /\ (forall bakedState,
          BakedOpState_tryConstruct snap (TextOnPathOp op) = Some bakedState ->
          deferTextOnPathOp op s = deferUnmergeableOp bakedState batchId s).
Proof.
  intros op p s snap under Hc Hp batchId. split; intros st Hb.
  - intro Hclip. unfold deferTextOp, tryBakeOpState.
    rewrite bind_assoc. rewrite (bind_Ok _ _ _ _ _ _ _ (currentSnapshot_top _ _ _ Hc)).
    rewrite bind_ret. rewrite Hb. rewrite Hp. simpl deref. rewrite bind_ret.
    rewrite (bind_Ok _ _ _ _ _ _ _ (andHasMergeableClip_nonnull _ _ _ Hclip)).
    destruct (_ && _); reflexivity.
  - unfold deferTextOnPathOp, tryBakeOpState.
    rewrite bind_assoc. rewrite (bind_Ok _ _ _ _ _ _ _ (currentSnapshot_top _ _ _ Hc)).
    rewrite bind_ret. rewrite Hb. rewrite Hp. reflexivity.
Qed.

(** ** Shadows *)

(** X14.  [deferShadow] never faults on an object with a current snapshot
    and a current layer builder, and it only ever adds to that builder: it
    returns the object unchanged, or with one more call on the current
    builder, an unmergeable op on batch Shadow that bakes a [ShadowOp] whose
    alpha is the caster's alpha times its outline's.  It returns the object
    unchanged whenever the caster's alpha or its outline's alpha is not
    above 0, the outline has no path, or a scale is 0. *)
Theorem X14_shadow_is_at_most_one_op :
  forall (casterNodeOp : RenderNodeOp) s (snap : Snapshot) (under : list Snapshot)
         (i : nat) (below : list nat) lb,
    mCanvasState s = snap :: under ->
    mLayerStack s = i :: below ->
    nth_error (mLayerBuilders s) i = Some lb ->
    let props := properties (renderNode casterNodeOp) in
    (deferShadow casterNodeOp s = Ok tt s
     \/ exists casterPath bakedOpState,
          BakedOpState_tryShadowOpConstruct snap
            (ShadowOp casterNodeOp
               (F32.mul (getAlpha props) (Outline_getAlpha (getOutline props)))
               casterPath (Snapshot_getLocalClipBounds snap)
               (Snapshot_getRelativeLightCenter snap))
          = Some bakedOpState
          /\ deferShadow casterNodeOp s
             = Ok tt (withLayerBuilder s i
                        (withReceived lb [DeferUnmergeableOp bakedOpState Shadow])))
    /\ (F32.leb (getAlpha props) F32.zero = true
        \/ F32.leb (Outline_getAlpha (getOutline props)) F32.zero = true
        \/ Outline_getPath (getOutline props) = None
        \/ F32.eqb (getScaleX props) F32.zero = true
        \/ F32.eqb (getScaleY props) F32.zero = true ->
        deferShadow casterNodeOp s = Ok tt s).
Proof.
  intros op s snap under i below lb Hc Hs Hn props. split.
  - unfold deferShadow. fold props.
    destruct (_ || _) eqn:Eskip; [left; reflexivity|].
    repeat (apply orb_false_iff in Eskip; destruct Eskip as [Eskip ?]).
    destruct (Outline_getPath (getOutline props)) as [outline|]; [|discriminate].
    simpl deref. rewrite bind_ret.
    destruct (match RevealClip_getPath (getRevealClip props) with
              | Some p => SkPath_isEmpty p
              | None => false
              end); [left; reflexivity|].
    unfold getLocalClipBounds. rewrite bind_assoc.
    rewrite (bind_Ok _ _ _ _ _ _ _ (currentSnapshot_top _ _ _ Hc)).
    rewrite bind_ret.
    rewrite (bind_Ok _ _ _ _ _ _ _ (currentSnapshot_top _ _ _ Hc)).
    match goal with
    | |- context [BakedOpState_tryShadowOpConstruct snap (ShadowOp _ _ ?path _ _)] =>
        destruct (BakedOpState_tryShadowOpConstruct snap
                    (ShadowOp op (F32.mul (getAlpha props)
                                    (Outline_getAlpha (getOutline props)))
                       path (Snapshot_getLocalClipBounds snap)
                       (Snapshot_getRelativeLightCenter snap)))
          as [st|] eqn:Eb; [right; exists path, st | left; reflexivity]
    end.
    split; [exact Eb|]. apply (deferUnmergeableOp_top _ _ _ _ _ _ Hs Hn).
  - intro H. unfold deferShadow. fold props.
    destruct H as [H|[H|[H|[H|H]]]]; rewrite H; simpl;
      rewrite ?orb_true_r; reflexivity.
Qed.

(** ** Nodes *)

Lemma topOnly_ret : forall (A : Type) (R : A -> Prop) (a : A), R a -> topOnly R (ret a).
Proof.
  intros A R a Ha s a' s' snap under Hc H. inversion H; subst. split; [exact Ha|].
  exists snap. exact Hc.
Qed.

Lemma topOnly_bind : forall (A B : Type) (R : A -> Prop) (R' : B -> Prop)
    (m : M A) (k : A -> M B),
  topOnly R m -> (forall a, R a -> topOnly R' (k a)) -> topOnly R' (bind m k).
Proof.
  intros A B R R' m k Hm Hk s b s' snap under Hc H. unfold bind in H.
  destruct (m s) as [a s1| |] eqn:E; try discriminate.
  destruct (Hm _ _ _ _ _ Hc E) as (Ra & snap1 & Hc1).
  apply (Hk a Ra _ _ _ _ _ Hc1 H).
Qed.

Lemma topOnly_writeSnapshot : forall f, topOnly (fun _ => True) (writeSnapshot f).
Proof.
  intros f s a s' snap under Hc H. unfold writeSnapshot, bind, get, put in H.
  rewrite Hc in H. inversion H; subst. split; [exact I|]. eexists. reflexivity.
Qed.

Lemma topOnly_deref : forall (A : Type) (p : option A), topOnly (fun _ => True) (deref p).
Proof.
  intros A [a|] s a' s' snap under Hc H; simpl in H; inversion H; subst.
  split; [exact I|]. exists snap. exact Hc.
Qed.

Lemma topOnly_weaken : forall (A : Type) (R R' : A -> Prop) (m : M A),
  topOnly R m -> (forall a, R a -> R' a) -> topOnly R' m.
Proof.
  intros A R R' m H HR s a s' snap under Hc E.
  destruct (H _ _ _ _ _ Hc E) as (Ra & Hs). split; [apply HR; exact Ra | exact Hs].
Qed.

Ltac topOnly_auto :=
  repeat first
    [ apply topOnly_ret; exact I
    | apply topOnly_writeSnapshot
    | apply topOnly_deref
    | eapply topOnly_bind; [ | intros ]
    | match goal with
      | |- topOnly _ (if ?b then _ else _) => destruct b
      | |- topOnly _ (match ?x with _ => _ end) => destruct x
      end ].

(** X17.  Applying a node's properties rewrites the current snapshot and
    nothing else: the snapshots below it, the layer builders, the layer stack
    and the skip flags are as before.  The bounds it returns for a temporary
    save-layer are the default, empty ones unless the node's alpha is below
    1, it has no layer type and its rendering overlaps. *)
Theorem X17_properties_touch_only_the_current_snapshot :
  forall (props : RenderProperties) s (saveLayerBounds : Rect) s'
         (snap : Snapshot) (under : list Snapshot),
    mCanvasState s = snap :: under ->
    applyNodeProperties props s = Ok saveLayerBounds s' ->
    (exists snap', mCanvasState s' = snap' :: under)
    /\ mLayerBuilders s' = mLayerBuilders s
    /\ mLayerStack s' = mLayerStack s
    /\ skipFlags s' = skipFlags s
    /\ nextHandle s' = nextHandle s
    /\ (saveLayerBounds = Rect_default
        \/ (F32.ltb (getAlpha props) F32.one = true
            /\ effectiveLayerType props = LayerType_None
            /\ getHasOverlappingRendering props = true)).
Proof.
  intros props s bounds s' snap under Hc H.
  destruct (canvasOnly_applyNodeProperties _ _ _ _ H) as (H1 & H2 & H3 & H4).
  assert (T0 : topOnly
                 (fun b => b = Rect_default
                           \/ (F32.ltb (getAlpha props) F32.one = true
                               /\ effectiveLayerType props = LayerType_None
                               /\ getHasOverlappingRendering props = true))
                 (applyNodeProperties props)).
  { unfold applyNodeProperties, translate, concatMatrix, scaleAlpha, clipRect,
      setClippingRoundRect, setClippingOutline, when.
    eapply topOnly_bind with (R := fun _ => True); [topOnly_auto|]. intros _ _.
    eapply topOnly_bind with (R := fun _ => True); [topOnly_auto|]. intros _ _.
    eapply topOnly_bind with (R := fun _ => True); [topOnly_auto|]. intros _ _.
    eapply topOnly_bind
      with (R := fun bf => fst bf = Rect_default
                           \/ (F32.ltb (getAlpha props) F32.one = true
                               /\ effectiveLayerType props = LayerType_None
                               /\ getHasOverlappingRendering props = true)).
    - destruct (F32.ltb (getAlpha props) F32.one) eqn:Ea;
        [|apply topOnly_ret; left; reflexivity].
      destruct (effectiveLayerType props) eqn:El; simpl;
        try (eapply topOnly_bind with (R := fun _ => True);
             [apply topOnly_writeSnapshot
             | intros _ _; apply topOnly_ret; left; reflexivity]).
      destruct (getHasOverlappingRendering props) eqn:Eo; simpl.
      + destruct (nonZero (getClippingFlags props));
          apply topOnly_ret; right; auto.
      + eapply topOnly_bind with (R := fun _ => True);
          [apply topOnly_writeSnapshot
          | intros _ _; apply topOnly_ret; left; reflexivity].
    - intros bf Hbf.
      eapply topOnly_bind with (R := fun _ => True); [topOnly_auto|]. intros _ _.
      eapply topOnly_bind with (R := fun _ => True); [topOnly_auto|]. intros _ _.
      apply topOnly_ret. exact Hbf. }
  destruct (T0 _ _ _ _ _ Hc H) as (Hb & Hs).
  repeat split; assumption.
Qed.

(** X15.  A node that passed the first test of [deferNodePropsAndOps] still
    contributes nothing when the conservative quick reject of its bounds
    succeeds: the object is left as its properties made it.  When the quick
    reject fails and the node has a layer whose [LayerOp] is baked, the
    current builder receives that one op, unmergeable on batch Bitmap.  In
    both cases the display list of the node is not traversed. *)
Theorem X15_node_without_traversal :
  forall (fuel : nat) (node : RenderNode) s s1 (saveLayerBounds : Rect)
         (snap : Snapshot) (under : list Snapshot) (i : nat) (below : list nat) lb,
    rejected (properties node) = false ->
    applyNodeProperties (properties node) s = Ok saveLayerBounds s1 ->
    mCanvasState s1 = snap :: under ->
    mLayerStack s = i :: below ->
    nth_error (mLayerBuilders s) i = Some lb ->
    let quickRejected :=
      Snapshot_quickRejectConservative snap F32.zero F32.zero
        (F32.of_int (getWidth (properties node)))
        (F32.of_int (getHeight (properties node))) in
    (quickRejected = true -> deferNodePropsAndOps (S fuel) node s = Ok tt s1)
    /\ (quickRejected = false ->
        forall buffer bakedOpState,
          getLayer node = Some buffer ->
          BakedOpState_tryConstruct snap (LayerOp_ofNode node) = Some bakedOpState ->
          deferNodePropsAndOps (S fuel) node s
          = Ok tt (withLayerBuilder s1 i
                     (withReceived lb [DeferUnmergeableOp bakedOpState Bitmap]))).
Proof.
  intros fuel node s s1 slb snap under i below lb Hrej Happly Hc Hs Hn quick.
  destruct (canvasOnly_applyNodeProperties _ _ _ _ Happly) as (H1 & H2 & _).
  assert (E : deferNodePropsAndOps (S fuel) node s
              = (if negb quick
                 then match getLayer node with
                      | Some _ =>
                          bind (tryBakeOpState (LayerOp_ofNode node))
                            (fun baked =>
                               match baked with
                               | Some bakedOpState => deferUnmergeableOp bakedOpState Bitmap
                               | None => ret tt
                               end)
                      | None =>
                          if negb (Rect_isEmpty slb)
                          then
                            bind (deferBeginLayerOp
                                    (mkOpBase slb Matrix4_identity None
                                       (Some (SkPaint_setAlpha SkPaint_new
                                                (float_to_uint32
                                                   (getAlpha (properties node)))))))
                              (fun _ => bind (deferNodeOps (deferNodePropsAndOps fuel) node)
                                          (fun _ => deferEndLayerOp))
                          else deferNodeOps (deferNodePropsAndOps fuel) node
                      end
                 else ret tt) s1).
  { simpl. unfold deferNodePropsAndOps_body. rewrite Hrej.
    rewrite (bind_Ok _ _ _ _ _ _ _ Happly).
    unfold quickRejectConservative. rewrite bind_assoc.
    rewrite (bind_Ok _ _ _ _ _ _ _ (currentSnapshot_top _ _ _ Hc)).
    rewrite bind_ret. reflexivity. }
  rewrite E. clear E. split.
  - intros ->. reflexivity.
  - intros -> buffer st Hlayer Hbake. simpl. rewrite Hlayer.
    unfold tryBakeOpState. rewrite bind_assoc.
    rewrite (bind_Ok _ _ _ _ _ _ _ (currentSnapshot_top _ _ _ Hc)).
    rewrite bind_ret. rewrite Hbake.
    apply (deferUnmergeableOp_top _ _ _ _ _ _ (eq_trans H2 Hs)).
    rewrite H1. exact Hn.
Qed.

(** X18.  The traversal of a well-formed node is balanced.  From an object
    with a current snapshot and a current layer builder,
    [deferNodePropsAndOps] completes without fault (fuel for the depth of
    the tree is enough) and leaves the layer stack and the save depth as
    they were; the builders that existed keep their place, size, repaint
    rectangle, begin op, node and open unclipped save-layers, and every
    builder that came on top belongs to no render node. *)
Theorem X18_well_formed_subtree_is_balanced :
  forall (depth : nat) (node : RenderNode) s,
    bakesClipState ->
    wellFormed depth node = true ->
    mCanvasState s <> [] ->
    (exists i below, mLayerStack s = i :: below /\ i < length (mLayerBuilders s)) ->
    exists s' added,
      deferNodePropsAndOps (S depth) node s = Ok tt s'
      /\ mLayerStack s' = mLayerStack s
      /\ length (mCanvasState s') = length (mCanvasState s)
      /\ map skeleton (mLayerBuilders s') = map skeleton (mLayerBuilders s) ++ added
      /\ Forall (fun lb => LayerBuilder_renderNode lb = None) added.
Proof.
  intros depth node s Hb Hwf Hc Hl.
  destruct (keeps_deferNodePropsAndOps depth node Hb Hwf s (conj Hc Hl))
    as (s' & E & [St De (added & Bu & Fa)]).
  exists s', added. auto.
Qed.

(** ** The constructor *)

Lemma FrameBuilder_new_unfold : forall fuel layers clip w h nodes lightCenter,
  FrameBuilder_new fuel layers clip w h nodes lightCenter
  = (forEach (rev layers) (FrameBuilder_ctor_layer fuel) ;;
     forEach nodes (FrameBuilder_ctor_node fuel))
      (mkFrameBuilder [LayerBuilder_new w h (Rect_ofSkRect clip) None None] [0]
         [Snapshot_root w h (fLeft clip) (fTop clip) (fRight clip) (fBottom clip)
            lightCenter] [] 0).
Proof.
  intros fuel layers clip w h nodes lightCenter.
  transitivity
    ((forEach (rev (seq 0 (length layers)))
        (fun i => entry <- at_ layers i ;; FrameBuilder_ctor_layer fuel entry) ;;
      forEach nodes (FrameBuilder_ctor_node fuel))
       (mkFrameBuilder [LayerBuilder_new w h (Rect_ofSkRect clip) None None] [0]
          [Snapshot_root w h (fLeft clip) (fTop clip) (fRight clip) (fBottom clip)
             lightCenter] [] 0)); [reflexivity|].
  unfold bind at 1. rewrite forEach_indices_rev. reflexivity.
Qed.

(** X19.  With an empty layer-update queue and root nodes that all have
    nothing to draw, construction leaves the initial object: the primary
    layer builder alone, with nothing received, the layer stack [[0]] and the
    root snapshot. *)
Theorem X19_nothing_to_draw :
  forall (fuel : nat) (clip : SkRect) (viewportWidth viewportHeight : Z)
         (nodes : list RenderNode) (lightCenter : Vector3),
    forallb nothingToDraw nodes = true ->
    FrameBuilder_new fuel [] clip viewportWidth viewportHeight nodes lightCenter
    = Ok tt
        (mkFrameBuilder
           [LayerBuilder_new viewportWidth viewportHeight (Rect_ofSkRect clip) None None]
           [0]
           [Snapshot_root viewportWidth viewportHeight
              (fLeft clip) (fTop clip) (fRight clip) (fBottom clip) lightCenter]
           [] 0).
Proof.
  intros fuel clip w h nodes lightCenter Hnodes.
  rewrite FrameBuilder_new_unfold. simpl rev. simpl forEach. rewrite bind_ret.
  induction nodes as [|node nodes IH]; [reflexivity|].
  simpl in Hnodes. apply andb_true_iff in Hnodes. destruct Hnodes as [Hn Hrest].
  simpl forEach. unfold FrameBuilder_ctor_node at 1. rewrite Hn. rewrite bind_ret.
  apply IH. exact Hrest.
Qed.

(** X20.  The constructor reads the layer of every queued node without a
    test.  When an entry of the queue names a node that has no layer, and the
    entries after it (which are processed before it) are well formed,
    construction ends in a null dereference. *)
Theorem X20_queued_node_without_layer :
  forall (fuel : nat) (front back : list Entry) (entry : Entry) (clip : SkRect)
         (viewportWidth viewportHeight : Z) (nodes : list RenderNode)
         (lightCenter : Vector3),
    bakesClipState ->
    forallb (wellFormedEntry fuel) back = true ->
    getLayer (computeOrdering (Entry_renderNode entry)) = None ->
    FrameBuilder_new fuel (front ++ entry :: back) clip viewportWidth viewportHeight
      nodes lightCenter
    = Crash NullDereference.
Proof.
  intros fuel front back entry clip w h nodes lightCenter Hb Hback Hnull.
  rewrite FrameBuilder_new_unfold.
  set (s0 := mkFrameBuilder _ _ _ _ _).
  assert (Hv0 : valid s0).
  { split; [discriminate|]. exists 0, []. simpl. auto. }
  assert (Hrev : forallb (wellFormedEntry fuel) (rev back) = true).
  { apply forallb_forall. intros e He. rewrite forallb_forall in Hback.
    apply Hback. apply in_rev. exact He. }
  destruct (ctor_layers_spec fuel (rev back) s0 Hb Hrev Hv0)
    as (s1 & created & E1 & St1 & De1 & Bu1 & _).
  assert (Hv1 : valid s1).
  { apply (valid_grow s0); auto. apply (f_equal (@length _)) in Bu1.
    rewrite length_app, !length_map in Bu1. lia. }
  apply bind_Crash.
  rewrite rev_app_distr. simpl rev. rewrite <- app_assoc. simpl app.
  rewrite forEach_app. rewrite (bind_Ok _ _ _ _ _ _ _ E1).
  simpl forEach. apply bind_Crash.
  unfold FrameBuilder_ctor_layer.
  destruct Hv1 as [Hc1 _].
  destruct (mCanvasState s1) as [|snap under] eqn:Ec; [congruence|].
  rewrite (bind_Ok _ _ _ _ _ _ _ (currentSnapshot_top _ _ _ Ec)).
  rewrite Hnull. reflexivity.
Qed.

(** ** Confinement *)

Lemma stays_ret : forall (A : Type) (a : A), stays (ret a).
Proof. intros A a s a' s' H. inversion H; subst. auto. Qed.

Lemma stays_crash : forall (A : Type) (f : Fault), stays (crash f : M A).
Proof. intros A f s a s' H. discriminate. Qed.

Lemma stays_bind : forall (A B : Type) (m : M A) (k : A -> M B),
  stays m -> (forall a, stays (k a)) -> stays (bind m k).
Proof.
  intros A B m k Hm Hk s b s' H. unfold bind in H.
  destruct (m s) as [a s1| |] eqn:E; try discriminate.
  destruct (Hm _ _ _ E) as (S1 & L1 & N1).
  destruct (Hk a _ _ _ H) as (S2 & L2 & N2).
  split; [congruence|]. split; [congruence|].
  intros j Hj. rewrite N2; [apply N1; exact Hj|].
  intros below. rewrite S1. apply Hj.
Qed.

Lemma stays_canvasOnly : forall (A : Type) (m : M A), canvasOnly m -> stays m.
Proof.
  intros A m H s a s' E. destruct (H _ _ _ E) as (Hb & Hs & _).
  split; [exact Hs|]. split; [rewrite Hb; reflexivity|]. intros j _. rewrite Hb. reflexivity.
Qed.

Lemma canvasOnly_get_like : forall (A : Type) (f : FrameBuilder -> A),
  canvasOnly (s <- get ;; ret (f s)).
Proof. intros A f s a s' H. inversion H; subst. auto. Qed.

Lemma canvasOnly_currentSnapshot : canvasOnly currentSnapshot.
Proof.
  intros s a s' H. unfold currentSnapshot, bind, get in H.
  destruct (mCanvasState s); inversion H; subst. auto.
Qed.

Lemma canvasOnly_save : forall flags, canvasOnly (save flags).
Proof.
  intros flags s a s' H. unfold save, bind, get, put in H.
  destruct (mCanvasState s); inversion H; subst. simpl. auto.
Qed.

Lemma canvasOnly_restore : canvasOnly restore.
Proof.
  intros s a s' H. unfold restore, bind, get, put in H.
  destruct (mCanvasState s) as [|? [|? ?]]; inversion H; subst. simpl. auto.
Qed.

Lemma canvasOnly_restoreToCount : forall n, canvasOnly (restoreToCount n).
Proof.
  intro n. unfold restoreToCount. apply canvasOnly_bind.
  - unfold getSaveCount. apply canvasOnly_get_like.
  - intro pops. induction pops as [|pops IH]; simpl; [apply canvasOnly_ret|].
    apply canvasOnly_bind; [unfold getSaveCount; apply canvasOnly_get_like|].
    intro d. destruct (n <? d); [|apply canvasOnly_ret].
    apply canvasOnly_bind; [apply canvasOnly_restore | intro; exact IH].
Qed.

Lemma stays_readonly : forall (A : Type) (m : M A),
  (forall s a s', m s = Ok a s' -> s' = s) -> stays m.
Proof. intros A m H s a s' E. rewrite (H _ _ _ E). auto. Qed.

Lemma stays_layerStackBack : stays layerStackBack.
Proof.
  apply stays_readonly. intros s a s' H.
  unfold layerStackBack, bind, get, ret, crash in H.
  destruct (mLayerStack s); inversion H; reflexivity.
Qed.

Lemma stays_at : forall (A : Type) (v : list A) i, stays (at_ v i).
Proof.
  intros A v i. apply stays_readonly. intros s a s' H. unfold at_, ret, crash in H.
  destruct (nth_error v i); inversion H; reflexivity.
Qed.

Lemma stays_currentLayer : stays currentLayer.
Proof.
  unfold currentLayer. apply stays_bind; [apply stays_layerStackBack|]. intro i.
  apply stays_readonly. intros s a s' H. unfold bind, get, at_, ret, crash in H.
  destruct (nth_error (mLayerBuilders s) i); inversion H; reflexivity.
Qed.

Lemma touches_setLayerBuilder : forall i lb, touches i (setLayerBuilder i lb).
Proof.
  intros i lb s a s' H. inversion H; subst. simpl.
  split; [reflexivity|]. split; [apply length_setNth|].
  intros j Hj. apply nth_error_setNth_other. congruence.
Qed.

Lemma touches_callLayer : forall i call, touches i (callLayer i call).
Proof.
  intros i call s a s' H. unfold callLayer, bind, get, at_, ret, crash in H.
  destruct (nth_error (mLayerBuilders s) i); [|discriminate].
  apply (touches_setLayerBuilder _ _ _ _ _ H).
Qed.

Lemma touches_setActiveUnclippedSaveLayers : forall i stack,
  touches i (setActiveUnclippedSaveLayers i stack).
Proof.
  intros i stack s a s' H.
  unfold setActiveUnclippedSaveLayers, bind, get, at_, ret, crash in H.
  destruct (nth_error (mLayerBuilders s) i); [|discriminate].
  apply (touches_setLayerBuilder _ _ _ _ _ H).
Qed.

(** a write to the builder that [mLayerStack.back()] names stays *)
Lemma stays_atTop : forall (A : Type) (k : nat -> M A),
  (forall i, touches i (k i)) -> stays (bind layerStackBack k).
Proof.
  intros A k Hk s a s' H. cbv [bind layerStackBack get ret crash] in H.
  destruct (mLayerStack s) as [|i below] eqn:Es; [discriminate|].
  destruct (Hk i _ _ _ H) as (S1 & L1 & N1).
  split; [congruence|]. split; [exact L1|].
  intros j Hj. apply N1. intro E. subst j. apply (Hj below). exact Es.
Qed.

Lemma stays_deferUnmergeableOp : forall st batchId, stays (deferUnmergeableOp st batchId).
Proof. intros. apply stays_atTop. intro. apply touches_callLayer. Qed.

Lemma stays_deferMergeableOp : forall st batchId mergeId,
  stays (deferMergeableOp st batchId mergeId).
Proof. intros. apply stays_atTop. intro. apply touches_callLayer. Qed.

Lemma stays_deferLayerClear : forall r, stays (deferLayerClear r).
Proof. intros. apply stays_atTop. intro. apply touches_callLayer. Qed.

Lemma stays_writeSnapshot : forall f, stays (writeSnapshot f).
Proof. intro. apply stays_canvasOnly, canvasOnly_writeSnapshot. Qed.

Lemma stays_currentSnapshot : stays currentSnapshot.
Proof. apply stays_canvasOnly, canvasOnly_currentSnapshot. Qed.

Lemma stays_deref : forall (A : Type) (p : option A), stays (deref p).
Proof. intros. apply stays_canvasOnly, canvasOnly_deref. Qed.

Lemma stays_save : forall flags, stays (save flags).
Proof. intro. apply stays_canvasOnly, canvasOnly_save. Qed.

Lemma stays_restoreToCount : forall n, stays (restoreToCount n).
Proof. intro. apply stays_canvasOnly, canvasOnly_restoreToCount. Qed.

Lemma stays_setSkipInOrderDraw : forall op flag, stays (setSkipInOrderDraw op flag).
Proof. intros op flag s a s' H. inversion H; subst. simpl. auto. Qed.

Lemma stays_getSkipInOrderDraw : forall op, stays (getSkipInOrderDraw op).
Proof. intros op s a s' H. inversion H; subst. auto. Qed.

Lemma stays_createLayerHandle : stays createLayerHandle.
Proof. intros s a s' H. inversion H; subst. simpl. auto. Qed.

Lemma stays_hasMergeableClip : forall st, stays (hasMergeableClip st).
Proof.
  intros st. unfold hasMergeableClip.
  destruct (negb _); [apply stays_ret|].
  apply stays_bind; [apply stays_deref | intro; apply stays_ret].
Qed.

Ltac stays_auto :=
  repeat first
    [ apply stays_ret
    | apply stays_crash
    | apply stays_writeSnapshot
    | apply stays_currentSnapshot
    | apply stays_deref
    | apply stays_at
    | apply stays_save
    | apply stays_restoreToCount
    | apply stays_currentLayer
    | apply stays_deferUnmergeableOp
    | apply stays_deferMergeableOp
    | apply stays_deferLayerClear
    | apply stays_setSkipInOrderDraw
    | apply stays_getSkipInOrderDraw
    | apply stays_createLayerHandle
    | apply stays_hasMergeableClip
    | apply stays_atTop; intro; first [apply touches_callLayer
                                      | apply touches_setActiveUnclippedSaveLayers]
    | apply stays_bind; [ | intros ]
    | match goal with
      | |- stays (if ?b then _ else _) => destruct b
      | |- stays (match ?x with _ => _ end) => destruct x
      end ].

Lemma stays_dispatch_plain : forall recurse op,
  isPlainDraw op = true -> stays (dispatch recurse op).
Proof.
  intros recurse op Hplain.
  destruct op; try discriminate; simpl; unfold_handlers;
    unfold andHasMergeableClip; stays_auto.
Qed.

Lemma stays_deferShadow : forall op, stays (deferShadow op).
Proof.
  intro op. unfold deferShadow, getLocalClipBounds. stays_auto.
Qed.

Lemma stays_deferBeginUnclippedLayerOp : forall op, stays (deferBeginUnclippedLayerOp op).
Proof. intro op. unfold deferBeginUnclippedLayerOp. stays_auto. Qed.

Lemma stays_deferEndUnclippedLayerOp : stays deferEndUnclippedLayerOp.
Proof. unfold deferEndUnclippedLayerOp. stays_auto. Qed.

Lemma stays_applyNodeProperties : forall props, stays (applyNodeProperties props).
Proof. intro. apply stays_canvasOnly, canvasOnly_applyNodeProperties. Qed.

Lemma stays_buildZSortedChildList : forall displayList chunk,
  stays (buildZSortedChildList displayList chunk).
Proof.
  intros dl chunk. unfold buildZSortedChildList.
  destruct (_ =? _); [apply stays_ret|].
  apply stays_bind; [|intro; apply stays_ret].
  generalize (@nil ZRenderNodeOpPair).
  induction (seq (beginChildIndex chunk) (endChildIndex chunk - beginChildIndex chunk))
    as [|i indices IH]; intro acc; simpl; [apply stays_ret|].
  apply stays_bind; [apply stays_at|]. intro childOp.
  destruct (_ && _).
  - apply stays_bind; [apply stays_setSkipInOrderDraw | intro; apply IH].
  - destruct (negb _); [|apply IH].
    apply stays_bind; [apply stays_setSkipInOrderDraw | intro; apply IH].
Qed.

Lemma confined_refl : forall s, confined 0 s s.
Proof.
  intro s. split; [lia|]. split; [|auto].
  exists []. split; [reflexivity|]. split; [reflexivity | constructor].
Qed.

(** the builders of [s0] that are not its current one are not the current
    one of a state confined to it either *)
Lemma confined_notCurrent : forall depth s0 s j,
  confined depth s0 s -> j < length (mLayerBuilders s0) -> notCurrent s0 j ->
  notCurrent s j.
Proof.
  intros depth s0 s j (_ & (extra & _ & Es & Fe) & _) Hj Hn below E.
  rewrite Es in E. destruct extra as [|k extra]; simpl in E.
  - apply (Hn below). exact E.
  - inversion E; subst. inversion Fe; subst. lia.
Qed.

Lemma confined_stays : forall (A : Type) (m : M A) depth s0 s a s',
  stays m -> confined depth s0 s -> m s = Ok a s' -> confined depth s0 s'.
Proof.
  intros A m depth s0 s a s' Hm Hc E.
  destruct (Hm _ _ _ E) as (S1 & L1 & N1).
  pose proof Hc as (Hl & (extra & He & Es & Fe) & Hn).
  split; [lia|]. split.
  - exists extra. rewrite S1. auto.
  - intros j Hj Hnc. rewrite N1; [apply Hn; assumption|].
    apply (confined_notCurrent _ _ _ _ Hc Hj Hnc).
Qed.

Lemma confined_trans : forall depth s0 s s',
  confined depth s0 s -> confined 0 s s' -> confined depth s0 s'.
Proof.
  intros depth s0 s s' Hc H0.
  pose proof Hc as (Hl & (extra & He & Es & Fe) & Hn).
  destruct H0 as (Hl' & (extra' & He' & Es' & _) & Hn').
  destruct extra' as [|? ?]; [|discriminate]. simpl in Es'.
  split; [lia|]. split.
  - exists extra. rewrite Es'. auto.
  - intros j Hj Hnc. rewrite Hn'; [apply Hn; assumption | lia |].
    apply (confined_notCurrent _ _ _ _ Hc Hj Hnc).
Qed.

Lemma tidy_stays : forall open (m : M unit), stays m -> tidy open open m.
Proof. intros open m Hm s0 s s' Hc E. apply (confined_stays _ m _ _ _ _ _ Hm Hc E). Qed.

Lemma tidy_tame : forall open (m : M unit), tame m -> tidy open open m.
Proof. intros open m Hm s0 s s' Hc E. apply (confined_trans _ _ s); auto. Qed.

Lemma tidy_ret : forall open, tidy open open (ret tt).
Proof. intro. apply tidy_stays, stays_ret. Qed.

Lemma tidy_seq : forall o1 o2 o3 (m1 m2 : M unit),
  tidy o1 o2 m1 -> tidy o2 o3 m2 -> tidy o1 o3 (m1 ;; m2).
Proof.
  intros o1 o2 o3 m1 m2 H1 H2 s0 s s' Hc E. unfold bind in E.
  destruct (m1 s) as [[] s1| |] eqn:E1; try discriminate.
  apply (H2 s0 s1 s'); [|exact E]. apply (H1 s0 s s1); assumption.
Qed.

Lemma tidy_bind : forall (A : Type) o1 o2 (m : M A) (k : A -> M unit),
  stays m -> (forall a, tidy o1 o2 (k a)) -> tidy o1 o2 (bind m k).
Proof.
  intros A o1 o2 m k Hm Hk s0 s s' Hc E. unfold bind in E.
  destruct (m s) as [a s1| |] eqn:E1; try discriminate.
  apply (Hk a s0 s1 s'); [|exact E].
  apply (confined_stays _ m _ _ _ _ _ Hm Hc E1).
Qed.

Lemma tidy_forEach : forall (A : Type) open (l : list A) (body : A -> M unit),
  (forall x, In x l -> tidy open open (body x)) -> tidy open open (forEach l body).
Proof.
  intros A open l body. induction l as [|x l IH]; intro H; simpl.
  - apply tidy_ret.
  - apply (tidy_seq open open open); [apply H; left; reflexivity|].
    apply IH. intros y Hy. apply H. right. exact Hy.
Qed.

Lemma tidy_ext : forall o1 o2 (m m' : M unit),
  (forall s, m s = m' s) -> tidy o1 o2 m -> tidy o1 o2 m'.
Proof. intros o1 o2 m m' E H s0 s s' Hc R. rewrite <- E in R. apply (H s0 s s'); auto. Qed.

(** what a completed [deferBeginLayerOp] did to the builders and the stack *)
Lemma deferBeginLayerOp_inv : forall b s s',
  deferBeginLayerOp b s = Ok tt s' ->
  exists new,
    mLayerBuilders s' = mLayerBuilders s ++ [new]
    /\ mLayerStack s' = length (mLayerBuilders s) :: mLayerStack s.
Proof.
  intros b s s' H. unfold deferBeginLayerOp in H.
  destruct (mCanvasState s) as [|snap under] eqn:Ec.
  - cbv [bind currentSnapshot get ret crash] in H. rewrite Ec in H. discriminate.
  - rewrite (bind_Ok _ _ _ _ _ _ _ (currentSnapshot_top _ _ _ Ec)) in H.
    rewrite (saveForLayer_exact _ _ _ _ _ _ _ _ _ _ _ Ec) in H.
    inversion H; subst. simpl. eauto.
Qed.

Lemma tidy_begin_layer : forall open b,
  tidy open (Clipped :: open) (deferBeginLayerOp b).
Proof.
  intros open b s0 s s' Hc E.
  destruct (deferBeginLayerOp_inv _ _ _ E) as (new & Eb & Es).
  pose proof Hc as (Hl & (extra & He & Est & Fe) & Hn).
  split; [rewrite Eb, length_app; simpl; lia|]. split.
  - exists (length (mLayerBuilders s) :: extra). simpl.
    split; [lia|]. split; [rewrite Es, Est; reflexivity|].
    constructor; [lia | exact Fe].
  - intros j Hj Hnc. rewrite Eb. rewrite nth_error_app1 by lia. apply Hn; assumption.
Qed.

(** what a completed [deferEndLayerOp] did: the layer stack lost its top, and
    the one builder written to is the one that was popped or the one the pop
    made current *)
Lemma deferEndLayerOp_inv : forall s s',
  deferEndLayerOp s = Ok tt s' ->
  exists k rest,
    mLayerStack s = k :: rest
    /\ mLayerStack s' = rest
    /\ length (mLayerBuilders s') = length (mLayerBuilders s)
    /\ (forall j, j <> k -> (forall below, rest <> j :: below) ->
                  nth_error (mLayerBuilders s') j = nth_error (mLayerBuilders s) j).
Proof.
  intros s s' H. unfold deferEndLayerOp in H.
  destruct (mLayerStack s) as [|k rest] eqn:Es.
  { cbv [bind currentLayer layerStackBack get ret crash] in H.
    rewrite Es in H. discriminate. }
  destruct (nth_error (mLayerBuilders s) k) as [finished|] eqn:En.
  2:{ cbv [bind currentLayer layerStackBack get at_ ret crash] in H.
      rewrite Es in H. rewrite En in H. discriminate. }
  rewrite (bind_Ok _ _ _ _ _ _ _ (currentLayer_top _ _ _ _ Es En)) in H.
  cbv zeta in H.
  rewrite (bind_Ok _ _ _ _ _ _ _ (layerStackBack_top _ _ _ Es)) in H.
  destruct (mCanvasState s) as [|removed [|restored under]] eqn:Ec;
    try (cbv [restoreForLayer restore bind get ret crash] in H;
         rewrite Ec in H; discriminate).
  rewrite (bind_Ok _ _ _ _ _ _ _ (restoreForLayer_top _ _ _ _ _ _ Ec Es)) in H.
  destruct (beginLayerOp finished) as [begin|]; [|discriminate].
  simpl deref in H. rewrite bind_ret in H.
  unfold tryBakeOpState in H. rewrite bind_assoc in H.
  rewrite (bind_Ok _ _ _ _ _ _ _ (currentSnapshot_mk _ _ _ _ _ _)) in H.
  rewrite bind_ret in H.
  exists k, rest. split; [reflexivity|].
  destruct (BakedOpState_tryConstruct _ _) as [bakedOpState|].
  - destruct (stays_deferUnmergeableOp _ _ _ _ _ H) as (S1 & L1 & N1).
    simpl in S1, L1, N1. split; [exact S1|]. split; [exact L1|].
    intros j _ Hj. apply N1. exact Hj.
  - destruct (touches_callLayer _ _ _ _ _ H) as (S1 & L1 & N1).
    simpl in S1, L1, N1. split; [exact S1|]. split; [exact L1|].
    intros j Hj _. apply N1. exact Hj.
Qed.

Lemma tidy_end_layer : forall open, tidy (Clipped :: open) open deferEndLayerOp.
Proof.
  intros open s0 s s' Hc E.
  destruct (deferEndLayerOp_inv _ _ E) as (k & rest & Es & Es' & L & N).
  pose proof Hc as (Hl & (extra & He & Est & Fe) & Hn).
  simpl in He. destruct extra as [|k' extra]; [discriminate|].
  rewrite Es in Est. simpl in Est. injection Est as Ek Er.
  inversion Fe as [|? ? Hk Fe']. clear Fe.
  split; [lia|]. split.
  - exists extra. split; [simpl in He; lia|]. split; [congruence | exact Fe'].
  - intros j Hj Hnc. rewrite N; [apply Hn; assumption | lia |].
    intros below Eb. rewrite Er in Eb. destruct extra as [|k2 extra2]; simpl in Eb.
    + apply (Hnc below). exact Eb.
    + injection Eb as Ej _. inversion Fe'. lia.
Qed.

Lemma tidy_deferRenderNodeOpImpl : forall recurse open op,
  (nothingToDraw (renderNode op) = false -> tame (recurse (renderNode op))) ->
  tidy open open (deferRenderNodeOpImpl recurse op).
Proof.
  intros recurse open op H. unfold deferRenderNodeOpImpl.
  destruct (nothingToDraw (renderNode op)); [apply tidy_ret|].
  apply tidy_bind; [apply stays_save|]. intro count.
  apply tidy_bind; [apply stays_writeSnapshot|]. intros _.
  apply tidy_bind; [apply stays_writeSnapshot|]. intros _.
  apply (tidy_seq open open open); [apply tidy_tame, H; reflexivity|].
  apply tidy_stays, stays_restoreToCount.
Qed.

Lemma tidy_deferRenderNodeOp : forall recurse open op,
  (nothingToDraw (renderNode op) = false -> tame (recurse (renderNode op))) ->
  tidy open open (deferRenderNodeOp recurse op).
Proof.
  intros recurse open op H. unfold deferRenderNodeOp.
  apply tidy_bind; [apply stays_getSkipInOrderDraw|]. intro skip.
  destruct (negb skip); [apply tidy_deferRenderNodeOpImpl; exact H | apply tidy_ret].
Qed.

Lemma tidy_defer3dChildren : forall recurse open mode z,
  (forall p, In p z -> nothingToDraw (renderNode (snd p)) = false ->
             tame (recurse (renderNode (snd p)))) ->
  tidy open open (defer3dChildren recurse mode z).
Proof.
  intros recurse open mode z H. unfold defer3dChildren.
  destruct z as [|first rest] eqn:Ez; [apply tidy_ret|]. rewrite <- Ez in *.
  destruct (_ || _); [apply tidy_ret|].
  pose proof (findNonNegativeIndex_le z) as Hnn.
  match goal with
  | |- tidy _ _ (defer3dChildren_loop _ ?steps _ ?e ?si ?di ?last) =>
      destruct (defer3dChildren_loop_rule recurse z e steps si di last)
        as (emitted & _ & E & F)
  end.
  - destruct mode; simpl; lia.
  - destruct mode; simpl; lia.
  - destruct mode; simpl; lia.
  - eapply tidy_ext; [intro s; symmetry; apply E|].
    apply tidy_forEach. intros e He.
    rewrite Forall_forall in F. destruct (F e He) as (p & Hp & [->| ->]); simpl.
    + apply tidy_stays, stays_deferShadow.
    + apply tidy_deferRenderNodeOpImpl. apply H. exact Hp.
Qed.

Lemma In_buildZSortedChildList : forall displayList chunk s z s' p,
  buildZSortedChildList displayList chunk s = Ok z s' ->
  In p z -> In (snd p) (getChildren displayList).
Proof.
  intros dl chunk s z s' p H Hin. unfold buildZSortedChildList in H.
  destruct (_ =? _); [inversion H; subst; destruct Hin|].
  unfold bind in H.
  destruct (buildZSortedChildList_loop _ _ _ _ s) as [z0 s0| |] eqn:E; try discriminate.
  inversion H; subst. apply In_stable_sort in Hin.
  assert (G : forall indices acc s z0 s0,
             buildZSortedChildList_loop dl chunk indices acc s = Ok z0 s0 ->
             (forall q, In q acc -> In (snd q) (getChildren dl)) ->
             forall q, In q z0 -> In (snd q) (getChildren dl)).
  { clear. induction indices as [|i indices IH]; intros acc s z0 s0 E Hacc q Hq;
      simpl in E.
    - inversion E; subst. apply Hacc. exact Hq.
    - unfold bind, at_ in E.
      destruct (nth_error (getChildren dl) i) as [childOp|] eqn:En; [|discriminate].
      simpl in E. apply nth_error_In in En.
      destruct (_ && _).
      + simpl in E. apply (IH _ _ _ _ E); [|exact Hq].
        intros q' Hq'. apply in_app_or in Hq'. destruct Hq' as [Hq'|[<-|[]]];
          [apply Hacc; exact Hq' | exact En].
      + destruct (negb _); simpl in E; apply (IH _ _ _ _ E); assumption. }
  apply (G _ _ _ _ _ E); [intros q []|exact Hin].
Qed.

Section Confined.

Variable recurse : RenderNode -> M unit.
Variable childOK : RenderNode -> bool.
Hypothesis recurse_tame :
  forall child, childOK child = true -> nothingToDraw child = false ->
                tame (recurse child).

Lemma tidy_deferProjectedChildren : forall open node,
  forallb (fun r => childOK (renderNode r)) (mProjectedNodes node) = true ->
  tidy open open (deferProjectedChildren recurse node).
Proof.
  intros open node Hproj. unfold deferProjectedChildren, translate, setProjectionPathMask.
  apply tidy_bind; [apply stays_save|]. intro count.
  apply tidy_bind; [apply stays_deref|]. intro displayList.
  apply tidy_bind; [stays_auto|]. intro op.
  apply tidy_bind; [stays_auto|]. intro backgroundOp.
  apply tidy_bind; [apply stays_writeSnapshot|]. intros _.
  apply tidy_bind; [apply stays_writeSnapshot|]. intros _.
  apply (tidy_seq open open open); [|apply tidy_stays, stays_restoreToCount].
  apply tidy_forEach. intros childOp Hin.
  apply tidy_bind; [apply stays_save|]. intro restoreTo.
  unfold concatMatrix.
  apply tidy_bind; [apply stays_writeSnapshot|]. intros _.
  apply (tidy_seq open open open); [|apply tidy_stays, stays_restoreToCount].
  apply tidy_deferRenderNodeOpImpl. apply recurse_tame.
  rewrite forallb_forall in Hproj. apply Hproj. exact Hin.
Qed.

Lemma tidy_dispatch : forall open open' op,
  checkOp childOK open op = Some open' ->
  tidy open open' (dispatch recurse op).
Proof.
  intros open open' op Hcheck.
  destruct (isPlainDraw op) eqn:Hplain.
  - assert (open' = open).
    { destruct op; try discriminate; simpl in Hcheck;
        try (destruct (hasPaint _); [|discriminate]); congruence. }
    subst open'. apply tidy_stays. apply stays_dispatch_plain. exact Hplain.
  - destruct op; try discriminate; simpl in Hcheck |- *.
    + inversion Hcheck; subst. apply tidy_begin_layer.
    + destruct open as [|[|] outer]; try discriminate. inversion Hcheck; subst.
      apply tidy_end_layer.
    + inversion Hcheck; subst.
      intros s0 s s' Hc E. simpl.
      apply (confined_stays _ _ _ _ _ _ _ (stays_deferBeginUnclippedLayerOp b) Hc E).
    + destruct open as [|[|] outer]; try discriminate. inversion Hcheck; subst.
      intros s0 s s' Hc E. simpl in Hc.
      apply (confined_stays _ _ _ _ _ _ _ stays_deferEndUnclippedLayerOp Hc E).
    + destruct (childOK (renderNode r)) eqn:Hok; [|discriminate].
      inversion Hcheck; subst.
      apply tidy_deferRenderNodeOp. apply recurse_tame. exact Hok.
Qed.

Lemma tidy_ops : forall node displayList indices open open',
  forallb (fun r => childOK (renderNode r)) (mProjectedNodes node) = true ->
  checkOps childOK node displayList indices open = Some open' ->
  tidy open open'
    (forEach indices (fun opIndex =>
       op <- at_ (getOps displayList) opIndex ;;
       dispatch recurse op ;;
       when (negb (isNull (head (mProjectedNodes node)))
             && (0 <=? projectionReceiveIndex displayList)%Z
             && (Z.of_nat opIndex =? projectionReceiveIndex displayList)%Z)
         (deferProjectedChildren recurse node))).
Proof.
  intros node displayList indices.
  induction indices as [|opIndex indices IH]; intros open open' Hproj Hcheck;
    simpl in Hcheck |- *.
  - inversion Hcheck; subst. apply tidy_ret.
  - destruct (nth_error (getOps displayList) opIndex) as [op|] eqn:Eop; [|discriminate].
    destruct (checkOp childOK open op) as [open1|] eqn:Echeck; [|discriminate].
    destruct (projectsAt node displayList opIndex && negb (isRenderNodeOp op)) eqn:Ebad;
      [discriminate|].
    apply (tidy_seq open open1 open'); [|apply IH; assumption].
    unfold at_. rewrite Eop.
    apply (tidy_ext open open1
             (dispatch recurse op ;;
              when (projectsAt node displayList opIndex)
                (deferProjectedChildren recurse node)));
      [intro s; reflexivity|].
    apply (tidy_seq open open1 open1); [apply tidy_dispatch; exact Echeck|].
    unfold when. destruct (projectsAt node displayList opIndex); [|apply tidy_ret].
    apply tidy_deferProjectedChildren. exact Hproj.
Qed.

Lemma tidy_chunks : forall node displayList chunks open open',
  forallb (fun r => childOK (renderNode r)) (getChildren displayList) = true ->
  forallb (fun r => childOK (renderNode r)) (mProjectedNodes node) = true ->
  checkChunks childOK node displayList chunks open = Some open' ->
  tidy open open'
    (forEach chunks (fun chunk =>
       zTranslatedNodes <- buildZSortedChildList displayList chunk ;;
       defer3dChildren recurse Negative zTranslatedNodes ;;
       forRange (beginOpIndex chunk) (endOpIndex chunk) (fun opIndex =>
         op <- at_ (getOps displayList) opIndex ;;
         dispatch recurse op ;;
         when (negb (isNull (head (mProjectedNodes node)))
               && (0 <=? projectionReceiveIndex displayList)%Z
               && (Z.of_nat opIndex =? projectionReceiveIndex displayList)%Z)
           (deferProjectedChildren recurse node)) ;;
       defer3dChildren recurse Positive zTranslatedNodes)).
Proof.
  intros node displayList chunks.
  induction chunks as [|chunk chunks IH];
    intros open open' Hchildren Hproj Hcheck; simpl in Hcheck |- *.
  - inversion Hcheck; subst. apply tidy_ret.
  - destruct (checkChunk childOK node displayList chunk open) as [open1|] eqn:Echunk;
      [|discriminate].
    apply (tidy_seq open open1 open'); [|apply IH; assumption].
    unfold checkChunk in Echunk.
    destruct (_ || _) in Echunk; [|discriminate].
    intros s0 s s' Hc E. unfold bind at 1 in E.
    destruct (buildZSortedChildList displayList chunk s) as [z s1| |] eqn:Ez;
      try discriminate.
    assert (Hz : forall p, In p z -> nothingToDraw (renderNode (snd p)) = false ->
                           tame (recurse (renderNode (snd p)))).
    { intros p Hp. apply recurse_tame. rewrite forallb_forall in Hchildren.
      apply Hchildren. apply (In_buildZSortedChildList _ _ _ _ _ _ Ez Hp). }
    assert (Hc1 : confined (clippedDepth open) s0 s1)
      by apply (confined_stays _ _ _ _ _ _ _ (stays_buildZSortedChildList _ _) Hc Ez).
    revert E. apply (tidy_seq open open open1); [apply tidy_defer3dChildren; exact Hz| |exact Hc1].
    apply (tidy_seq open open1 open1); [|apply tidy_defer3dChildren; exact Hz].
    unfold forRange. apply tidy_ops; assumption.
Qed.

Lemma tame_deferNodeOps : forall node displayList,
  getDisplayList node = Some displayList ->
  checkDisplayList childOK node displayList = true ->
  tame (deferNodeOps recurse node).
Proof.
  intros node displayList Hdl Hcheck. unfold checkDisplayList in Hcheck.
  apply andb_true_iff in Hcheck. destruct Hcheck as [Hcheck Hnone].
  apply andb_true_iff in Hcheck. destruct Hcheck as [Hchildren Hproj].
  destruct (checkChunks childOK node displayList (getChunks displayList) [])
    as [[|]|] eqn:Echunks; try discriminate.
  intros s s' E. unfold deferNodeOps in E. rewrite Hdl in E. simpl in E.
  rewrite bind_ret in E.
  apply (tidy_chunks node displayList _ _ _ Hchildren Hproj Echunks s s s');
    [apply confined_refl | exact E].
Qed.

Lemma tame_deferNodePropsAndOps_body : forall node,
  checkNode childOK node = true ->
  tame (deferNodePropsAndOps_body recurse node).
Proof.
  intros node Hcheck. unfold checkNode in Hcheck.
  apply andb_true_iff in Hcheck. destruct Hcheck as [_ Hdl].
  assert (Htidy : tidy [] [] (deferNodePropsAndOps_body recurse node)).
  { unfold deferNodePropsAndOps_body.
    destruct (rejected (properties node)); [apply tidy_ret|].
    apply tidy_bind; [apply stays_applyNodeProperties|]. intro saveLayerBounds.
    apply tidy_bind;
      [unfold quickRejectConservative; stays_auto|]. intro isRejected.
    destruct (negb isRejected); [|apply tidy_ret].
    destruct (getLayer node) as [buffer|].
    - apply tidy_stays. unfold tryBakeOpState. stays_auto.
    - destruct (getDisplayList node) as [displayList|] eqn:Edl; [|discriminate].
      assert (Hops : tame (deferNodeOps recurse node))
        by (eapply tame_deferNodeOps; eassumption).
      destruct (negb (Rect_isEmpty saveLayerBounds)); [|apply tidy_tame; exact Hops].
      apply (tidy_seq [] [Clipped] []); [apply tidy_begin_layer|].
      apply (tidy_seq [Clipped] [Clipped] []);
        [apply tidy_tame; exact Hops | apply tidy_end_layer]. }
  intros s s' E. apply (Htidy s s s'); [apply confined_refl | exact E].
Qed.

End Confined.

Lemma tame_deferNodePropsAndOps : forall depth node,
  wellFormed depth node = true ->
  tame (deferNodePropsAndOps (S depth) node).
Proof.
  intros depth. induction depth as [|depth IH]; intros node Hwf.
  - apply (tame_deferNodePropsAndOps_body (deferNodePropsAndOps 0)
             (fun child => nothingToDraw child || false)); [|exact Hwf].
    intros child Hok Hdraw. rewrite Hdraw in Hok. discriminate.
  - apply (tame_deferNodePropsAndOps_body (deferNodePropsAndOps (S depth))
             (fun child => nothingToDraw child || wellFormed depth child));
      [|exact Hwf].
    intros child Hok Hdraw. rewrite Hdraw in Hok. simpl in Hok.
    apply IH; assumption.
Qed.

(** X21.  The traversal of a well-formed node writes only to the layer
    builder that is current when it starts and to the builders it creates
    itself: every other builder of the object is, after the traversal,
    exactly as it was before, calls received included. *)
Theorem X21_traversal_is_confined_to_the_current_builder :
  forall (depth : nat) (node : RenderNode) s (i : nat) (below : list nat),
    bakesClipState ->
    wellFormed depth node = true ->
    mCanvasState s <> [] ->
    mLayerStack s = i :: below ->
    i < length (mLayerBuilders s) ->
    exists s',
      deferNodePropsAndOps (S depth) node s = Ok tt s'
      /\ forall j, j <> i -> j < length (mLayerBuilders s) ->
                   nth_error (mLayerBuilders s') j = nth_error (mLayerBuilders s) j.
Proof.
  intros depth node s i below Hb Hwf Hc Hs Hi.
  assert (Hv : valid s) by (split; [exact Hc | exists i, below; auto]).
  destruct (keeps_deferNodePropsAndOps depth node Hb Hwf s Hv) as (s' & E & _).
  exists s'. split; [exact E|].
  destruct (tame_deferNodePropsAndOps depth node Hwf s s' E) as (_ & _ & Hn).
  intros j Hj Hlt. apply Hn; [exact Hlt|].
  intros below' Eb. rewrite Hs in Eb. congruence.
Qed.

Lemma tame_recurse_at : forall depth child,
  childOKat depth child = true -> nothingToDraw child = false ->
  tame (deferNodePropsAndOps depth child).
Proof.
  intros depth child Hok Hdraw. unfold childOKat in Hok. rewrite Hdraw in Hok.
  destruct depth as [|depth]; [discriminate|].
  apply tame_deferNodePropsAndOps. exact Hok.
Qed.

(** A queue entry is deferred into a builder of its own: the builders that
    were there are untouched. *)
Lemma ctor_layer_appends : forall fuel entry s s',
  wellFormedEntry fuel entry = true ->
  FrameBuilder_ctor_layer fuel entry s = Ok tt s' ->
  length (mLayerBuilders s) <= length (mLayerBuilders s')
  /\ forall j, j < length (mLayerBuilders s) ->
               nth_error (mLayerBuilders s') j = nth_error (mLayerBuilders s) j.
Proof.
  intros fuel entry s s' Hwf E. unfold wellFormedEntry in Hwf.
  apply andb_true_iff in Hwf. destruct Hwf as [_ Hdl].
  unfold FrameBuilder_ctor_layer in E.
  destruct (mCanvasState s) as [|snap under] eqn:Ec.
  { cbv [bind currentSnapshot get ret crash] in E. rewrite Ec in E. discriminate. }
  rewrite (bind_Ok _ _ _ _ _ _ _ (currentSnapshot_top _ _ _ Ec)) in E.
  destruct (getLayer (computeOrdering (Entry_renderNode entry))) as [layer|];
    [|discriminate].
  simpl deref in E. rewrite bind_ret in E.
  rewrite (bind_Ok _ _ _ _ _ _ _ (saveForLayer_exact _ _ _ _ _ _ _ _ _ _ _ Ec)) in E.
  match type of E with
  | bind _ _ ?st = _ => set (s1 := st) in E
  end.
  unfold bind at 1 in E.
  destruct (when _ _ s1) as [[] s2| |] eqn:Eops; try discriminate.
  assert (H2 : confined 0 s1 s2).
  { unfold when in Eops.
    destruct (getDisplayList (computeOrdering (Entry_renderNode entry)))
      as [displayList|] eqn:Edl; simpl in Eops.
    - apply (tame_deferNodeOps (deferNodePropsAndOps fuel) (childOKat fuel)
               (tame_recurse_at fuel) _ displayList Edl Hdl s1 s2 Eops).
    - inversion Eops; subst. apply confined_refl. }
  destruct H2 as (Hl2 & (extra & He & Es2 & _) & Hn2).
  destruct extra; [|discriminate]. simpl in Es2.
  assert (Hb3 : mLayerBuilders s' = mLayerBuilders s2).
  { unfold restoreForLayer in E. unfold bind at 1 in E.
    destruct (restore s2) as [[] s2'| |] eqn:Er; try discriminate.
    destruct (canvasOnly_restore _ _ _ Er) as (Hb & Hst & _).
    cbv [bind get put ret crash] in E.
    destruct (mLayerStack s2'); inversion E; subst. simpl. exact Hb. }
  rewrite Hb3. unfold s1 in Hl2, Hn2. simpl in Hl2, Hn2.
  rewrite length_app in Hl2. simpl in Hl2.
  split; [lia|].
  intros j Hj. rewrite Hn2.
  - apply nth_error_app1. exact Hj.
  - rewrite length_app. simpl. lia.
  - intros below' Eb. unfold s1 in Eb. simpl in Eb. injection Eb as Eb _. lia.
Qed.

Lemma ctor_layers_append : forall fuel entries s s',
  forallb (wellFormedEntry fuel) entries = true ->
  forEach entries (FrameBuilder_ctor_layer fuel) s = Ok tt s' ->
  length (mLayerBuilders s) <= length (mLayerBuilders s')
  /\ forall j, j < length (mLayerBuilders s) ->
               nth_error (mLayerBuilders s') j = nth_error (mLayerBuilders s) j.
Proof.
  intros fuel entries. induction entries as [|entry entries IH]; intros s s' Hwf E.
  - inversion E; subst. auto.
  - simpl in Hwf. apply andb_true_iff in Hwf. destruct Hwf as [Hentry Hrest].
    simpl in E. unfold bind in E.
    destruct (FrameBuilder_ctor_layer fuel entry s) as [[] s1| |] eqn:E1;
      try discriminate.
    destruct (ctor_layer_appends _ _ _ _ Hentry E1) as (L1 & N1).
    destruct (IH _ _ Hrest E) as (L2 & N2).
    split; [lia|]. intros j Hj. rewrite N2 by lia. apply N1. exact Hj.
Qed.

(** X22.  The layers of the queue are never deferred into the primary layer
    builder.  On well-formed input whose root nodes have nothing to draw,
    whatever the queue holds, construction completes and the primary builder
    has received nothing: it is as it was created. *)
Theorem X22_queue_leaves_the_primary_builder_empty :
  forall (fuel : nat) (layers : list Entry) (clip : SkRect)
         (viewportWidth viewportHeight : Z) (nodes : list RenderNode)
         (lightCenter : Vector3),
    bakesClipState ->
    wellFormedInput fuel layers nodes = true ->
    forallb nothingToDraw nodes = true ->
    exists s,
      FrameBuilder_new fuel layers clip viewportWidth viewportHeight nodes lightCenter
      = Ok tt s
      /\ nth_error (mLayerBuilders s) 0
         = Some (LayerBuilder_new viewportWidth viewportHeight (Rect_ofSkRect clip)
                   None None).
Proof.
  intros fuel layers clip w h nodes lightCenter Hb Hwf Hnodes.
  destruct (FrameBuilder_new_spec fuel layers clip w h nodes lightCenter Hb Hwf)
    as (s & created & E & _).
  exists s. split; [exact E|].
  rewrite FrameBuilder_new_unfold in E.
  unfold wellFormedInput in Hwf. apply andb_true_iff in Hwf. destruct Hwf as [Hlayers _].
  assert (Hrev : forallb (wellFormedEntry fuel) (rev layers) = true).
  { apply forallb_forall. intros e He. rewrite forallb_forall in Hlayers.
    apply Hlayers. apply in_rev. exact He. }
  unfold bind in E.
  match type of E with
  | match forEach _ _ ?st with _ => _ end = _ => set (s0 := st) in E
  end.
  destruct (forEach (rev layers) (FrameBuilder_ctor_layer fuel) s0) as [[] s1| |] eqn:E1;
    try discriminate.
  destruct (ctor_layers_append _ _ _ _ Hrev E1) as (_ & N1).
  assert (E2 : s = s1).
  { clear - E Hnodes. revert E. generalize s1.
    induction nodes as [|node nodes IH]; intros s2 E.
    - inversion E. reflexivity.
    - simpl in Hnodes. apply andb_true_iff in Hnodes. destruct Hnodes as [Hn Hrest].
      simpl in E. unfold FrameBuilder_ctor_node at 1 in E. rewrite Hn in E.
      rewrite bind_ret in E. apply IH; assumption. }
  rewrite E2. rewrite N1 by (simpl; lia). reflexivity.
Qed.

End Properties.

(** * The claims on concrete frames *)

Import Demo.

Lemma bake_gives_clip : bakesClipState.
Proof.
  intros snap op st H. simpl in H. unfold bake in H.
  destruct (isEmpty _); [discriminate|].
  injection H as <-. simpl. discriminate.
Qed.

(** ** C1 *)

Lemma C1_bitmap_merge_ignores_clip_mode_witness :
  mCanvasState frame100 = [snap100]
  /\ BakedOpState_tryConstruct snap100 (BitmapOp regionClipped bitmap7) = Some regionBaked
  /\ clipState (computedState regionBaked) = Some (mkClipBase Region (rect 0 0 50 50))
  /\ deferBitmapOp regionClipped bitmap7 frame100
     = deferMergeableOp regionBaked Bitmap 7 frame100.
Proof.
  assert (H1 : mCanvasState frame100 = [snap100]) by reflexivity.
  assert (H2 : BakedOpState_tryConstruct snap100 (BitmapOp regionClipped bitmap7)
               = Some regionBaked) by (vm_compute; reflexivity).
  split; [exact H1|]. split; [exact H2|]. split; [reflexivity|].
  apply (proj1 (proj2 (C1_bitmap_merge_ignores_clip_mode
                         regionClipped bitmap7 frame100 snap100 [] regionBaked H1 H2))
           eq_refl (mkClipBase Region (rect 0 0 50 50))).
  reflexivity.
Defined.

(** The claim fails on a bitmap clipped by a region: it is baked with a clip
    of mode Region, every other condition holds, and the primary layer
    builder receives it as a mergeable op; a state without a clip state makes
    the predicate fault instead of counting as rectangular. *)
Lemma C1_region_clip_is_merged :
  BakedOpState_tryConstruct snap100 (BitmapOp regionClipped bitmap7) = Some regionBaked
  /\ isRectangle (ClipBase_mode (mkClipBase Region (rect 0 0 50 50))) = false
  /\ deferBitmapOp regionClipped bitmap7 frame100
     = Ok tt (withLayerBuilder frame100 0
                (withReceived fbo0 [DeferMergeableOp regionBaked Bitmap 7]))
  /\ hasMergeableClip unclippedState frame100 = Crash NullDereference.
Proof.
  repeat split; vm_compute; reflexivity.
Qed.

(** ** C3 *)

Lemma C3_strokeable_batches_witness :
  paint (plainBase 0 0 50 50) = Some plainPaint
  /\ mCanvasState frame100 = [snap100]
  /\ dispatch (fun _ => ret tt) (tessellatedOp TPath (plainBase 0 0 50 50)) frame100
     = deferUnmergeableOp pathBaked (strokeableBatch TPath plainPaint) frame100.
Proof.
  assert (H1 : paint (plainBase 0 0 50 50) = Some plainPaint) by reflexivity.
  assert (H2 : mCanvasState frame100 = [snap100]) by reflexivity.
  split; [exact H1|]. split; [exact H2|].
  rewrite (C3_strokeable_batches (fun _ => ret tt) TPath (plainBase 0 0 50 50)
             plainPaint frame100 snap100 [] H1 H2).
  vm_compute. reflexivity.
Defined.

(** The claim fails on a path op whose paint has no path effect and is not
    anti-aliased: the rule of the claim gives batch Vertices, and the primary
    layer builder receives the op on batch Bitmap. *)
Lemma C3_path_op_on_bitmap_batch :
  paintBatch plainPaint = Vertices
  /\ tessBatchId (plainBase 0 0 50 50) frame100 = Ok Vertices frame100
  /\ dispatch (fun _ => ret tt) (PathOp (plainBase 0 0 50 50)) frame100
     = Ok tt (withLayerBuilder frame100 0
                (withReceived fbo0 [DeferUnmergeableOp pathBaked Bitmap]))
  /\ Bitmap <> Vertices.
Proof.
  repeat split; try (vm_compute; reflexivity). discriminate.
Qed.

(** ** C7 *)

Lemma C7_rejected_node_defers_nothing_witness :
  F32.leb (getAlpha (properties invisible)) F32.zero = true
  /\ deferNodePropsAndOps 1 invisible frame100 = Ok tt frame100
  /\ deferShadow (opOn 3 invisible) frame100 = Ok tt frame100.
Proof.
  assert (H : F32.leb (getAlpha (properties invisible)) F32.zero = true) by reflexivity.
  split; [exact H|].
  destruct (C7_rejected_node_defers_nothing invisible (or_introl H)) as [Hnode Hshadow].
  split; [apply Hnode|].
  apply (Hshadow eq_refl 0 (opOn 3 invisible) frame100 eq_refl).
Defined.

(** ** C8 *)

Lemma C8_end_unclipped_layer_witness :
  mLayerStack openFrame = [0]
  /\ nth_error (mLayerBuilders openFrame) 0 = Some (withActive fbo0 [s6_baked])
  /\ activeUnclippedSaveLayers (withActive fbo0 [s6_baked]) = [] ++ [s6_baked]
  /\ deferEndUnclippedLayerOp openFrame
     = Ok tt (withLayerBuilder openFrame 0
                (withActive
                   (withReceived (withActive fbo0 [s6_baked])
                      [DeferUnmergeableOp s6_baked CopyFromLayer])
                   [])).
Proof.
  assert (H1 : mLayerStack openFrame = [0]) by reflexivity.
  assert (H2 : nth_error (mLayerBuilders openFrame) 0
               = Some (withActive fbo0 [s6_baked])) by reflexivity.
  split; [exact H1|]. split; [exact H2|]. split; [reflexivity|].
  apply (proj2 (C8_end_unclipped_layer openFrame 0 [] _ H1 H2) [] s6_baked).
  reflexivity.
Defined.

(** With no unclipped save-layer open on the primary layer builder the end
    op is fatal. *)
Example end_unclipped_layer_on_empty_stack :
  activeUnclippedSaveLayers fbo0 = []
  /\ deferEndUnclippedLayerOp frame100 = Crash (LogAlwaysFatal "no layer to end!"%string).
Proof. split; reflexivity. Qed.

(** ** C9 *)

Lemma C9_empty_reveal_clip_skips_shadow_witness :
  RevealClip_getPath (getRevealClip (properties (renderNode revealedCaster)))
  = Some EmptyPath
  /\ SkPath_isEmpty EmptyPath = true
  /\ deferShadow revealedCaster frame100 = Ok tt frame100.
Proof.
  split; [reflexivity|]. split; [reflexivity|].
  apply (C9_empty_reveal_clip_skips_shadow revealedCaster EmptyPath frame100);
    reflexivity.
Defined.

(** ** C5 *)

(** Scenario S6: the primary layer builder receives the copy-to, the clear,
    the rectangle and the copy-from, over (10,10,20,20). *)
Lemma C5_unclipped_layer_sequence_witness :
  mCanvasState frame100 = [snap100]
  /\ mLayerStack frame100 = [0]
  /\ nth_error (mLayerBuilders frame100) 0 = Some fbo0
  /\ drawsInto (deferRectOp s6_rect) (mCanvasState frame100)
       [DeferUnmergeableOp s6_baked Vertices]
  /\ bind (deferBeginUnclippedLayerOp s6_layer)
       (fun _ => bind (deferRectOp s6_rect) (fun _ => deferEndUnclippedLayerOp))
       frame100
     = Ok tt
         (mkFrameBuilder
            [withReceived fbo0
               [DeferUnmergeableOp
                  (BakedOpState_directConstruct (viewportClip fbo0) (rect 10 10 20 20)
                     (CopyToLayerOp s6_layer 0)) CopyToLayer;
                DeferLayerClear (rect 10 10 20 20);
                DeferUnmergeableOp s6_baked Vertices;
                DeferUnmergeableOp
                  (BakedOpState_directConstruct (viewportClip fbo0) (rect 10 10 20 20)
                     (CopyFromLayerOp s6_layer 0)) CopyFromLayer]]
            [0] [snap100] [] 1).
Proof.
  assert (H1 : mCanvasState frame100 = [snap100]) by reflexivity.
  assert (H2 : mLayerStack frame100 = [0]) by reflexivity.
  assert (H3 : nth_error (mLayerBuilders frame100) 0 = Some fbo0) by reflexivity.
  assert (H4 : drawsInto (deferRectOp s6_rect) (mCanvasState frame100)
                 [DeferUnmergeableOp s6_baked Vertices]).
  { change Vertices with (paintBatch plainPaint).
    apply (drawsInto_deferRectOp s6_rect plainPaint snap100 [] s6_baked);
      [reflexivity | vm_compute; reflexivity]. }
  split; [exact H1|]. split; [exact H2|]. split; [exact H3|]. split; [exact H4|].
  rewrite (C5_unclipped_layer_sequence s6_layer (deferRectOp s6_rect) _
             frame100 snap100 [] 0 [] fbo0 H1 H2 H3 H4).
  vm_compute. reflexivity.
Defined.

(** The claim fails on an unclipped save-layer recorded under a translation
    by (5,0): mapping its bounds (10,10,20,20) by the current transform and
    clipping gives (10,10,20,20), and the layer builder is told to clear
    (15,10,25,20). *)
Lemma C5_local_matrix_moves_the_rectangle :
  Rect_doIntersect
    (Matrix4_mapRect (Snapshot_transform snap100) (unmappedBounds shiftedLayer))
    (Snapshot_getRenderTargetClip snap100)
  = rect 10 10 20 20
  /\ deferBeginUnclippedLayerOp shiftedLayer frame100
     = Ok tt
         (mkFrameBuilder
            [withActive
               (withReceived fbo0
                  [DeferUnmergeableOp
                     (BakedOpState_directConstruct (viewportClip fbo0) (rect 15 10 25 20)
                        (CopyToLayerOp shiftedLayer 0)) CopyToLayer;
                   DeferLayerClear (rect 15 10 25 20)])
               [BakedOpState_directConstruct (viewportClip fbo0) (rect 15 10 25 20)
                  (CopyFromLayerOp shiftedLayer 0)]]
            [0] [snap100] [] 1)
  /\ rect 15 10 25 20 <> rect 10 10 20 20.
Proof.
  repeat split; try (vm_compute; reflexivity). discriminate.
Qed.

(** ** C10 *)

Lemma C10_layer_op_quick_rejected_witness :
  rejected (properties offscreenLayer) = false
  /\ getLayer offscreenLayer = Some identity
  /\ applyNodeProperties (properties offscreenLayer) frame100
     = Ok Rect_default offscreenFrame
  /\ mCanvasState offscreenFrame = [offscreenSnap]
  /\ Snapshot_quickRejectConservative offscreenSnap F32.zero F32.zero
       (F32.of_int (getWidth (properties offscreenLayer)))
       (F32.of_int (getHeight (properties offscreenLayer))) = false
  /\ BakedOpState_tryConstruct offscreenSnap (LayerOp_ofNode offscreenLayer) = None
  /\ deferNodePropsAndOps 1 offscreenLayer frame100 = Ok tt offscreenFrame
  /\ mLayerBuilders offscreenFrame = mLayerBuilders frame100.
Proof.
  assert (H1 : rejected (properties offscreenLayer) = false) by reflexivity.
  assert (H2 : getLayer offscreenLayer = Some identity) by reflexivity.
  assert (H3 : applyNodeProperties (properties offscreenLayer) frame100
               = Ok Rect_default offscreenFrame) by (vm_compute; reflexivity).
  assert (H4 : mCanvasState offscreenFrame = [offscreenSnap]) by reflexivity.
  assert (H5 : Snapshot_quickRejectConservative offscreenSnap F32.zero F32.zero
                 (F32.of_int (getWidth (properties offscreenLayer)))
                 (F32.of_int (getHeight (properties offscreenLayer))) = false)
    by (vm_compute; reflexivity).
  assert (H6 : BakedOpState_tryConstruct offscreenSnap (LayerOp_ofNode offscreenLayer)
               = None) by (vm_compute; reflexivity).
  repeat (split; [assumption|]).
  destruct (C10_layer_op_quick_rejected 0 offscreenLayer identity frame100
              offscreenFrame Rect_default offscreenSnap [] H1 H2 H3 H4 H5 H6)
    as (E & Hb & _).
  split; assumption.
Defined.

(** ** C6 *)

(** A frame with two queued layers, a clipped save-layer inside one of them,
    and a root whose display list nests an unclipped save-layer in a clipped
    one and draws a raised child and a translucent child. *)
Lemma C6_balanced_stacks_witness :
  bakesClipState
  /\ wellFormedInput 2 [entry0; entry1] [page] = true
  /\ exists s,
       FrameBuilder_new 2 [entry0; entry1] clip100 100 100 [page] light0 = Ok tt s
       /\ mLayerStack s = [0]
       /\ length (mCanvasState s) = 1.
Proof.
  assert (H : wellFormedInput 2 [entry0; entry1] [page] = true)
    by (vm_compute; reflexivity).
  split; [exact bake_gives_clip|]. split; [exact H|].
  exact (C6_balanced_stacks 2 [entry0; entry1] clip100 100 100 [page] light0
           bake_gives_clip H).
Defined.

(** ** C4 *)

(** a queue of two layers and a root whose display list opens save-layers
    of its own: five builders, and the two entries at indices 1 and 2 *)
Lemma C4_queue_layers_in_reverse_order_witness :
  bakesClipState
  /\ wellFormedInput 2 [entry0; entry2] [page] = true
  /\ exists s lb1 lb2,
       FrameBuilder_new 2 [entry0; entry2] clip100 100 100 [page] light0 = Ok tt s
       /\ length (mLayerBuilders s) = 5
       /\ layerNodes (mLayerBuilders s)
          = [Entry_renderNode entry2; Entry_renderNode entry0]
       /\ nth_error (mLayerBuilders s) 1 = Some lb1
       /\ skeleton lb1 = entryBuilder entry2
       /\ nth_error (mLayerBuilders s) 2 = Some lb2
       /\ skeleton lb2 = entryBuilder entry0.
Proof.
  assert (H : wellFormedInput 2 [entry0; entry2] [page] = true)
    by (vm_compute; reflexivity).
  split; [exact bake_gives_clip|]. split; [exact H|].
  destruct (C4_queue_layers_in_reverse_order 2 [entry0; entry2] clip100 100 100
              [page] light0 bake_gives_clip H) as (s & E & _ & _ & Hnodes & Hat).
  assert (Hlen : length (mLayerBuilders s) = 5).
  { pose proof E as E'. vm_compute in E'. injection E' as <-. reflexivity. }
  assert (Hfront : forall k lb, 1 <= k <= 2 ->
                     nth_error (mLayerBuilders s) k = Some lb ->
                     LayerBuilder_renderNode lb <> None).
  { pose proof E as E'. vm_compute in E'. injection E' as <-.
    intros k lb Hk Hn. destruct k as [|[|[|k]]]; try lia;
      vm_compute in Hn; injection Hn as <-; discriminate. }
  destruct (Hat 1 entry2) as (lb1 & L1 & K1);
    [simpl; lia | reflexivity | intros k lb Hk; apply Hfront; lia |].
  destruct (Hat 2 entry0) as (lb2 & L2 & K2);
    [simpl; lia | reflexivity | exact Hfront |].
  exists s, lb1, lb2. repeat split; assumption.
Defined.

(** The claim fails on a queue of two entries when the display list of the
    last one opens a clipped save-layer: index 1 holds the builder of that
    entry, index 2 the builder of its save-layer, which belongs to no render
    node, and the first entry is found at index 3. *)
Lemma C4_save_layer_shifts_the_queue :
  exists s lb2 lb3,
    FrameBuilder_new 2 [entry0; entry1] clip100 100 100 [page] light0 = Ok tt s
    /\ nth_error (mLayerBuilders s) 2 = Some lb2
    /\ LayerBuilder_renderNode lb2 = None
    /\ skeleton lb2 <> entryBuilder entry0
    /\ nth_error (mLayerBuilders s) 3 = Some lb3
    /\ skeleton lb3 = entryBuilder entry0.
Proof.
  destruct (FrameBuilder_new 2 [entry0; entry1] clip100 100 100 [page] light0)
    as [[] s| |] eqn:E; try (vm_compute in E; discriminate).
  destruct (nth_error (mLayerBuilders s) 2) as [lb2|] eqn:E2;
    [|vm_compute in E; injection E as <-; vm_compute in E2; discriminate].
  destruct (nth_error (mLayerBuilders s) 3) as [lb3|] eqn:E3;
    [|vm_compute in E; injection E as <-; vm_compute in E3; discriminate].
  exists s, lb2, lb3.
  vm_compute in E. injection E as <-.
  vm_compute in E2. injection E2 as <-.
  vm_compute in E3. injection E3 as <-.
  repeat split; try (vm_compute; reflexivity).
  vm_compute. discriminate.
Qed.

(** * The further properties on concrete frames *)

Lemma X4_z_list_holds_the_reordered_children_witness :
  endChildIndex zChunk <= length (getChildren zList)
  /\ exists zTranslatedNodes s',
       buildZSortedChildList zList zChunk frame100 = Ok zTranslatedNodes s'
       /\ Permutation zTranslatedNodes [(fz 2, opOn 1 raised); (fz (-1), opOn 3 sunk)]
       /\ mLayerBuilders s' = mLayerBuilders frame100.
Proof.
  assert (H : endChildIndex zChunk <= length (getChildren zList)) by (simpl; lia).
  split; [exact H|].
  destruct (X4_z_list_holds_the_reordered_children zList zChunk frame100 H)
    as (zs & s' & E & P & _ & Hb & _).
  exists zs, s'. split; [exact E|]. split; [|exact Hb].
  assert (Hl : map (fun childOp => (getZ (properties (renderNode childOp)), childOp))
                 (filter (fun childOp =>
                            negb (MathUtils_isZero (getZ (properties (renderNode childOp))))
                            && reorderChildren zChunk)
                    (chunkChildren zList zChunk))
               = [(fz 2, opOn 1 raised); (fz (-1), opOn 3 sunk)])
    by (vm_compute; reflexivity).
  rewrite Hl in P. exact P.
Defined.

Lemma X5_reordered_child_is_skipped_in_order_witness :
  endChildIndex zChunk <= length (getChildren zList)
  /\ In (opOn 1 raised) (chunkChildren zList zChunk)
  /\ exists zTranslatedNodes s',
       buildZSortedChildList zList zChunk frame100 = Ok zTranslatedNodes s'
       /\ In (fz 2, opOn 1 raised) zTranslatedNodes
       /\ deferRenderNodeOp (fun _ => ret tt) (opOn 1 raised) s' = Ok tt s'.
Proof.
  assert (H : endChildIndex zChunk <= length (getChildren zList)) by (simpl; lia).
  assert (Hin : In (opOn 1 raised) (chunkChildren zList zChunk)) by (left; reflexivity).
  assert (Huniq : forall other, In other (chunkChildren zList zChunk) ->
                    opAddr other = opAddr (opOn 1 raised) -> other = opOn 1 raised).
  { intros other [<-|[<-|[<-|[]]]] Ha; try reflexivity; discriminate Ha. }
  split; [exact H|]. split; [exact Hin|].
  destruct (X5_reordered_child_is_skipped_in_order (fun _ => ret tt) zList zChunk
              (opOn 1 raised) frame100 H Hin Huniq)
    as (zs & s' & E & Hz & _).
  exists zs, s'. split; [exact E|]. apply Hz. vm_compute. reflexivity.
Defined.

Lemma X6_save_and_restore_for_layer_witness :
  mCanvasState frame100 = [snap100]
  /\ bind (saveForLayer 50 50 F32.zero F32.zero (rect 0 0 50 50) light0 None None)
       (fun _ => restoreForLayer) frame100
     = Ok tt (mkFrameBuilder [fbo0; LayerBuilder_new 50 50 (rect 0 0 50 50) None None]
                [0] [snap100] [] 0).
Proof.
  assert (H : mCanvasState frame100 = [snap100]) by reflexivity.
  split; [exact H|].
  rewrite (X6_save_and_restore_for_layer (C:=collaborators) 50 50 F32.zero F32.zero
             (rect 0 0 50 50) light0 None None frame100 snap100 [] H).
  reflexivity.
Defined.

Lemma X7_clipped_layer_bracket_witness :
  mCanvasState frame100 = [snap100]
  /\ mLayerStack frame100 = [0]
  /\ nth_error (mLayerBuilders frame100) 0 = Some fbo0
  /\ exists s' layer,
       bind (deferBeginLayerOp saveLayer)
         (fun _ => bind (deferRectOp smallRect) (fun _ => deferEndLayerOp)) frame100
       = Ok tt s'
       /\ mLayerStack s' = [0]
       /\ length (mLayerBuilders s') = 2
       /\ nth_error (mLayerBuilders s') 1 = Some layer
       /\ beginLayerOp layer = Some saveLayer
       /\ batches layer = [Some Vertices]
       /\ option_map batches (nth_error (mLayerBuilders s') 0) = Some [Some Bitmap].
Proof.
  assert (H1 : mCanvasState frame100 = [snap100]) by reflexivity.
  assert (H2 : mLayerStack frame100 = [0]) by reflexivity.
  assert (H3 : nth_error (mLayerBuilders frame100) 0 = Some fbo0) by reflexivity.
  assert (H4 : forall s1, deferBeginLayerOp saveLayer frame100 = Ok tt s1 ->
                 drawsInto (deferRectOp smallRect) (mCanvasState s1)
                   [DeferUnmergeableOp
                      (bakedAt (rect 0 0 50 50) (rect 0 0 10 10) (RectOp smallRect))
                      Vertices]).
  { intros s1 E. vm_compute in E. injection E as <-.
    change Vertices with (paintBatch plainPaint).
    eapply (drawsInto_deferRectOp smallRect plainPaint);
      [reflexivity | vm_compute; reflexivity]. }
  repeat (split; [assumption|]).
  destruct (X7_clipped_layer_bracket saveLayer (deferRectOp smallRect) _ frame100
              snap100 [] 0 [] fbo0 H1 H2 H3 H4)
    as (s' & layer & restored & E & Hs & Hc & Hlen & Hn & Hb & _ & _ & Hm).
  exists s', layer. repeat (split; [assumption|]).
  assert (Hrestored : restored = snap100).
  { pose proof E as E'. vm_compute in E'. injection E' as <-.
    vm_compute in Hc. injection Hc as <-. vm_compute. reflexivity. }
  subst restored.
  match type of Hm with
  | match ?baked with _ => _ end =>
      destruct baked eqn:Ebake; [|vm_compute in Ebake; discriminate]
  end.
  destruct Hm as [Hr Hp]. split.
  - unfold batches. rewrite Hr. reflexivity.
  - rewrite Hp. reflexivity.
Defined.

Lemma X8_end_layer_without_begin_witness :
  mLayerStack onLayer = [1; 0]
  /\ nth_error (mLayerBuilders onLayer) 1 = Some fbo0
  /\ mCanvasState onLayer = [snap100; snap100]
  /\ beginLayerOp fbo0 = None
  /\ deferEndLayerOp onLayer = Crash NullDereference.
Proof.
  repeat (split; [reflexivity|]).
  apply (proj2 (X8_end_layer_without_begin onLayer 1 [0] fbo0 snap100 snap100 []
                  eq_refl eq_refl eq_refl)).
  reflexivity.
Defined.

Lemma X9_unclipped_layers_end_innermost_first_witness :
  mCanvasState frame100 = [snap100]
  /\ mLayerStack frame100 = [0]
  /\ nth_error (mLayerBuilders frame100) 0 = Some fbo0
  /\ exists s' lb,
       bind (deferBeginUnclippedLayerOp s6_layer)
         (fun _ => bind (deferBeginUnclippedLayerOp innerLayer)
            (fun _ => bind deferEndUnclippedLayerOp
               (fun _ => deferEndUnclippedLayerOp))) frame100
       = Ok tt s'
       /\ nth_error (mLayerBuilders s') 0 = Some lb
       /\ batches lb = [Some CopyToLayer; None; Some CopyToLayer; None;
                        Some CopyFromLayer; Some CopyFromLayer]
       /\ activeUnclippedSaveLayers lb = []
       /\ nextHandle s' = 2.
Proof.
  repeat (split; [reflexivity|]).
  eexists. eexists.
  split; [apply (X9_unclipped_layers_end_innermost_first s6_layer innerLayer frame100
                   snap100 [] 0 [] fbo0); reflexivity|].
  repeat split.
Defined.

Lemma X10_rejected_op_defers_nothing_witness :
  isPlainDraw (RectOp outside) = true
  /\ mCanvasState frame100 = [snap100]
  /\ bakeOf snap100 (RectOp outside) = None
  /\ dispatch (fun _ => ret tt) (RectOp outside) frame100 = Ok tt frame100.
Proof.
  assert (H1 : isPlainDraw (RectOp outside) = true) by reflexivity.
  assert (H2 : mCanvasState frame100 = [snap100]) by reflexivity.
  assert (H3 : bakeOf snap100 (RectOp outside) = None) by (vm_compute; reflexivity).
  repeat (split; [assumption|]).
  rewrite (X10_rejected_op_defers_nothing (fun _ => ret tt) (RectOp outside) frame100
             snap100 [] H1 H2 H3).
  reflexivity.
Defined.

Lemma X11_accepted_op_is_one_call_witness :
  isPlainDraw (BitmapOp regionClipped bitmap7) = true
  /\ mCanvasState frame100 = [snap100]
  /\ mLayerStack frame100 = [0]
  /\ nth_error (mLayerBuilders frame100) 0 = Some fbo0
  /\ bakeOf snap100 (BitmapOp regionClipped bitmap7) = Some regionBaked
  /\ clipState (computedState regionBaked) <> None
  /\ exists call,
       dispatch (fun _ => ret tt) (BitmapOp regionClipped bitmap7) frame100
       = Ok tt (withLayerBuilder frame100 0 (withReceived fbo0 [call]))
       /\ callState call = Some regionBaked
       /\ (isMergeableCall call = true -> mayMerge (BitmapOp regionClipped bitmap7) = true).
Proof.
  assert (H1 : isPlainDraw (BitmapOp regionClipped bitmap7) = true) by reflexivity.
  assert (H2 : mCanvasState frame100 = [snap100]) by reflexivity.
  assert (H3 : mLayerStack frame100 = [0]) by reflexivity.
  assert (H4 : nth_error (mLayerBuilders frame100) 0 = Some fbo0) by reflexivity.
  assert (H5 : bakeOf snap100 (BitmapOp regionClipped bitmap7) = Some regionBaked)
    by (vm_compute; reflexivity).
  assert (H6 : clipState (computedState regionBaked) <> None) by discriminate.
  repeat (split; [assumption|]).
  apply (X11_accepted_op_is_one_call (fun _ => ret tt) (BitmapOp regionClipped bitmap7)
           frame100 snap100 [] 0 [] fbo0 regionBaked H1 H2 H3 H4 H5 H6).
  discriminate.
Defined.

Lemma X16_fixed_batches_witness :
  fixedBatch (LinesOp smallRect) = Some Vertices
  /\ mCanvasState frame100 = [snap100]
  /\ bakeOf snap100 (LinesOp smallRect)
     = Some (bakedAt (rect 0 0 100 100) (rect 0 0 10 10) (LinesOp smallRect))
  /\ dispatch (fun _ => ret tt) (LinesOp smallRect) frame100
     = deferUnmergeableOp
         (bakedAt (rect 0 0 100 100) (rect 0 0 10 10) (LinesOp smallRect))
         Vertices frame100.
Proof.
  assert (H1 : fixedBatch (LinesOp smallRect) = Some Vertices) by reflexivity.
  assert (H2 : mCanvasState frame100 = [snap100]) by reflexivity.
  assert (H3 : bakeOf snap100 (LinesOp smallRect)
               = Some (bakedAt (rect 0 0 100 100) (rect 0 0 10 10) (LinesOp smallRect)))
    by (vm_compute; reflexivity).
  repeat (split; [assumption|]).
  apply (X16_fixed_batches (fun _ => ret tt) (LinesOp smallRect) Vertices frame100
           snap100 [] _ H1 H2 H3).
Defined.

Lemma X12_patch_batches_witness :
  mCanvasState frame100 = [snap100]
  /\ BakedOpState_tryConstruct snap100 (PatchOp smallRect bitmap7)
     = Some (bakedAt (rect 0 0 100 100) (rect 0 0 10 10) (PatchOp smallRect bitmap7))
  /\ deferPatchOp smallRect bitmap7 frame100
     = deferMergeableOp
         (bakedAt (rect 0 0 100 100) (rect 0 0 10 10) (PatchOp smallRect bitmap7))
         MergedPatch 7 frame100.
Proof.
  assert (H1 : mCanvasState frame100 = [snap100]) by reflexivity.
  assert (H2 : BakedOpState_tryConstruct snap100 (PatchOp smallRect bitmap7)
               = Some (bakedAt (rect 0 0 100 100) (rect 0 0 10 10)
                         (PatchOp smallRect bitmap7)))
    by (vm_compute; reflexivity).
  repeat (split; [assumption|]).
  apply (proj1 (proj2 (X12_patch_batches smallRect bitmap7 frame100 snap100 [] _ H1 H2)));
    [reflexivity | discriminate].
Defined.

Lemma X13_text_batches_witness :
  mCanvasState frame100 = [snap100]
  /\ paint textBase = Some plainPaint
  /\ BakedOpState_tryConstruct snap100 (TextOp textBase)
     = Some (bakedAt (rect 0 0 100 100) (rect 0 80 50 90) (TextOp textBase))
  /\ deferTextOp textBase frame100
     = deferMergeableOp (bakedAt (rect 0 0 100 100) (rect 0 80 50 90) (TextOp textBase))
         Text 4278190080 frame100.
Proof.
  assert (H1 : mCanvasState frame100 = [snap100]) by reflexivity.
  assert (H2 : paint textBase = Some plainPaint) by reflexivity.
  assert (H3 : BakedOpState_tryConstruct snap100 (TextOp textBase)
               = Some (bakedAt (rect 0 0 100 100) (rect 0 80 50 90) (TextOp textBase)))
    by (vm_compute; reflexivity).
  repeat (split; [assumption|]).
  rewrite (proj1 (X13_text_batches textBase plainPaint frame100 snap100 [] H1 H2)
             _ H3 ltac:(discriminate)).
  reflexivity.
Defined.

Lemma X14_shadow_is_at_most_one_op_witness :
  mCanvasState frame100 = [snap100]
  /\ mLayerStack frame100 = [0]
  /\ nth_error (mLayerBuilders frame100) 0 = Some fbo0
  /\ deferShadow caster frame100
     = Ok tt (withLayerBuilder frame100 0
                (withReceived fbo0
                   [DeferUnmergeableOp
                      (bakedAt (rect 0 0 100 100) (rect 0 0 100 100) casterShadow)
                      Shadow])).
Proof.
  repeat (split; [reflexivity|]).
  destruct (proj1 (X14_shadow_is_at_most_one_op caster frame100 snap100 [] 0 [] fbo0
                     eq_refl eq_refl eq_refl))
    as [E | (casterPath & st & Eb & E)].
  - vm_compute in E. discriminate.
  - clear E Eb. vm_compute. reflexivity.
Defined.

Lemma X15_node_without_traversal_witness :
  rejected (properties farNode) = false
  /\ applyNodeProperties (properties farNode) frame100 = Ok Rect_default farFrame
  /\ mLayerStack frame100 = [0]
  /\ nth_error (mLayerBuilders frame100) 0 = Some fbo0
  /\ Snapshot_quickRejectConservative
       (mkSnap (fz 300, fz 0) (rect 0 0 100 100) F32.one light0) F32.zero F32.zero
       (F32.of_int (getWidth (properties farNode)))
       (F32.of_int (getHeight (properties farNode))) = true
  /\ deferNodePropsAndOps 1 farNode frame100 = Ok tt farFrame.
Proof.
  assert (H1 : rejected (properties farNode) = false) by reflexivity.
  assert (H2 : applyNodeProperties (properties farNode) frame100 = Ok Rect_default farFrame)
    by (vm_compute; reflexivity).
  assert (H3 : mLayerStack frame100 = [0]) by reflexivity.
  assert (H4 : nth_error (mLayerBuilders frame100) 0 = Some fbo0) by reflexivity.
  assert (H5 : Snapshot_quickRejectConservative
                 (mkSnap (fz 300, fz 0) (rect 0 0 100 100) F32.one light0)
                 F32.zero F32.zero
                 (F32.of_int (getWidth (properties farNode)))
                 (F32.of_int (getHeight (properties farNode))) = true)
    by (vm_compute; reflexivity).
  repeat (split; [assumption|]).
  apply (proj1 (X15_node_without_traversal 0 farNode frame100 farFrame Rect_default
                  _ [] 0 [] fbo0 H1 H2 eq_refl H3 H4)).
  exact H5.
Defined.

Lemma X17_properties_touch_only_the_current_snapshot_witness :
  mCanvasState frame100 = [snap100]
  /\ applyNodeProperties (properties translucent) frame100
     = Ok (rect 0 0 30 30) frame100
  /\ F32.ltb (getAlpha (properties translucent)) F32.one = true
  /\ mLayerBuilders frame100 = mLayerBuilders frame100.
Proof.
  assert (H1 : mCanvasState frame100 = [snap100]) by reflexivity.
  assert (H2 : applyNodeProperties (properties translucent) frame100
               = Ok (rect 0 0 30 30) frame100) by (vm_compute; reflexivity).
  repeat (split; [assumption|]).
  destruct (X17_properties_touch_only_the_current_snapshot (properties translucent)
              frame100 (rect 0 0 30 30) frame100 snap100 [] H1 H2)
    as (_ & Hb & _ & _ & _ & [Hd | (Ha & _)]).
  - vm_compute in Hd. discriminate.
  - split; [exact Ha | exact Hb].
Defined.

Lemma X18_well_formed_subtree_is_balanced_witness :
  bakesClipState
  /\ wellFormed 1 page = true
  /\ mCanvasState frame100 <> []
  /\ exists s' added,
       deferNodePropsAndOps 2 page frame100 = Ok tt s'
       /\ mLayerStack s' = mLayerStack frame100
       /\ length (mCanvasState s') = length (mCanvasState frame100)
       /\ map skeleton (mLayerBuilders s') = map skeleton (mLayerBuilders frame100) ++ added
       /\ Forall (fun lb => LayerBuilder_renderNode lb = None) added.
Proof.
  assert (H : wellFormed 1 page = true) by (vm_compute; reflexivity).
  assert (Hc : mCanvasState frame100 <> []) by discriminate.
  split; [exact bake_gives_clip|]. split; [exact H|]. split; [exact Hc|].
  apply (X18_well_formed_subtree_is_balanced 1 page frame100 bake_gives_clip H Hc).
  exists 0, []. split; [reflexivity | simpl; lia].
Defined.

Lemma X19_nothing_to_draw_witness :
  forallb nothingToDraw [invisible] = true
  /\ FrameBuilder_new 0 [] clip100 100 100 [invisible] light0 = Ok tt frame100.
Proof.
  assert (H : forallb nothingToDraw [invisible] = true) by reflexivity.
  split; [exact H|].
  rewrite (X19_nothing_to_draw 0 clip100 100 100 [invisible] light0 H).
  reflexivity.
Defined.

Lemma X20_queued_node_without_layer_witness :
  bakesClipState
  /\ forallb (wellFormedEntry 1) [entry2] = true
  /\ getLayer (computeOrdering (Entry_renderNode bareEntry)) = None
  /\ FrameBuilder_new 1 ([entry0] ++ bareEntry :: [entry2]) clip100 100 100 [] light0
     = Crash NullDereference.
Proof.
  assert (H : forallb (wellFormedEntry 1) [entry2] = true) by (vm_compute; reflexivity).
  split; [exact bake_gives_clip|]. split; [exact H|]. split; [reflexivity|].
  apply (X20_queued_node_without_layer 1 [entry0] [entry2] bareEntry clip100 100 100 []
           light0 bake_gives_clip H eq_refl).
Defined.

Lemma X21_traversal_is_confined_to_the_current_builder_witness :
  bakesClipState
  /\ wellFormed 1 page = true
  /\ mLayerStack onLayer = [1; 0]
  /\ exists s',
       deferNodePropsAndOps 2 page onLayer = Ok tt s'
       /\ nth_error (mLayerBuilders s') 0 = Some fbo0
       /\ option_map batches (nth_error (mLayerBuilders s') 1)
          = Some [Some Vertices; Some Bitmap; Some Bitmap; Some Text; Some Vertices].
Proof.
  assert (H : wellFormed 1 page = true) by (vm_compute; reflexivity).
  split; [exact bake_gives_clip|]. split; [exact H|]. split; [reflexivity|].
  destruct (X21_traversal_is_confined_to_the_current_builder 1 page onLayer 1 [0]
              bake_gives_clip H)
    as (s' & E & Hn); [discriminate | reflexivity | simpl; lia |].
  exists s'. split; [exact E|]. split.
  - rewrite (Hn 0); [reflexivity | discriminate | simpl; lia].
  - clear Hn. vm_compute in E. injection E as <-. vm_compute. reflexivity.
Defined.

Lemma X22_queue_leaves_the_primary_builder_empty_witness :
  bakesClipState
  /\ wellFormedInput 2 [entry0; entry1] [invisible] = true
  /\ forallb nothingToDraw [invisible] = true
  /\ exists s,
       FrameBuilder_new 2 [entry0; entry1] clip100 100 100 [invisible] light0 = Ok tt s
       /\ nth_error (mLayerBuilders s) 0 = Some fbo0
       /\ length (mLayerBuilders s) = 4.
Proof.
  assert (H1 : wellFormedInput 2 [entry0; entry1] [invisible] = true)
    by (vm_compute; reflexivity).
  assert (H2 : forallb nothingToDraw [invisible] = true) by reflexivity.
  split; [exact bake_gives_clip|]. split; [exact H1|]. split; [exact H2|].
  destruct (X22_queue_leaves_the_primary_builder_empty 2 [entry0; entry1] clip100
              100 100 [invisible] light0 bake_gives_clip H1 H2) as (s & E & Hn).
  exists s. split; [exact E|]. split; [exact Hn|].
  vm_compute in E. injection E as <-. reflexivity.
Defined.
